(** * Pinata Go SDK: request building and response handling

    A shallow embedding of the files and upload services of the SDK
    (packages [types], [files] and [upload], and the configuration of
    package [pinata]) together with the properties of their HTTP
    behaviour. The methods are those of [files.PrivateService],
    [files.PublicService] and [upload.PrivateService].

    Go values are modelled as follows.
    - [string] is a byte string; Go strings are compared and concatenated
      bytewise, and so are Rocq strings.
    - [int], [int64] are [Z]; the code only compares them with constants.
    - [map[string]string] is [gmap string string]; a nil map and an empty
      map have the same [len] and are not told apart.
    - a pointer argument that may be nil is an [option].
    - a function returning [(T, error)] returns a pair [T * option error].
    - everything outside the repository (network, clock, file system, the
      Go standard library's parsers and encoders) is either part of the
      [World] the calls run in or an oracle of the environment [Env]. *)

From Stdlib Require Import ZArith String Ascii DecimalString.
From stdpp Require Import base option gmap strings list.

Local Open Scope string_scope.
Local Open Scope list_scope.

(** ** Go strings *)

Module gostrings.

(** [strconv.Itoa] and the verb [%d] of [fmt]. *)
Definition itoa (z : Z) : string := NilZero.string_of_int (Z.to_int z).

(** [strings.Split(s, sep)] for a separator of one byte: a string with
    [n] separators yields [n + 1] pieces, so the result is never empty. *)
Fixpoint Split (sep : ascii) (s : string) : list string :=
  match s with
  | EmptyString => [""]
  | String a s' =>
      if decide (a = sep) then "" :: Split sep s'
      else match Split sep s' with
           | h :: t => String a h :: t
           | [] => [String a ""]
           end
  end.

Fixpoint has_prefix (p s : string) : bool :=
  match p, s with
  | EmptyString, _ => true
  | String a p', String b s' => bool_decide (a = b) && has_prefix p' s'
  | String _ _, EmptyString => false
  end.

(** [strings.ReplaceAll(s, old, new)] for a non-empty [old]: matches are
    taken left to right and do not overlap. [skip] counts the bytes of a
    match that are still to be dropped. *)
Fixpoint replace_from (old new : string) (skip : nat) (s : string) : string :=
  match s with
  | EmptyString => ""
  | String a s' =>
      match skip with
      | S k => replace_from old new k s'
      | O =>
          if has_prefix old s
          then new +:+ replace_from old new (String.length old - 1) s'
          else String a (replace_from old new 0 s')
      end
  end.

Definition ReplaceAll (s old new : string) : string :=
  replace_from old new 0 s.

Fixpoint trim_left (c : ascii) (s : string) : string :=
  match s with
  | String a s' => if decide (a = c) then trim_left c s' else s
  | EmptyString => ""
  end.

Fixpoint trim_right (c : ascii) (s : string) : string :=
  match s with
  | EmptyString => ""
  | String a s' =>
      match trim_right c s' with
      | EmptyString => if decide (a = c) then "" else String a ""
      | r => String a r
      end
  end.

(** [strings.Trim(s, cutset)] for a cutset of one byte. *)
Definition Trim (s : string) (c : ascii) : string :=
  trim_right c (trim_left c s).

(** The six bytes a JSON encoder may write for an ampersand: a
    backslash followed by u0026. *)
Definition escaped_ampersand : string := String "092"%char "u0026".

(** [x] occurs in [s]. *)
Definition contains (s x : string) : Prop :=
  exists pre post, s = pre +:+ x +:+ post.

End gostrings.

(** Go's [error] values, identified with their message. *)
Definition error := string.

Inductive Result (A : Type) : Type :=
| Ok (a : A)
| Failed (e : error).
Arguments Ok {A} a.
Arguments Failed {A} e.

(** A [float64], as its IEEE 754 bit pattern; the SDK never computes
    with one. *)
Definition float64 := Z.

(** ** Package types *)

Module types.

Record Config := {
  PinataJWT : string;
  PinataGateway : string;
  PinataGatewayKey : string;
  CustomHeaders : gmap string string;
  APIUrl : string;
  UploadUrl : string
}.

Record File := {
  File_ID : string;
  File_Name : string;
  File_CID : string;
  File_Size : Z;
  File_CreatedAt : string;
  File_NumberOfFiles : Z;
  File_MimeType : string;
  File_GroupID : option string;
  File_KeyValues : gmap string string;
  File_Vectorized : bool;
  File_Network : string;
  File_IsDuplicate : bool
}.

Record FileListResponse := {
  Files : list File;
  FileList_NextPageToken : string
}.

Record DeleteResponse := {
  Delete_ID : string;
  Delete_Status : string
}.

Record SwapResponse := {
  MappedCID : string;
  Swap_CreatedAt : string
}.

Record PinByHashResponse := {
  Pin_ID : string;
  Pin_CID : string;
  Pin_Status : string;
  Pin_Name : string;
  Pin_DateQueued : string;
  Pin_KeyValues : gmap string string;
  Pin_HostNodes : list string;
  Pin_GroupID : option string
}.

Record PinQueueItem := {
  Item_ID : string;
  Item_CID : string;
  Item_Status : string;
  Item_Name : string;
  Item_DateQueued : string;
  Item_KeyValues : gmap string string;
  Item_HostNodes : list string;
  Item_GroupID : option string
}.

Record PinQueueResponse := {
  Items : list PinQueueItem;
  Queue_NextPageToken : string
}.

Record AccessLinkOptions := {
  Link_CID : string;
  Link_Date : Z;
  Link_Expires : Z;
  Link_Gateway : string
}.

Record VectorizeResponse := {
  Vectorize_Status : bool
}.

Record VectorQueryOptions := {
  Query_GroupID : string;
  Query : string;
  ReturnFile : bool
}.

Record VectorMatch := {
  Match_FileID : string;
  Match_CID : string;
  Score : float64
}.

Record VectorQueryResponse := {
  Count : Z;
  Matches : list VectorMatch;
  ContentType : string;
  Data : string
}.

Record UploadResponse := {
  Upload_ID : string;
  Upload_Name : string;
  Upload_CID : string;
  Upload_Size : Z;
  Upload_CreatedAt : string;
  Upload_NumberOfFiles : Z;
  Upload_MimeType : string;
  Upload_GroupID : option string;
  Upload_KeyValues : gmap string string;
  Upload_Vectorized : bool;
  Upload_Network : string;
  Upload_IsDuplicate : bool
}.

End types.

(** ** HTTP messages *)

(** The Go values the SDK hands to [json.Marshal]. [GoOther] stands for
    any value outside the listed shapes, named by a tag. *)
Inductive GoValue : Type :=
| GoInt (z : Z)
| GoString (s : string)
| GoBool (b : bool)
| GoStrings (l : list string)
| GoStringMap (m : gmap string string)
| GoOther (tag : nat).

(** A JSON object: [map[string]interface{}] or a struct with [json] tags. *)
Abbreviation JSONObject := (gmap string GoValue).

(** [if cond { payload[key] = value }], and likewise a struct field
    tagged [omitempty] that is written when it is not empty. *)
Definition assign_if (cond : bool) (key : string) (value : GoValue) (payload : JSONObject) : JSONObject :=
  if cond then <[key := value]> payload else payload.

Inductive FieldValue : Type :=
| Text (s : string)
| JSONText (m : gmap string string).

(** The parts a [multipart.Writer] has written. *)
Inductive Part : Type :=
| FormField (name : string) (value : FieldValue)
| FormFile (fieldname filename content : string).

(** A request body is kept as the value it encodes: the encoders
    ([json.Marshal] on maps and tagged structs of strings and integers,
    [multipart.Writer] on a [bytes.Buffer]) cannot fail on these inputs. *)
Inductive Body : Type :=
| NoBody
| JSONBody (payload : JSONObject)
| FormBody (parts : list Part).

Record Request := {
  Method : string;
  URL : string;
  Header : gmap string string;
  ReqBody : Body
}.

Record Response := {
  StatusCode : Z;
  RespHeader : gmap string string;
  RespBody : string
}.

Definition StatusOK : Z := 200.

(** What [http.Client.Do] comes back with. *)
Inductive NetResult : Type :=
| NetError (e : error)
| NetResponse (resp : Response).

(** One use of the HTTP client: the request sent and what came back. *)
Definition Exchange : Type := Request * NetResult.

(** ** The world a call runs in *)

(** An open [*os.File], by the path it was opened with. *)
Record FileHandle := { fh_name : string }.

Record World := {
  w_config : types.Config;      (* the Config object the services point to *)
  w_now : Z;                    (* time.Now().Unix() *)
  w_trace : list Exchange;      (* every client.Do so far, oldest first *)
  w_fs : gmap string string;    (* file system: path to contents *)
  w_temp : nat                  (* temporary names handed out so far *)
}.

Inductive OsCall : Type :=
| CallStat (path : string)
| CallSeek (path : string)
| CallRead (path : string)
| CallWrite (path : string)
| CallCreateTemp (pattern : string).

(** The environment: the network and the parts of the Go runtime and
    standard library the SDK relies on. *)
Record Env := {
  (* the round trip of a request, given the exchanges before it *)
  e_net : list Exchange -> Request -> NetResult;
  (* the error of http.NewRequest for a URL, if it rejects it *)
  e_url_error : string -> option error;
  (* the error of a system call, if it fails *)
  e_os_error : OsCall -> option error;
  (* os.CreateTemp: the name tried for a pattern *)
  e_temp_name : string -> nat -> string;
  (* filepath.Base *)
  e_base : string -> string;
  (* textproto.CanonicalMIMEHeaderKey *)
  e_canonical : string -> string;
  (* url.QueryEscape and url.Values.Encode *)
  e_query_escape : string -> string;
  e_encode : gmap string (list string) -> string;
  (* the boundary of a multipart writer *)
  e_boundary : string;
  (* json.Marshal on an arbitrary value, base64.StdEncoding.DecodeString *)
  e_json_marshal : GoValue -> Result string;
  e_base64_decode : string -> Result string;
  (* io.ReadAll(resp.Body): the error it reports when the body breaks
     off while it is read *)
  e_read_error : Response -> option error;
  (* json.Decoder.Decode into struct { Data T `json:"data"` }, for each T:
     the value left in Data, or the decoding error *)
  dec_File : string -> Result (option types.File);
  dec_FileList : string -> Result (option types.FileListResponse);
  dec_Swap : string -> Result (option types.SwapResponse);
  dec_Swaps : string -> Result (list types.SwapResponse);
  dec_PinByHash : string -> Result (option types.PinByHashResponse);
  dec_PinQueue : string -> Result (option types.PinQueueResponse);
  dec_Vectorize : string -> Result (option types.VectorizeResponse);
  dec_VectorQuery : string -> Result (option types.VectorQueryResponse);
  dec_Upload : string -> Result (option types.UploadResponse);
  dec_string : string -> Result string
}.

(** ** Running Go code *)

(** A statement either falls through to the next one with a value,
    leaves the function through [return], or panics. *)
Inductive Step (R A : Type) : Type :=
| Next (a : A)
| Return (r : R)
| Panic (msg : string).
Arguments Next {R A} a.
Arguments Return {R A} r.
Arguments Panic {R A} msg.

(** A block of statements inside a function returning [R]. *)
Definition M (R A : Type) : Type := World -> Step R A * World.

Definition ret {R A} (a : A) : M R A := fun w => (Next a, w).
Definition return_ {R A} (r : R) : M R A := fun w => (Return r, w).
Definition panic {R A} (msg : string) : M R A := fun w => (Panic msg, w).

Definition bind {R A B} (m : M R A) (k : A -> M R B) : M R B :=
  fun w =>
    match m w with
    | (Next a, w') => k a w'
    | (Return r, w') => (Return r, w')
    | (Panic msg, w') => (Panic msg, w')
    end.

Declare Scope go_scope.
Delimit Scope go_scope with go.
Notation "x <- m ;; k" := (bind m (fun x => k))
  (at level 100, m at next level, right associativity) : go_scope.
Notation "m ;; k" := (bind m (fun _ => k))
  (at level 100, right associativity) : go_scope.
Local Open Scope go_scope.

(** [x, err := f(); if err != nil { return on_error(err) }] *)
Definition try {R A} (r : Result A) (on_error : error -> R) : M R A :=
  match r with
  | Ok a => ret a
  | Failed e => return_ (on_error e)
  end.

Definition check {R A} (m : M R (Result A)) (on_error : error -> R) : M R A :=
  r <- m ;; try r on_error.

(** The panic of Go on a nil pointer. *)
Definition nil_dereference : string :=
  "invalid memory address or nil pointer dereference".

(** Dereferencing a pointer that may be nil. *)
Definition deref {R A} (p : option A) : M R A :=
  match p with
  | Some a => ret a
  | None => panic nil_dereference
  end.

(** [for _, x := range l { body }], the loop state passed along. *)
Fixpoint for_range {R A S} (l : list A) (body : A -> S -> M R S) (s : S) : M R S :=
  match l with
  | [] => ret s
  | x :: l' => s' <- body x s ;; for_range l' body s'
  end.

(** [defer cleanup] in front of the rest of a function body: [cleanup]
    runs when the function is left, by return or by panic. *)
Definition defer {R A} (cleanup : World -> World) (rest : M R A) : M R A :=
  fun w => let '(s, w') := rest w in (s, cleanup w').

(** How a call of a function returning [R] ends. *)
Inductive Outcome (R : Type) : Type :=
| Returned (r : R)
| Panicked (msg : string).
Arguments Returned {R} r.
Arguments Panicked {R} msg.

Definition Fn (R : Type) : Type := World -> Outcome R * World.

Definition fn {R} (body : M R R) : Fn R :=
  fun w =>
    match body w with
    | (Next r, w') => (Returned r, w')
    | (Return r, w') => (Returned r, w')
    | (Panic msg, w') => (Panicked msg, w')
    end.

(** Calling a function from inside another one. *)
Definition call {R A} (f : Fn A) : M R A :=
  fun w =>
    match f w with
    | (Returned a, w') => (Next a, w')
    | (Panicked msg, w') => (Panic msg, w')
    end.

(** The dynamic value of a [config interface{}] field: the pointer to the
    [types.Config] of the world, a nil [*types.Config] (what
    [NewWithConfig(nil)] hands to the services), or a value of some other
    type, the nil interface included. The message of the runtime for a
    failed assertion names that type; the model keeps one message for
    all of them. *)
Inductive any : Type :=
| ConfigPtr
| NilConfigPtr
| OtherValue.

Definition set_trace (t : list Exchange) (w : World) : World :=
  {| w_config := w_config w; w_now := w_now w; w_trace := t;
     w_fs := w_fs w; w_temp := w_temp w |}.

Definition set_fs (fs : gmap string string) (w : World) : World :=
  {| w_config := w_config w; w_now := w_now w; w_trace := w_trace w;
     w_fs := fs; w_temp := w_temp w |}.

Definition set_temp (n : nat) (w : World) : World :=
  {| w_config := w_config w; w_now := w_now w; w_trace := w_trace w;
     w_fs := w_fs w; w_temp := n |}.

Record FileInfo := { info_Name : string }.

(** ** The runtime the SDK calls into *)

Section Runtime.

Context (env : Env).
Context {R : Type}.

(** [s.config.( *types.Config)]: the pointer held, which may be nil; a
    value of another type makes the assertion panic. The fields of the
    configuration are read through the pointer, with [deref] at the
    first read. *)
Definition assert_Config (c : any) : M R (option types.Config) :=
  fun w =>
    match c with
    | ConfigPtr => (Next (Some (w_config w)), w)
    | NilConfigPtr => (Next None, w)
    | OtherValue => (Panic "interface conversion: interface {} is not *types.Config", w)
    end.

Definition time_Now_Unix : M R Z := fun w => (Next (w_now w), w).

(** [http.NewRequest]; the methods the SDK passes are valid, so only
    the URL can be rejected. *)
Definition http_NewRequest (method url : string) (body : Body) : Result Request :=
  match e_url_error env url with
  | Some e => Failed e
  | None => Ok {| Method := method; URL := url; Header := ∅; ReqBody := body |}
  end.

(** [req.Header.Set(key, value)] *)
Definition Header_Set (key value : string) (req : Request) : Request :=
  {| Method := Method req; URL := URL req;
     Header := <[e_canonical env key := value]> (Header req);
     ReqBody := ReqBody req |}.

(** [for key, value := range headers { req.Header.Set(key, value) }];
    Go leaves the order of the iteration open, the model takes the one of
    [map_fold]. *)
Definition set_custom_headers (headers : gmap string string) (req : Request) : Request :=
  map_fold Header_Set req headers.

(** [resp.Header.Get(key)] *)
Definition Header_Get (resp : Response) (key : string) : string :=
  default "" (RespHeader resp !! e_canonical env key).

(** [client.Do(req)]: one use of the HTTP client, recorded in the trace.
    Redirects followed inside the client are not counted apart. *)
Definition client_Do (req : Request) : M R (Result Response) :=
  fun w =>
    let res := e_net env (w_trace w) req in
    (Next match res with
          | NetError e => Failed e
          | NetResponse resp => Ok resp
          end,
     set_trace (w_trace w ++ [(req, res)]) w).

(** [client.Get(url)]: a GET request without headers of the SDK. *)
Definition client_Get (url : string) : M R (Result Response) :=
  match http_NewRequest "GET" url NoBody with
  | Failed e => ret (Failed e)
  | Ok req => client_Do req
  end.

(** [file.Stat()] *)
Definition file_Stat (f : FileHandle) : M R (Result FileInfo) :=
  fun w =>
    (Next match e_os_error env (CallStat (fh_name f)) with
          | Some e => Failed e
          | None => Ok {| info_Name := e_base env (fh_name f) |}
          end, w).

(** [file.Seek(0, 0)]; on a nil file the method reports os.ErrInvalid. *)
Definition file_Seek (f : option FileHandle) : M R (Result unit) :=
  fun w =>
    (Next match f with
          | None => Failed "invalid argument"
          | Some f =>
              match e_os_error env (CallSeek (fh_name f)) with
              | Some e => Failed e
              | None => Ok tt
              end
          end, w).

(** Reading a file to its end. Every read of the SDK comes right after
    a [Seek(0, 0)], so it delivers the whole contents. *)
Definition file_ReadAll (f : FileHandle) : M R (Result string) :=
  fun w =>
    (Next match e_os_error env (CallRead (fh_name f)) with
          | Some e => Failed e
          | None => Ok (default "" (w_fs w !! fh_name f))
          end, w).

(** [file.Write(data)] at the end of the file. *)
Definition file_Write (f : FileHandle) (data : string) : M R (Result unit) :=
  fun w =>
    match e_os_error env (CallWrite (fh_name f)) with
    | Some e => (Next (Failed e), w)
    | None =>
        (Next (Ok tt),
         set_fs (<[fh_name f := default "" (w_fs w !! fh_name f) +:+ data]> (w_fs w)) w)
    end.

(** [os.CreateTemp("", pattern)]: the file is created exclusively, so a
    name that is taken is never reused; which names are tried is up to
    [e_temp_name], and a taken name makes the call fail. *)
Definition os_CreateTemp (pattern : string) : M R (Result FileHandle) :=
  fun w =>
    let name := e_temp_name env pattern (w_temp w) in
    match e_os_error env (CallCreateTemp pattern) with
    | Some e => (Next (Failed e), w)
    | None =>
        match w_fs w !! name with
        | Some _ => (Next (Failed "file exists"), set_temp (S (w_temp w)) w)
        | None =>
            (Next (Ok {| fh_name := name |}),
             set_temp (S (w_temp w)) (set_fs (<[name := ""]> (w_fs w)) w))
        end
    end.

(** [os.Remove(name)], as unlink(2): an open file can be removed. *)
Definition os_Remove (name : string) (w : World) : World :=
  set_fs (delete name (w_fs w)) w.

(** The block every method repeats after building its request:
    [[
      resp, err := client.Do(req)
      if err != nil { return zero, fmt.Errorf("failed to send request: %w", err) }
      defer resp.Body.Close()
      if resp.StatusCode != http.StatusOK {
        body, _ := io.ReadAll(resp.Body)
        return zero, fmt.Errorf("API error (status %d): %s", resp.StatusCode, string(body))
      }
    ]]
    [fail] builds the method's error return from a message. *)
Definition status_error (resp : Response) : error :=
  "API error (status " +:+ gostrings.itoa (StatusCode resp) +:+ "): " +:+ RespBody resp.

Definition send (fail : error -> R) (req : Request) : M R Response :=
  resp <- check (client_Do req) (fun e => fail ("failed to send request: " +:+ e)) ;;
  if decide (StatusCode resp ≠ StatusOK)
  then return_ (fail (status_error resp))
  else ret resp.

(** [io.ReadAll(resp.Body)], where the SDK looks at its error. *)
Definition io_ReadAll (resp : Response) : Result string :=
  match e_read_error env resp with
  | Some e => Failed e
  | None => Ok (RespBody resp)
  end.

(** [json.NewDecoder(resp.Body).Decode(&response)] and its error check. *)
Definition decode {A} (dec : string -> Result A) (fail : error -> R) (resp : Response) : M R A :=
  try (dec (RespBody resp)) (fun e => fail ("failed to decode response: " +:+ e)).

End Runtime.

(** ** Package upload *)

Module upload.

Record FileOptions := {
  FileName : string;
  GroupID : string;
  KeyValues : gmap string string;
  Vectorize : bool
}.

Record Base64Options := {
  Base64_Name : string;
  Base64_GroupID : string;
  Base64_KeyValues : gmap string string;
  Base64_Vectorize : bool
}.

Record JSONOptions := {
  JSON_Name : string;
  JSON_GroupID : string;
  JSON_KeyValues : gmap string string;
  JSON_Vectorize : bool
}.

Record URLOptions := {
  URL_Name : string;
  URL_GroupID : string;
  URL_KeyValues : gmap string string;
  URL_Vectorize : bool
}.

Record SignedUploadOptions := {
  Signed_Date : Z;
  Signed_Expires : Z;
  Signed_GroupID : string;
  Signed_Name : string;
  Signed_KeyValues : gmap string string;
  Signed_Vectorize : bool;
  Signed_MaxFileSize : Z;
  Signed_MimeTypes : list string
}.

Record PrivateService := { config : any }.

Definition NewPrivateService (config : any) : PrivateService :=
  {| config := config |}.

(** What the upload methods return. *)
Definition Upload : Type := option types.UploadResponse * option error.

Section Methods.

Context (env : Env).

(** [writer.WriteField(name, value)] *)
Definition WriteField (name : string) (value : FieldValue) (writer : list Part) : list Part :=
  writer ++ [FormField name value].

(** [writer.FormDataContentType()] *)
Definition FormDataContentType : string :=
  "multipart/form-data; boundary=" +:+ e_boundary env.

(** The headers of an upload request, set in the order of the source. *)
Definition upload_headers (content_type : string) (cfg : types.Config) (req : Request) : Request :=
  let req := Header_Set env "Content-Type" content_type req in
  let req := Header_Set env "Authorization" ("Bearer " +:+ types.PinataJWT cfg) req in
  set_custom_headers env (types.CustomHeaders cfg) req.

(** The optional fields [File] adds when [opts] is not nil. *)
Definition File_fields (info : FileInfo) (opts : option FileOptions) (writer : list Part) : list Part :=
  match opts with
  | None => writer
  | Some opts =>
      let writer :=
        if decide (GroupID opts ≠ "")
        then WriteField "group_id" (Text (GroupID opts)) writer
        else writer in
      let name :=
        if decide (FileName opts ≠ "") then FileName opts else info_Name info in
      let writer := WriteField "name" (Text name) writer in
      if decide (0 < size (KeyValues opts))
      then WriteField "keyvalues" (JSONText (KeyValues opts)) writer
      else writer
  end.

Definition File (s : PrivateService) (file : option FileHandle) (opts : option FileOptions) : Fn Upload :=
  let fail (e : error) : Upload := (None, Some e) in
  fn (
    file <- match file with
            | None => return_ (fail "file is required")
            | Some f => ret f
            end ;;
    fileInfo <- check (file_Stat env file)
                  (fun e => fail ("failed to get file info: " +:+ e)) ;;
    check (file_Seek env (Some file))
      (fun e => fail ("failed to reset file position: " +:+ e)) ;;
    cfg <- assert_Config (config s) ;;
    cfg <- deref cfg ;;
    let url := types.UploadUrl cfg +:+ "/files" in
    let writer := WriteField "network" (Text "private") [] in
    let writer := File_fields fileInfo opts writer in
    data <- check (file_ReadAll env file)
              (fun e => fail ("failed to copy file data: " +:+ e)) ;;
    let writer := writer ++ [FormFile "file" (e_base env (fh_name file)) data] in
    req <- try (http_NewRequest env "POST" url (FormBody writer))
             (fun e => fail ("failed to create request: " +:+ e)) ;;
    let req := upload_headers FormDataContentType cfg req in
    resp <- send env fail req ;;
    response <- decode (dec_Upload env) fail resp ;;
    return_ (response, None)
  ).

(** The optional fields [FileArray] adds when [opts] is not nil. *)
Definition FileArray_fields (opts : option FileOptions) (writer : list Part) : list Part :=
  match opts with
  | None => writer
  | Some opts =>
      let writer :=
        if decide (GroupID opts ≠ "")
        then WriteField "group_id" (Text (GroupID opts)) writer
        else writer in
      let writer :=
        if decide (FileName opts ≠ "")
        then WriteField "name" (Text (FileName opts)) writer
        else writer in
      if decide (0 < size (KeyValues opts))
      then WriteField "keyvalues" (JSONText (KeyValues opts)) writer
      else writer
  end.

(** One turn of the loop of [FileArray] over its files. *)
Definition FileArray_turn (file : option FileHandle) (writer : list Part) : M Upload (list Part) :=
  let fail (e : error) : Upload := (None, Some e) in
  check (file_Seek env file)
    (fun e => fail ("failed to reset file position: " +:+ e)) ;;
  file <- deref file ;;
  data <- check (file_ReadAll env file)
            (fun e => fail ("failed to copy file data: " +:+ e)) ;;
  ret (writer ++ [FormFile "file" (e_base env (fh_name file)) data]).

Definition FileArray (s : PrivateService) (files : list (option FileHandle)) (opts : option FileOptions) : Fn Upload :=
  let fail (e : error) : Upload := (None, Some e) in
  fn (
    (if decide (length files = 0) then return_ (fail "at least one file is required") else ret tt) ;;
    cfg <- assert_Config (config s) ;;
    cfg <- deref cfg ;;
    let url := types.UploadUrl cfg +:+ "/files" in
    let writer := WriteField "network" (Text "private") [] in
    let writer := FileArray_fields opts writer in
    writer <- for_range files FileArray_turn writer ;;
    req <- try (http_NewRequest env "POST" url (FormBody writer))
             (fun e => fail ("failed to create request: " +:+ e)) ;;
    let req := upload_headers FormDataContentType cfg req in
    resp <- send env fail req ;;
    response <- decode (dec_Upload env) fail resp ;;
    return_ (response, None)
  ).

Definition JSON (s : PrivateService) (data : option GoValue) (opts : option JSONOptions) : Fn Upload :=
  let fail (e : error) : Upload := (None, Some e) in
  fn (
    data <- match data with
            | None => return_ (fail "JSON data is required")
            | Some d => ret d
            end ;;
    jsonData <- try (e_json_marshal env data)
                  (fun e => fail ("failed to marshal JSON data: " +:+ e)) ;;
    tmpFile <- check (os_CreateTemp env "pinata-json-*.json")
                 (fun e => fail ("failed to create temporary file: " +:+ e)) ;;
    defer (os_Remove (fh_name tmpFile)) (
      check (file_Write env tmpFile jsonData)
        (fun e => fail ("failed to write to temporary file: " +:+ e)) ;;
      check (file_Seek env (Some tmpFile))
        (fun e => fail ("failed to reset file position: " +:+ e)) ;;
      opts <- deref opts ;;
      let fileOpts := {| FileName := if decide (JSON_Name opts ≠ "") then JSON_Name opts else "data.json";
                         GroupID := JSON_GroupID opts;
                         KeyValues := JSON_KeyValues opts;
                         Vectorize := false |} in
      r <- call (File s (Some tmpFile) (Some fileOpts)) ;;
      return_ r)
  ).

Definition Base64 (s : PrivateService) (data : string) (opts : option Base64Options) : Fn Upload :=
  let fail (e : error) : Upload := (None, Some e) in
  fn (
    (if decide (data = "") then return_ (fail "base64 data is required") else ret tt) ;;
    decoded <- try (e_base64_decode env data)
                 (fun e => fail ("failed to decode base64 data: " +:+ e)) ;;
    tmpFile <- check (os_CreateTemp env "pinata-base64-*")
                 (fun e => fail ("failed to create temporary file: " +:+ e)) ;;
    defer (os_Remove (fh_name tmpFile)) (
      check (file_Write env tmpFile decoded)
        (fun e => fail ("failed to write to temporary file: " +:+ e)) ;;
      check (file_Seek env (Some tmpFile))
        (fun e => fail ("failed to reset file position: " +:+ e)) ;;
      opts <- deref opts ;;
      let fileOpts := {| FileName := if decide (Base64_Name opts ≠ "") then Base64_Name opts else "file";
                         GroupID := Base64_GroupID opts;
                         KeyValues := Base64_KeyValues opts;
                         Vectorize := false |} in
      r <- call (File s (Some tmpFile) (Some fileOpts)) ;;
      return_ r)
  ).

(** The name [URL] gives an upload when the options carry none: the
    last piece of the target split at its slashes. *)
Definition URL_default_name (targetURL : string) : string :=
  let urlPath := gostrings.Split "/" targetURL in
  match last urlPath with
  | Some seg => if decide (0 < length urlPath ∧ seg ≠ "") then seg else "file"
  | None => "file"
  end.

Definition URL (s : PrivateService) (targetURL : string) (opts : option URLOptions) : Fn Upload :=
  let fail (e : error) : Upload := (None, Some e) in
  fn (
    (if decide (targetURL = "") then return_ (fail "URL is required") else ret tt) ;;
    resp <- check (client_Get env targetURL)
              (fun e => fail ("failed to fetch URL content: " +:+ e)) ;;
    (if decide (StatusCode resp ≠ StatusOK)
     then return_ (fail ("URL returned non-OK status: " +:+ gostrings.itoa (StatusCode resp)))
     else ret tt) ;;
    tmpFile <- check (os_CreateTemp env "pinata-url-*")
                 (fun e => fail ("failed to create temporary file: " +:+ e)) ;;
    defer (os_Remove (fh_name tmpFile)) (
      (* io.Copy(tmpFile, resp.Body): the body is written to the file; a
         copy that fails is a write that fails *)
      check (file_Write env tmpFile (RespBody resp))
        (fun e => fail ("failed to copy URL content: " +:+ e)) ;;
      check (file_Seek env (Some tmpFile))
        (fun e => fail ("failed to reset file position: " +:+ e)) ;;
      opts <- deref opts ;;
      let fileOpts := {| FileName := if decide (URL_Name opts ≠ "") then URL_Name opts
                                     else URL_default_name targetURL;
                         GroupID := URL_GroupID opts;
                         KeyValues := URL_KeyValues opts;
                         Vectorize := false |} in
      r <- call (File s (Some tmpFile) (Some fileOpts)) ;;
      return_ r)
  ).

(** The payload of [CreateSignedURL], field by field as the source
    fills its [map[string]interface{}]. *)
Definition signed_payload (date : Z) (opts : SignedUploadOptions) : JSONObject :=
  let payload : JSONObject :=
    <["network" := GoString "private"]>
      (<["expires" := GoInt (Signed_Expires opts)]>
         (<["date" := GoInt date]> ∅)) in
  let payload :=
    assign_if (bool_decide (Signed_GroupID opts ≠ ""))
      "group_id" (GoString (Signed_GroupID opts)) payload in
  let payload :=
    assign_if (bool_decide (Signed_Name opts ≠ ""))
      "filename" (GoString (Signed_Name opts)) payload in
  let payload :=
    assign_if (bool_decide (0 < size (Signed_KeyValues opts)))
      "keyvalues" (GoStringMap (Signed_KeyValues opts)) payload in
  let payload :=
    assign_if (Signed_Vectorize opts) "vectorize" (GoBool true) payload in
  let payload :=
    assign_if (bool_decide (0 < Signed_MaxFileSize opts)%Z)
      "max_file_size" (GoInt (Signed_MaxFileSize opts)) payload in
  assign_if (bool_decide (0 < length (Signed_MimeTypes opts)))
    "allow_mime_types" (GoStrings (Signed_MimeTypes opts)) payload.

Definition CreateSignedURL (s : PrivateService) (opts : option SignedUploadOptions) : Fn (string * option error) :=
  let fail (e : error) : string * option error := ("", Some e) in
  fn (
    opts <- match opts with
            | None => return_ (fail "expiration time is required")
            | Some o =>
                if decide (Signed_Expires o <= 0)%Z
                then return_ (fail "expiration time is required")
                else ret o
            end ;;
    cfg <- assert_Config (config s) ;;
    cfg <- deref cfg ;;
    let url := types.UploadUrl cfg +:+ "/files/sign" in
    now <- time_Now_Unix ;;
    let date := if decide (Signed_Date opts = 0)%Z then now else Signed_Date opts in
    let payload := signed_payload date opts in
    req <- try (http_NewRequest env "POST" url (JSONBody payload))
             (fun e => fail ("failed to create request: " +:+ e)) ;;
    let req := upload_headers "application/json" cfg req in
    resp <- send env fail req ;;
    response <- decode (dec_string env) fail resp ;;
    return_ (response, None)
  ).

End Methods.

End upload.

(** ** Package files *)

Module files.

Record ListOptions := {
  List_Name : string;
  Group : string;
  NoGroup : bool;
  List_CID : string;
  CIDPending : bool;
  MimeType : string;
  List_KeyValues : gmap string string;
  Order : string;
  List_Limit : Z;
  List_PageToken : string
}.

Record UpdateOptions := {
  Update_ID : string;
  Update_Name : string;
  Update_KeyValues : gmap string string
}.

Record SwapOptions := {
  Swap_CID : string;
  SwapCID : string
}.

Record SwapHistoryOptions := {
  History_CID : string;
  Domain : string
}.

Record PinByHashOptions := {
  Pin_CID : string;
  Pin_Name : string;
  Pin_GroupID : string;
  Pin_KeyValues : gmap string string;
  Pin_HostNodes : list string
}.

Record PinQueueOptions := {
  Sort : string;
  Status : string;
  Queue_CID : string;
  Queue_Limit : Z;
  Queue_PageToken : string
}.

Record PrivateService := { private_config : any }.
Record PublicService := { public_config : any }.

Definition NewPrivateService (config : any) : PrivateService :=
  {| private_config := config |}.
Definition NewPublicService (config : any) : PublicService :=
  {| public_config := config |}.

Record Service := {
  Service_config : any;
  Public : PublicService;
  Private : PrivateService
}.

Definition New (config : any) : Service :=
  {| Service_config := config;
     Public := NewPublicService config;
     Private := NewPrivateService config |}.

(** [url.Values] and its [Add]. *)
Abbreviation Values := (gmap string (list string)).

Definition Values_Add (key value : string) (params : Values) : Values :=
  <[key := default [] (params !! key) ++ [value]]> params.

(** [json.Marshal] on [*UpdateOptions], by its struct tags. *)
Definition marshal_UpdateOptions (opts : UpdateOptions) : JSONObject :=
  let o : JSONObject := ∅ in
  let o := assign_if (bool_decide (Update_Name opts ≠ ""))
             "name" (GoString (Update_Name opts)) o in
  assign_if (bool_decide (0 < size (Update_KeyValues opts)))
    "keyvalues" (GoStringMap (Update_KeyValues opts)) o.

(** [json.Marshal] on [*PinByHashOptions], by its struct tags. *)
Definition marshal_PinByHashOptions (opts : PinByHashOptions) : JSONObject :=
  let o : JSONObject := <["cid" := GoString (Pin_CID opts)]> ∅ in
  let o := assign_if (bool_decide (Pin_Name opts ≠ ""))
             "name" (GoString (Pin_Name opts)) o in
  let o := assign_if (bool_decide (Pin_GroupID opts ≠ ""))
             "group_id" (GoString (Pin_GroupID opts)) o in
  let o := assign_if (bool_decide (0 < size (Pin_KeyValues opts)))
             "keyvalues" (GoStringMap (Pin_KeyValues opts)) o in
  assign_if (bool_decide (0 < length (Pin_HostNodes opts)))
    "host_nodes" (GoStrings (Pin_HostNodes opts)) o.

Section Methods.

Context (env : Env).

(** The headers of a files request, set in the order of the source. *)
Definition api_headers (cfg : types.Config) (req : Request) : Request :=
  let req := Header_Set env "Authorization" ("Bearer " +:+ types.PinataJWT cfg) req in
  let req := Header_Set env "Content-Type" "application/json" req in
  set_custom_headers env (types.CustomHeaders cfg) req.

(** The query parameters of [List]. *)
Definition List_params (opts : option ListOptions) : Values :=
  let params : Values := ∅ in
  match opts with
  | None => params
  | Some opts =>
      let params := if decide (List_Name opts ≠ "")
                    then Values_Add "name" (List_Name opts) params else params in
      let params := if decide (Group opts ≠ "")
                    then Values_Add "group" (Group opts) params else params in
      let params := if NoGroup opts
                    then Values_Add "group" "null" params else params in
      let params := if decide (List_CID opts ≠ "")
                    then Values_Add "cid" (List_CID opts) params else params in
      let params := if CIDPending opts
                    then Values_Add "cidPending" "true" params else params in
      let params := if decide (MimeType opts ≠ "")
                    then Values_Add "mimeType" (MimeType opts) params else params in
      let params := if decide (Order opts ≠ "")
                    then Values_Add "order" (Order opts) params else params in
      let params := if decide (0 < List_Limit opts)%Z
                    then Values_Add "limit" (gostrings.itoa (List_Limit opts)) params
                    else params in
      let params := if decide (List_PageToken opts ≠ "")
                    then Values_Add "pageToken" (List_PageToken opts) params else params in
      if decide (0 < size (List_KeyValues opts))
      then map_fold (fun key value params =>
                       Values_Add ("keyvalues[" +:+ key +:+ "]") value params)
             params (List_KeyValues opts)
      else params
  end.

(** The query parameters of [Queue]. *)
Definition Queue_params (opts : option PinQueueOptions) : Values :=
  let params : Values := ∅ in
  match opts with
  | None => params
  | Some opts =>
      let params := if decide (Sort opts ≠ "")
                    then Values_Add "order" (Sort opts) params else params in
      let params := if decide (Status opts ≠ "")
                    then Values_Add "status" (Status opts) params else params in
      let params := if decide (Queue_CID opts ≠ "")
                    then Values_Add "cid" (Queue_CID opts) params else params in
      let params := if decide (0 < Queue_Limit opts)%Z
                    then Values_Add "limit" (gostrings.itoa (Queue_Limit opts)) params
                    else params in
      if decide (Queue_PageToken opts ≠ "")
      then Values_Add "pageToken" (Queue_PageToken opts) params else params
  end.

(** [requestURL] of [List] and [Queue]. *)
Definition with_query (baseURL : string) (params : Values) : string :=
  if decide (0 < size params)
  then baseURL +:+ "?" +:+ e_encode env params
  else baseURL.

(** The methods of [PrivateService] and [PublicService] that exist on
    both differ in one path segment only; [network] is that segment. *)
Section Network.

Context (network : string) (config : any).

Definition Get (id : string) : Fn (option types.File * option error) :=
  let fail (e : error) : option types.File * option error := (None, Some e) in
  fn (
    cfg <- assert_Config config ;;
    cfg <- deref cfg ;;
    let url := types.APIUrl cfg +:+ "/files/" +:+ network +:+ "/" +:+ id in
    req <- try (http_NewRequest env "GET" url NoBody)
             (fun e => fail ("failed to create request: " +:+ e)) ;;
    let req := api_headers cfg req in
    resp <- send env fail req ;;
    response <- decode (dec_File env) fail resp ;;
    return_ (response, None)
  ).

Definition List (opts : option ListOptions) : Fn (option types.FileListResponse * option error) :=
  let fail (e : error) : option types.FileListResponse * option error := (None, Some e) in
  fn (
    cfg <- assert_Config config ;;
    cfg <- deref cfg ;;
    let baseURL := types.APIUrl cfg +:+ "/files/" +:+ network in
    let params := List_params opts in
    let requestURL := with_query baseURL params in
    req <- try (http_NewRequest env "GET" requestURL NoBody)
             (fun e => fail ("failed to create request: " +:+ e)) ;;
    let req := api_headers cfg req in
    resp <- send env fail req ;;
    response <- decode (dec_FileList env) fail resp ;;
    return_ (response, None)
  ).

Definition Update (opts : option UpdateOptions) : Fn (option types.File * option error) :=
  let fail (e : error) : option types.File * option error := (None, Some e) in
  fn (
    opts <- match opts with
            | None => return_ (fail "file ID is required")
            | Some o =>
                if decide (Update_ID o = "")
                then return_ (fail "file ID is required")
                else ret o
            end ;;
    cfg <- assert_Config config ;;
    cfg <- deref cfg ;;
    let url := types.APIUrl cfg +:+ "/files/" +:+ network +:+ "/" +:+ Update_ID opts in
    let payload := marshal_UpdateOptions opts in
    req <- try (http_NewRequest env "PUT" url (JSONBody payload))
             (fun e => fail ("failed to create request: " +:+ e)) ;;
    let req := api_headers cfg req in
    resp <- send env fail req ;;
    response <- decode (dec_File env) fail resp ;;
    return_ (response, None)
  ).

(** One turn of the loop of [Delete] over its IDs; [cfg] is the pointer
    the assertion in front of the loop gave, read in every turn. *)
Definition Delete_turn (cfg : option types.Config) (id : string) (responses : list types.DeleteResponse)
  : M (list types.DeleteResponse * option error) (list types.DeleteResponse) :=
  let fail (e : error) : list types.DeleteResponse * option error := ([], Some e) in
  cfg <- deref cfg ;;
  let url := types.APIUrl cfg +:+ "/files/" +:+ network +:+ "/" +:+ id in
  req <- try (http_NewRequest env "DELETE" url NoBody)
           (fun e => fail ("failed to create request: " +:+ e)) ;;
  let req := api_headers cfg req in
  send env fail req ;;
  ret (responses ++ [ {| types.Delete_ID := id;
                         types.Delete_Status := "deleted" |} ]).

Definition Delete (ids : list string) : Fn (list types.DeleteResponse * option error) :=
  let fail (e : error) : list types.DeleteResponse * option error := ([], Some e) in
  fn (
    (if decide (length ids = 0)
     then return_ (fail "at least one file ID is required") else ret tt) ;;
    cfg <- assert_Config config ;;
    let responses : list types.DeleteResponse := [] in
    responses <- for_range ids (Delete_turn cfg) responses ;;
    return_ (responses, None)
  ).

Definition AddSwap (opts : option SwapOptions) : Fn (option types.SwapResponse * option error) :=
  let fail (e : error) : option types.SwapResponse * option error := (None, Some e) in
  fn (
    opts <- match opts with
            | None => return_ (fail "CID and swap CID are required")
            | Some o =>
                if decide (Swap_CID o = "" ∨ SwapCID o = "")
                then return_ (fail "CID and swap CID are required")
                else ret o
            end ;;
    cfg <- assert_Config config ;;
    cfg <- deref cfg ;;
    let url := types.APIUrl cfg +:+ "/files/" +:+ network +:+ "/swap/" +:+ Swap_CID opts in
    let payload : JSONObject := <["swap_cid" := GoString (SwapCID opts)]> ∅ in
    req <- try (http_NewRequest env "PUT" url (JSONBody payload))
             (fun e => fail ("failed to create request: " +:+ e)) ;;
    let req := api_headers cfg req in
    resp <- send env fail req ;;
    response <- decode (dec_Swap env) fail resp ;;
    return_ (response, None)
  ).

Definition GetSwapHistory (opts : option SwapHistoryOptions) : Fn (list types.SwapResponse * option error) :=
  let fail (e : error) : list types.SwapResponse * option error := ([], Some e) in
  fn (
    opts <- match opts with
            | None => return_ (fail "CID and domain are required")
            | Some o =>
                if decide (History_CID o = "" ∨ Domain o = "")
                then return_ (fail "CID and domain are required")
                else ret o
            end ;;
    cfg <- assert_Config config ;;
    cfg <- deref cfg ;;
    let url := types.APIUrl cfg +:+ "/files/" +:+ network +:+ "/swap/" +:+ History_CID opts
               +:+ "?domain=" +:+ e_query_escape env (Domain opts) in
    req <- try (http_NewRequest env "GET" url NoBody)
             (fun e => fail ("failed to create request: " +:+ e)) ;;
    let req := api_headers cfg req in
    resp <- send env fail req ;;
    response <- decode (dec_Swaps env) fail resp ;;
    return_ (response, None)
  ).

Definition DeleteSwap (cid : string) : Fn (option error) :=
  let fail (e : error) : option error := Some e in
  fn (
    (if decide (cid = "") then return_ (fail "CID is required") else ret tt) ;;
    cfg <- assert_Config config ;;
    cfg <- deref cfg ;;
    let url := types.APIUrl cfg +:+ "/files/" +:+ network +:+ "/swap/" +:+ cid in
    req <- try (http_NewRequest env "DELETE" url NoBody)
             (fun e => fail ("failed to create request: " +:+ e)) ;;
    let req := api_headers cfg req in
    send env fail req ;;
    return_ None
  ).

End Network.

(** *** PrivateService *)

Definition Private_Get (s : PrivateService) := Get "private" (private_config s).
Definition Private_List (s : PrivateService) := List "private" (private_config s).
Definition Private_Update (s : PrivateService) := Update "private" (private_config s).
Definition Private_Delete (s : PrivateService) := Delete "private" (private_config s).
Definition Private_AddSwap (s : PrivateService) := AddSwap "private" (private_config s).
Definition Private_GetSwapHistory (s : PrivateService) := GetSwapHistory "private" (private_config s).
Definition Private_DeleteSwap (s : PrivateService) := DeleteSwap "private" (private_config s).

(** The payload of [CreateAccessLink], an anonymous struct with the
    tags [url], [date], [expires] and [method]. *)
Definition access_payload (gateway : string) (date : Z) (opts : types.AccessLinkOptions) : JSONObject :=
  <["method" := GoString "GET"]>
    (<["expires" := GoInt (types.Link_Expires opts)]>
       (<["date" := GoInt date]>
          (<["url" := GoString ("https://" +:+ gateway +:+ ".mypinata.cloud/files/"
                                +:+ types.Link_CID opts)]> ∅))).

Definition Private_CreateAccessLink (s : PrivateService) (opts : option types.AccessLinkOptions) : Fn (string * option error) :=
  let fail (e : error) : string * option error := ("", Some e) in
  fn (
    opts <- match opts with
            | None => return_ (fail "CID and expiration time are required")
            | Some o =>
                if decide (types.Link_CID o = "" ∨ types.Link_Expires o <= 0)%Z
                then return_ (fail "CID and expiration time are required")
                else ret o
            end ;;
    cfg <- assert_Config (private_config s) ;;
    cfg <- deref cfg ;;
    let url := types.APIUrl cfg +:+ "/files/private/download_link" in
    let gateway := if decide (types.Link_Gateway opts = "")
                   then types.PinataGateway cfg else types.Link_Gateway opts in
    now <- time_Now_Unix ;;
    let date := if decide (types.Link_Date opts = 0)%Z then now else types.Link_Date opts in
    let payload := access_payload gateway date opts in
    req <- try (http_NewRequest env "POST" url (JSONBody payload))
             (fun e => fail ("failed to create request: " +:+ e)) ;;
    let req := api_headers cfg req in
    resp <- send env fail req ;;
    response <- decode (dec_string env) fail resp ;;
    let accessLink := gostrings.ReplaceAll response gostrings.escaped_ampersand "&" in
    let accessLink := gostrings.Trim accessLink "034"%char in
    return_ (accessLink, None)
  ).

Definition Private_Vectorize (s : PrivateService) (fileID : string) : Fn (option types.VectorizeResponse * option error) :=
  let fail (e : error) : option types.VectorizeResponse * option error := (None, Some e) in
  fn (
    (if decide (fileID = "") then return_ (fail "file ID is required") else ret tt) ;;
    cfg <- assert_Config (private_config s) ;;
    cfg <- deref cfg ;;
    let url := types.APIUrl cfg +:+ "/vectorize/files/" +:+ fileID in
    req <- try (http_NewRequest env "POST" url NoBody)
             (fun e => fail ("failed to create request: " +:+ e)) ;;
    let req := api_headers cfg req in
    resp <- send env fail req ;;
    response <- decode (dec_Vectorize env) fail resp ;;
    return_ (response, None)
  ).

Definition Private_DeleteVectors (s : PrivateService) (fileID : string) : Fn (option types.VectorizeResponse * option error) :=
  let fail (e : error) : option types.VectorizeResponse * option error := (None, Some e) in
  fn (
    (if decide (fileID = "") then return_ (fail "file ID is required") else ret tt) ;;
    cfg <- assert_Config (private_config s) ;;
    cfg <- deref cfg ;;
    let url := types.APIUrl cfg +:+ "/vectorize/files/" +:+ fileID in
    req <- try (http_NewRequest env "DELETE" url NoBody)
             (fun e => fail ("failed to create request: " +:+ e)) ;;
    let req := api_headers cfg req in
    resp <- send env fail req ;;
    response <- decode (dec_Vectorize env) fail resp ;;
    return_ (response, None)
  ).

(** With [ReturnFile] the body is read and handed back as it came. *)
Definition Private_QueryVectors (s : PrivateService) (opts : option types.VectorQueryOptions) : Fn (option types.VectorQueryResponse * option error) :=
  let fail (e : error) : option types.VectorQueryResponse * option error := (None, Some e) in
  fn (
    opts <- match opts with
            | None => return_ (fail "group ID and query text are required")
            | Some o =>
                if decide (types.Query_GroupID o = "" ∨ types.Query o = "")
                then return_ (fail "group ID and query text are required")
                else ret o
            end ;;
    cfg <- assert_Config (private_config s) ;;
    cfg <- deref cfg ;;
    let url := types.APIUrl cfg +:+ "/vectorize/groups/" +:+ types.Query_GroupID opts +:+ "/query" in
    let payload : JSONObject := <["text" := GoString (types.Query opts)]> ∅ in
    req <- try (http_NewRequest env "POST" url (JSONBody payload))
             (fun e => fail ("failed to create request: " +:+ e)) ;;
    let req := api_headers cfg req in
    resp <- send env fail req ;;
    if types.ReturnFile opts
    then
      let contentType := Header_Get env resp "Content-Type" in
      body <- try (io_ReadAll env resp)
                (fun e => fail ("failed to read response body: " +:+ e)) ;;
      return_ (Some {| types.Count := 0; types.Matches := [];
                       types.ContentType := contentType;
                       types.Data := body |}, None)
    else
      response <- decode (dec_VectorQuery env) fail resp ;;
      return_ (response, None)
  ).

(** *** PublicService *)

Definition Public_Get (s : PublicService) := Get "public" (public_config s).
Definition Public_List (s : PublicService) := List "public" (public_config s).
Definition Public_Update (s : PublicService) := Update "public" (public_config s).
Definition Public_Delete (s : PublicService) := Delete "public" (public_config s).
Definition Public_AddSwap (s : PublicService) := AddSwap "public" (public_config s).
Definition Public_GetSwapHistory (s : PublicService) := GetSwapHistory "public" (public_config s).
Definition Public_DeleteSwap (s : PublicService) := DeleteSwap "public" (public_config s).

Definition Public_PinByHash (s : PublicService) (opts : option PinByHashOptions) : Fn (option types.PinByHashResponse * option error) :=
  let fail (e : error) : option types.PinByHashResponse * option error := (None, Some e) in
  fn (
    opts <- match opts with
            | None => return_ (fail "CID is required")
            | Some o =>
                if decide (Pin_CID o = "")
                then return_ (fail "CID is required")
                else ret o
            end ;;
    cfg <- assert_Config (public_config s) ;;
    cfg <- deref cfg ;;
    let url := types.APIUrl cfg +:+ "/files/public/pin_by_cid" in
    let payload := marshal_PinByHashOptions opts in
    req <- try (http_NewRequest env "POST" url (JSONBody payload))
             (fun e => fail ("failed to create request: " +:+ e)) ;;
    let req := api_headers cfg req in
    resp <- send env fail req ;;
    response <- decode (dec_PinByHash env) fail resp ;;
    return_ (response, None)
  ).

Definition Public_Queue (s : PublicService) (opts : option PinQueueOptions) : Fn (option types.PinQueueResponse * option error) :=
  let fail (e : error) : option types.PinQueueResponse * option error := (None, Some e) in
  fn (
    cfg <- assert_Config (public_config s) ;;
    cfg <- deref cfg ;;
    let baseURL := types.APIUrl cfg +:+ "/files/public/pin_by_cid" in
    let params := Queue_params opts in
    let requestURL := with_query baseURL params in
    req <- try (http_NewRequest env "GET" requestURL NoBody)
             (fun e => fail ("failed to create request: " +:+ e)) ;;
    let req := api_headers cfg req in
    resp <- send env fail req ;;
    response <- decode (dec_PinQueue env) fail resp ;;
    return_ (response, None)
  ).

Definition Public_CancelPinRequest (s : PublicService) (id : string) : Fn (option error) :=
  let fail (e : error) : option error := Some e in
  fn (
    (if decide (id = "") then return_ (fail "request ID is required") else ret tt) ;;
    cfg <- assert_Config (public_config s) ;;
    cfg <- deref cfg ;;
    let url := types.APIUrl cfg +:+ "/files/public/pin_by_cid/" +:+ id in
    req <- try (http_NewRequest env "DELETE" url NoBody)
             (fun e => fail ("failed to create request: " +:+ e)) ;;
    let req := api_headers cfg req in
    send env fail req ;;
    return_ None
  ).

End Methods.

End files.

(** ** Package pinata *)

Module pinata.

Definition DefaultAPIURL : string := "https://api.pinata.cloud/v3".
Definition DefaultUploadURL : string := "https://uploads.pinata.cloud/v3".

(** The configuration [New(jwt, gateway)] starts from. *)
Definition NewConfig (jwt gateway : string) : types.Config :=
  {| types.PinataJWT := jwt;
     types.PinataGateway := gateway;
     types.PinataGatewayKey := "";
     types.CustomHeaders := ∅;
     types.APIUrl := DefaultAPIURL;
     types.UploadUrl := DefaultUploadURL |}.


(** The client as package [pinata] declares it beside the two default
    URLs: a pointer to the configuration and the files service. *)

(** A [*types.Config]: nil, or the address of the [Config] of the world. *)
Inductive ConfigPointer : Type :=
| NilConfig
| TheConfig.

Record Client := {
  Config : ConfigPointer;
  Files : files.Service
}.

Section Methods.

Context (env : Env).

(** [c.Config], read through. *)
Definition Client_Config {R} (c : Client) : M R types.Config :=
  fun w =>
    match Config c with
    | TheConfig => (Next (w_config w), w)
    | NilConfig => (Panic nil_dereference, w)
    end.

Definition authentication_URL : string :=
  "https://api.pinata.cloud/data/testAuthentication".

(** [fmt.Errorf("authentication failed (status %d): %s", ...)] *)
Definition authentication_error (resp : Response) : error :=
  "authentication failed (status " +:+ gostrings.itoa (StatusCode resp) +:+ "): "
  +:+ RespBody resp.

Definition TestAuthentication (c : Client) : Fn (bool * option error) :=
  let fail (e : error) : bool * option error := (false, Some e) in
  fn (
    let url := authentication_URL in
    req <- try (http_NewRequest env "GET" url NoBody)
             (fun e => fail ("failed to create request: " +:+ e)) ;;
    cfg <- Client_Config c ;;
    let req := Header_Set env "Authorization" ("Bearer " +:+ types.PinataJWT cfg) req in
    let req := set_custom_headers env (types.CustomHeaders cfg) req in
    resp <- check (client_Do env req)
              (fun e => fail ("failed to send request: " +:+ e)) ;;
    if decide (StatusCode resp ≠ StatusOK)
    then return_ (fail (authentication_error resp))
    else return_ (true, None)
  ).

End Methods.


End pinata.

(** ** Every operation of the SDK *)

(** What a method hands back besides its error. *)
Inductive Value : Type :=
| VFile (v : option types.File)
| VFileList (v : option types.FileListResponse)
| VDeleted (v : list types.DeleteResponse)
| VSwap (v : option types.SwapResponse)
| VSwaps (v : list types.SwapResponse)
| VPinByHash (v : option types.PinByHashResponse)
| VPinQueue (v : option types.PinQueueResponse)
| VVectorize (v : option types.VectorizeResponse)
| VVectorQuery (v : option types.VectorQueryResponse)
| VUpload (v : option types.UploadResponse)
| VString (v : string)
| VNothing.

(** A call of a method, with its receiver and arguments. *)
Inductive Call : Type :=
| UploadFile (s : upload.PrivateService) (file : option FileHandle) (opts : option upload.FileOptions)
| UploadFileArray (s : upload.PrivateService) (files : list (option FileHandle)) (opts : option upload.FileOptions)
| UploadJSON (s : upload.PrivateService) (data : option GoValue) (opts : option upload.JSONOptions)
| UploadBase64 (s : upload.PrivateService) (data : string) (opts : option upload.Base64Options)
| UploadURL (s : upload.PrivateService) (targetURL : string) (opts : option upload.URLOptions)
| UploadCreateSignedURL (s : upload.PrivateService) (opts : option upload.SignedUploadOptions)
| PrivateGet (s : files.PrivateService) (id : string)
| PrivateList (s : files.PrivateService) (opts : option files.ListOptions)
| PrivateUpdate (s : files.PrivateService) (opts : option files.UpdateOptions)
| PrivateDelete (s : files.PrivateService) (ids : list string)
| PrivateAddSwap (s : files.PrivateService) (opts : option files.SwapOptions)
| PrivateGetSwapHistory (s : files.PrivateService) (opts : option files.SwapHistoryOptions)
| PrivateDeleteSwap (s : files.PrivateService) (cid : string)
| PrivateCreateAccessLink (s : files.PrivateService) (opts : option types.AccessLinkOptions)
| PrivateVectorize (s : files.PrivateService) (fileID : string)
| PrivateDeleteVectors (s : files.PrivateService) (fileID : string)
| PrivateQueryVectors (s : files.PrivateService) (opts : option types.VectorQueryOptions)
| PublicGet (s : files.PublicService) (id : string)
| PublicList (s : files.PublicService) (opts : option files.ListOptions)
| PublicUpdate (s : files.PublicService) (opts : option files.UpdateOptions)
| PublicDelete (s : files.PublicService) (ids : list string)
| PublicAddSwap (s : files.PublicService) (opts : option files.SwapOptions)
| PublicGetSwapHistory (s : files.PublicService) (opts : option files.SwapHistoryOptions)
| PublicDeleteSwap (s : files.PublicService) (cid : string)
| PublicPinByHash (s : files.PublicService) (opts : option files.PinByHashOptions)
| PublicQueue (s : files.PublicService) (opts : option files.PinQueueOptions)
| PublicCancelPinRequest (s : files.PublicService) (id : string).

(** The result of a function seen through an injection into [Value]. *)
Definition returning {A} (inj : A -> Value) (f : Fn (A * option error)) : Fn (Value * option error) :=
  fun w =>
    match f w with
    | (Returned (a, e), w') => (Returned (inj a, e), w')
    | (Panicked msg, w') => (Panicked msg, w')
    end.

Definition returning_error (f : Fn (option error)) : Fn (Value * option error) :=
  fun w =>
    match f w with
    | (Returned e, w') => (Returned (VNothing, e), w')
    | (Panicked msg, w') => (Panicked msg, w')
    end.

Definition exec (env : Env) (c : Call) : Fn (Value * option error) :=
  match c with
  | UploadFile s file opts => returning VUpload (upload.File env s file opts)
  | UploadFileArray s files opts => returning VUpload (upload.FileArray env s files opts)
  | UploadJSON s data opts => returning VUpload (upload.JSON env s data opts)
  | UploadBase64 s data opts => returning VUpload (upload.Base64 env s data opts)
  | UploadURL s targetURL opts => returning VUpload (upload.URL env s targetURL opts)
  | UploadCreateSignedURL s opts => returning VString (upload.CreateSignedURL env s opts)
  | PrivateGet s id => returning VFile (files.Private_Get env s id)
  | PrivateList s opts => returning VFileList (files.Private_List env s opts)
  | PrivateUpdate s opts => returning VFile (files.Private_Update env s opts)
  | PrivateDelete s ids => returning VDeleted (files.Private_Delete env s ids)
  | PrivateAddSwap s opts => returning VSwap (files.Private_AddSwap env s opts)
  | PrivateGetSwapHistory s opts => returning VSwaps (files.Private_GetSwapHistory env s opts)
  | PrivateDeleteSwap s cid => returning_error (files.Private_DeleteSwap env s cid)
  | PrivateCreateAccessLink s opts => returning VString (files.Private_CreateAccessLink env s opts)
  | PrivateVectorize s fileID => returning VVectorize (files.Private_Vectorize env s fileID)
  | PrivateDeleteVectors s fileID => returning VVectorize (files.Private_DeleteVectors env s fileID)
  | PrivateQueryVectors s opts => returning VVectorQuery (files.Private_QueryVectors env s opts)
  | PublicGet s id => returning VFile (files.Public_Get env s id)
  | PublicList s opts => returning VFileList (files.Public_List env s opts)
  | PublicUpdate s opts => returning VFile (files.Public_Update env s opts)
  | PublicDelete s ids => returning VDeleted (files.Public_Delete env s ids)
  | PublicAddSwap s opts => returning VSwap (files.Public_AddSwap env s opts)
  | PublicGetSwapHistory s opts => returning VSwaps (files.Public_GetSwapHistory env s opts)
  | PublicDeleteSwap s cid => returning_error (files.Public_DeleteSwap env s cid)
  | PublicPinByHash s opts => returning VPinByHash (files.Public_PinByHash env s opts)
  | PublicQueue s opts => returning VPinQueue (files.Public_Queue env s opts)
  | PublicCancelPinRequest s id => returning_error (files.Public_CancelPinRequest env s id)
  end.

(** The zero value a method returns next to an error. *)
Definition zero (c : Call) : Value :=
  match c with
  | UploadFile _ _ _ | UploadFileArray _ _ _ | UploadJSON _ _ _
  | UploadBase64 _ _ _ | UploadURL _ _ _ => VUpload None
  | UploadCreateSignedURL _ _ | PrivateCreateAccessLink _ _ => VString ""
  | PrivateGet _ _ | PrivateUpdate _ _ | PublicGet _ _ | PublicUpdate _ _ => VFile None
  | PrivateList _ _ | PublicList _ _ => VFileList None
  | PrivateDelete _ _ | PublicDelete _ _ => VDeleted []
  | PrivateAddSwap _ _ | PublicAddSwap _ _ => VSwap None
  | PrivateGetSwapHistory _ _ | PublicGetSwapHistory _ _ => VSwaps []
  | PrivateDeleteSwap _ _ | PublicDeleteSwap _ _ | PublicCancelPinRequest _ _ => VNothing
  | PrivateVectorize _ _ | PrivateDeleteVectors _ _ => VVectorize None
  | PrivateQueryVectors _ _ => VVectorQuery None
  | PublicPinByHash _ _ => VPinByHash None
  | PublicQueue _ _ => VPinQueue None
  end.

(** The exchanges between two worlds of one run: what a call added to
    the trace. *)
Definition issued (w w' : World) : list Exchange :=
  drop (length (w_trace w)) (w_trace w').

(** An exchange that went through: a response came back and its status
    is 200. *)
Definition good (x : Exchange) : Prop :=
  match x.2 with
  | NetResponse resp => StatusCode resp = StatusOK
  | NetError _ => False
  end.

(** How many requests a call sends when nothing stops it. *)
Definition requests (c : Call) : nat :=
  match c with
  | PrivateDelete _ ids | PublicDelete _ ids => length ids
  | UploadURL _ _ _ => 2
  | _ => 1
  end.

(** ** What a call is expected to do with its exchanges *)

(** The value a call returns once its last request has been answered
    with status 200, or the error of decoding the answer (of reading it,
    for QueryVectors with [ReturnFile]). *)
Definition expected (env : Env) (c : Call) (resp : Response) : Result Value :=
  let decoded {A} (inj : A -> Value) (dec : string -> Result A) : Result Value :=
    match dec (RespBody resp) with
    | Ok a => Ok (inj a)
    | Failed e => Failed e
    end in
  match c with
  | UploadFile _ _ _ | UploadFileArray _ _ _ | UploadJSON _ _ _
  | UploadBase64 _ _ _ | UploadURL _ _ _ => decoded VUpload (dec_Upload env)
  | UploadCreateSignedURL _ _ => decoded VString (dec_string env)
  | PrivateGet _ _ | PrivateUpdate _ _ | PublicGet _ _ | PublicUpdate _ _ =>
      decoded VFile (dec_File env)
  | PrivateList _ _ | PublicList _ _ => decoded VFileList (dec_FileList env)
  | PrivateDelete _ ids | PublicDelete _ ids =>
      Ok (VDeleted (map (fun id => {| types.Delete_ID := id;
                                      types.Delete_Status := "deleted" |}) ids))
  | PrivateAddSwap _ _ | PublicAddSwap _ _ => decoded VSwap (dec_Swap env)
  | PrivateGetSwapHistory _ _ | PublicGetSwapHistory _ _ => decoded VSwaps (dec_Swaps env)
  | PrivateDeleteSwap _ _ | PublicDeleteSwap _ _ | PublicCancelPinRequest _ _ => Ok VNothing
  | PrivateCreateAccessLink _ _ =>
      decoded (fun data =>
                 VString (gostrings.Trim (gostrings.ReplaceAll data gostrings.escaped_ampersand "&") "034"%char))
        (dec_string env)
  | PrivateVectorize _ _ | PrivateDeleteVectors _ _ => decoded VVectorize (dec_Vectorize env)
  | PrivateQueryVectors _ opts =>
      if default false (types.ReturnFile <$> opts)
      then match io_ReadAll env resp with
           | Ok body =>
               Ok (VVectorQuery (Some {| types.Count := 0; types.Matches := [];
                                         types.ContentType := Header_Get env resp "Content-Type";
                                         types.Data := body |}))
           | Failed e => Failed e
           end
      else decoded VVectorQuery (dec_VectorQuery env)
  | PublicPinByHash _ _ => decoded VPinByHash (dec_PinByHash env)
  | PublicQueue _ _ => decoded VPinQueue (dec_PinQueue env)
  end.

(** What a call puts in front of the error of [expected]: QueryVectors
    with [ReturnFile] reads the body, every other call decodes it. *)
Definition answer_failure (c : Call) : string :=
  match c with
  | PrivateQueryVectors _ (Some opts) =>
      if types.ReturnFile opts then "failed to read response body: "
      else "failed to decode response: "
  | _ => "failed to decode response: "
  end.

(** The error a call returns when the exchange [x], sent after the
    exchanges [before] of the same call, did not go through. *)
Definition failure_message (c : Call) (before : list Exchange) (x : Exchange) : error :=
  match c, before, x.2 with
  | UploadURL _ _ _, [], NetError e => "failed to fetch URL content: " +:+ e
  | UploadURL _ _ _, [], NetResponse resp =>
      "URL returned non-OK status: " +:+ gostrings.itoa (StatusCode resp)
  | _, _, NetError e => "failed to send request: " +:+ e
  | _, _, NetResponse resp => status_error resp
  end.

(** The course of a call from world [w], in one statement: the trace
    grows by the exchanges [l] of the call and the configuration and the
    clock stay as they are; a call that returns without error has sent
    all its requests, each went through, and its value is the expected
    one for the last answer; a call that returns an error returns the
    zero value, and an exchange that did not go through is the last one
    and determines the error; a call that panics has seen no failure. *)
Definition course (env : Env) (c : Call) (w : World) (r : Outcome (Value * option error) * World) : Prop :=
  exists l : list Exchange,
    w_trace r.2 = w_trace w ++ l /\
    w_config r.2 = w_config w /\
    w_now r.2 = w_now w /\
    length l <= requests c /\
    match r.1 with
    | Returned (v, None) =>
        Forall good l /\ length l = requests c /\
        exists l0 req resp,
          l = l0 ++ [(req, NetResponse resp)] /\ expected env c resp = Ok v
    | Returned (v, Some msg) =>
        v = zero c /\
        (Forall good l \/
         exists l0 x, l = l0 ++ [x] /\ Forall good l0 /\ ~ good x /\
                      msg = failure_message c l0 x)
    | Panicked _ => Forall good l
    end.

(** The request [Delete] sends for one ID, and the record it answers
    for it. *)
Definition delete_request (env : Env) (network : string) (cfg : types.Config) (id : string) : Request :=
  files.api_headers env cfg
    {| Method := "DELETE";
       URL := types.APIUrl cfg +:+ "/files/" +:+ network +:+ "/" +:+ id;
       Header := ∅;
       ReqBody := NoBody |}.

Definition deleted (id : string) : types.DeleteResponse :=
  {| types.Delete_ID := id; types.Delete_Status := "deleted" |}.

(** The error [Delete] returns for an exchange that did not go through. *)
Definition delete_failure (x : Exchange) : error :=
  match x.2 with
  | NetError e => "failed to send request: " +:+ e
  | NetResponse resp => status_error resp
  end.

(** Two worlds that differ in their trace at most. *)
Definition same_but_trace (w w' : World) : Prop :=
  w_config w' = w_config w /\ w_now w' = w_now w /\
  w_fs w' = w_fs w /\ w_temp w' = w_temp w.

(** In [URL] the first exchange of the call is the fetch of the target;
    every other exchange of every call goes to the API. *)
Definition is_fetch (c : Call) (before : list Exchange) : bool :=
  match c, before with
  | UploadURL _ _ _, [] => true
  | _, _ => false
  end.

(** The name a part of a multipart form goes by. *)
Definition part_name (p : Part) : string :=
  match p with
  | FormField name _ => name
  | FormFile fieldname _ _ => fieldname
  end.

(** ** The payloads, as the specification words them *)

Definition signed_fields : list string :=
  ["date"; "expires"; "network"; "group_id"; "filename"; "keyvalues";
   "vectorize"; "max_file_size"; "allow_mime_types"].

(** The payload of a signed upload URL for [opts] at time [now]: the
    three fields that are always there, the optional ones exactly when
    their option is set, and nothing else (no signature of the client). *)
Definition signed_payload_spec (now : Z) (opts : upload.SignedUploadOptions) (payload : JSONObject) : Prop :=
  payload !! "date" =
    Some (GoInt (if decide (upload.Signed_Date opts = 0)%Z then now
                 else upload.Signed_Date opts)) /\
  payload !! "expires" = Some (GoInt (upload.Signed_Expires opts)) /\
  payload !! "network" = Some (GoString "private") /\
  (is_Some (payload !! "max_file_size") <-> (0 < upload.Signed_MaxFileSize opts)%Z) /\
  (is_Some (payload !! "allow_mime_types") <-> upload.Signed_MimeTypes opts <> []) /\
  (is_Some (payload !! "group_id") <-> upload.Signed_GroupID opts <> "") /\
  (is_Some (payload !! "filename") <-> upload.Signed_Name opts <> "") /\
  (is_Some (payload !! "vectorize") <-> upload.Signed_Vectorize opts = true) /\
  (forall k, is_Some (payload !! k) -> k ∈ signed_fields).

(** The payload of an access link for [opts] at time [now] under the
    configuration [cfg]. *)
Definition access_payload_spec (cfg : types.Config) (now : Z) (opts : types.AccessLinkOptions) (payload : JSONObject) : Prop :=
  payload !! "url" =
    Some (GoString ("https://"
                    +:+ (if decide (types.Link_Gateway opts = "")
                         then types.PinataGateway cfg else types.Link_Gateway opts)
                    +:+ ".mypinata.cloud/files/" +:+ types.Link_CID opts)) /\
  payload !! "date" =
    Some (GoInt (if decide (types.Link_Date opts = 0)%Z then now
                 else types.Link_Date opts)) /\
  payload !! "expires" = Some (GoInt (types.Link_Expires opts)) /\
  payload !! "method" = Some (GoString "GET").

(** ** Staging, as the specification words it *)

(** The piece of a string after its last slash: the whole string when it
    has none, the empty string when it ends in one. *)
Fixpoint after_last_slash (seg s : string) : string :=
  match s with
  | EmptyString => seg
  | String a s' =>
      if decide (a = "/"%char) then after_last_slash "" s'
      else after_last_slash (seg +:+ String a "") s'
  end.

Definition last_segment (s : string) : string := after_last_slash "" s.

Section Staging.

Context (env : Env) (s : upload.PrivateService).

(** The temporary file a helper gets in world [w]. *)
Definition temp_file (pattern : string) (w : World) : FileHandle :=
  {| fh_name := e_temp_name env pattern (w_temp w) |}.

(** Nothing stands in the way of staging in world [w]: the name is
    free and the system calls on the file succeed. *)
Definition can_stage (pattern : string) (w : World) : Prop :=
  let name := fh_name (temp_file pattern w) in
  e_os_error env (CallCreateTemp pattern) = None /\
  w_fs w !! name = None /\
  e_os_error env (CallWrite name) = None /\
  e_os_error env (CallSeek name) = None.

(** The world after [content] has been written to the fresh file. *)
Definition staged (pattern content : string) (w : World) : World :=
  set_temp (S (w_temp w))
    (set_fs (<[fh_name (temp_file pattern w) := content]> (w_fs w)) w).

(** Write [content] to a fresh temporary file, return exactly what
    [File] returns on that file with the given options, and remove the
    file afterwards. *)
Definition staged_upload (pattern content : string) (fileOpts : upload.FileOptions) : Fn upload.Upload :=
  fun w =>
    let tmp := temp_file pattern w in
    let '(r, w') := upload.File env s (Some tmp) (Some fileOpts) (staged pattern content w) in
    (r, os_Remove (fh_name tmp) w').

(** The options the helpers hand to [File]. *)
Definition staged_options (name default_name group : string) (keyvalues : gmap string string) : upload.FileOptions :=
  {| upload.FileName := if decide (name = "") then default_name else name;
     upload.GroupID := group;
     upload.KeyValues := keyvalues;
     upload.Vectorize := false |}.

End Staging.

(** ** Concrete worlds *)

Module example.

(** A server that answers every request with [status] and [body]; the
    standard library behaves as on well-formed input. Decoding an
    envelope without a data field leaves the zero value. *)
Definition decode_empty {A} (zero : A) (body : string) : Result A :=
  if decide (body = "{}") then Ok zero
  else Failed "invalid character looking for beginning of value".

Definition marshal (v : GoValue) : Result string :=
  match v with
  | GoInt z => Ok (gostrings.itoa z)
  | GoBool true => Ok "true"
  | GoBool false => Ok "false"
  | _ => Failed "json: unsupported type"
  end.

(** Base64 on the two strings the examples decode. *)
Definition decode_base64 (data : string) : Result string :=
  if decide (data = "") then Ok ""
  else if decide (data = "aGk=") then Ok "hi"
  else Failed "illegal base64 data".

Definition env (status : Z) (body : string) : Env :=
  {| e_net := fun _ _ =>
       NetResponse {| StatusCode := status;
                      RespHeader := {[ "Content-Type" := "application/pdf" ]};
                      RespBody := body |};
     e_url_error := fun _ => None;
     e_os_error := fun _ => None;
     e_temp_name := fun pattern n => "/tmp/" +:+ pattern +:+ gostrings.itoa (Z.of_nat n);
     e_base := fun path => path;
     e_canonical := fun key => key;
     e_query_escape := fun q => q;
     e_encode := fun _ => "encoded";
     e_boundary := "boundary";
     e_json_marshal := marshal;
     e_base64_decode := decode_base64;
     e_read_error := fun _ => None;
     dec_File := decode_empty None;
     dec_FileList := decode_empty None;
     dec_Swap := decode_empty None;
     dec_Swaps := decode_empty [];
     dec_PinByHash := decode_empty None;
     dec_PinQueue := decode_empty None;
     dec_Vectorize := decode_empty None;
     dec_VectorQuery := decode_empty None;
     dec_Upload := decode_empty None;
     dec_string := decode_empty "" |}.

Definition world : World :=
  {| w_config := pinata.NewConfig "jwt" "gw";
     w_now := 1700000000;
     w_trace := [];
     w_fs := ∅;
     w_temp := 0 |}.

Definition private_files : files.PrivateService := files.NewPrivateService ConfigPtr.
Definition private_upload : upload.PrivateService := upload.NewPrivateService ConfigPtr.

Definition signed_options : upload.SignedUploadOptions :=
  {| upload.Signed_Date := 0;
     upload.Signed_Expires := 60;
     upload.Signed_GroupID := "";
     upload.Signed_Name := "report.pdf";
     upload.Signed_KeyValues := ∅;
     upload.Signed_Vectorize := true;
     upload.Signed_MaxFileSize := 1024;
     upload.Signed_MimeTypes := ["application/pdf"] |}.

Definition link_options : types.AccessLinkOptions :=
  {| types.Link_CID := "bafy";
     types.Link_Date := 0;
     types.Link_Expires := 30;
     types.Link_Gateway := "" |}.

Definition query_options : types.VectorQueryOptions :=
  {| types.Query_GroupID := "g1";
     types.Query := "cats";
     types.ReturnFile := true |}.

Definition json_options : upload.JSONOptions :=
  {| upload.JSON_Name := "";
     upload.JSON_GroupID := "g1";
     upload.JSON_KeyValues := ∅;
     upload.JSON_Vectorize := true |}.

Definition base64_options : upload.Base64Options :=
  {| upload.Base64_Name := "";
     upload.Base64_GroupID := "";
     upload.Base64_KeyValues := ∅;
     upload.Base64_Vectorize := false |}.

Definition url_options : upload.URLOptions :=
  {| upload.URL_Name := "";
     upload.URL_GroupID := "";
     upload.URL_KeyValues := ∅;
     upload.URL_Vectorize := false |}.

Definition target : string := "https://example.com/cats/tom.png".

(** What the server of [env 200 "{}"] answers. *)
Definition answer : Response :=
  {| StatusCode := 200;
     RespHeader := {[ "Content-Type" := "application/pdf" ]};
     RespBody := "{}" |}.

End example.

(** The request [URL] fetches its target with, and the world after the
    target has answered with [resp]. *)
Definition fetch_request (targetURL : string) : Request :=
  {| Method := "GET"; URL := targetURL; Header := ∅; ReqBody := NoBody |}.

Definition fetched (targetURL : string) (resp : Response) (w : World) : World :=
  set_trace (w_trace w ++ [(fetch_request targetURL, NetResponse resp)]) w.

(** The names a part of an upload form can have. *)
Definition form_names : list string :=
  ["network"; "group_id"; "name"; "keyvalues"; "file"].

(** An environment with another network. *)
Definition with_net (net : list Exchange -> Request -> NetResult) (env : Env) : Env :=
  {| e_net := net;
     e_url_error := e_url_error env;
     e_os_error := e_os_error env;
     e_temp_name := e_temp_name env;
     e_base := e_base env;
     e_canonical := e_canonical env;
     e_query_escape := e_query_escape env;
     e_encode := e_encode env;
     e_boundary := e_boundary env;
     e_json_marshal := e_json_marshal env;
     e_base64_decode := e_base64_decode env;
     e_read_error := e_read_error env;
     dec_File := dec_File env;
     dec_FileList := dec_FileList env;
     dec_Swap := dec_Swap env;
     dec_Swaps := dec_Swaps env;
     dec_PinByHash := dec_PinByHash env;
     dec_PinQueue := dec_PinQueue env;
     dec_Vectorize := dec_Vectorize env;
     dec_VectorQuery := dec_VectorQuery env;
     dec_Upload := dec_Upload env;
     dec_string := dec_string env |}.

(** A server that answers the first [n] requests with 200 and every
    later one with 500. *)
Definition failing_after (n : nat) : Env :=
  with_net (fun trace _ =>
              NetResponse {| StatusCode := if decide (length trace < n) then 200 else 500;
                             RespHeader := ∅;
                             RespBody := if decide (length trace < n) then "{}" else "boom" |})
    (example.env 200 "{}").

(** ** Arguments, configurations and destinations *)

(** [p == nil] *)
Definition is_nil {A} (p : option A) : bool :=
  match p with
  | None => true
  | Some _ => false
  end.

(** [opts == nil || missing(opts)] *)
Definition nil_or {A} (opts : option A) (missing : A -> bool) : bool :=
  match opts with
  | None => true
  | Some o => missing o
  end.

(** [if missing { return zero, fmt.Errorf(msg) }] at the head of a method. *)
Definition required (missing : bool) (msg : error) : option error :=
  if missing then Some msg else None.

(** The check a method starts with, and the error it returns when an
    argument it needs is missing; [Get], [List] and [Queue] have none. *)
Definition rejected (c : Call) : option error :=
  match c with
  | UploadFile _ file _ => required (is_nil file) "file is required"
  | UploadFileArray _ files _ =>
      required (bool_decide (length files = 0)) "at least one file is required"
  | UploadJSON _ data _ => required (is_nil data) "JSON data is required"
  | UploadBase64 _ data _ => required (bool_decide (data = "")) "base64 data is required"
  | UploadURL _ targetURL _ => required (bool_decide (targetURL = "")) "URL is required"
  | UploadCreateSignedURL _ opts =>
      required (nil_or opts (fun o => bool_decide (upload.Signed_Expires o <= 0)%Z))
        "expiration time is required"
  | PrivateGet _ _ | PublicGet _ _ => None
  | PrivateList _ _ | PublicList _ _ => None
  | PrivateUpdate _ opts | PublicUpdate _ opts =>
      required (nil_or opts (fun o => bool_decide (files.Update_ID o = "")))
        "file ID is required"
  | PrivateDelete _ ids | PublicDelete _ ids =>
      required (bool_decide (length ids = 0)) "at least one file ID is required"
  | PrivateAddSwap _ opts | PublicAddSwap _ opts =>
      required (nil_or opts (fun o => bool_decide (files.Swap_CID o = "" ∨ files.SwapCID o = "")))
        "CID and swap CID are required"
  | PrivateGetSwapHistory _ opts | PublicGetSwapHistory _ opts =>
      required (nil_or opts (fun o => bool_decide (files.History_CID o = "" ∨ files.Domain o = "")))
        "CID and domain are required"
  | PrivateDeleteSwap _ cid | PublicDeleteSwap _ cid =>
      required (bool_decide (cid = "")) "CID is required"
  | PrivateCreateAccessLink _ opts =>
      required (nil_or opts (fun o => bool_decide (types.Link_CID o = ""
                                                   ∨ (types.Link_Expires o <= 0)%Z)))
        "CID and expiration time are required"
  | PrivateVectorize _ fileID | PrivateDeleteVectors _ fileID =>
      required (bool_decide (fileID = "")) "file ID is required"
  | PrivateQueryVectors _ opts =>
      required (nil_or opts (fun o => bool_decide (types.Query_GroupID o = ""
                                                   ∨ types.Query o = "")))
        "group ID and query text are required"
  | PublicPinByHash _ opts =>
      required (nil_or opts (fun o => bool_decide (files.Pin_CID o = ""))) "CID is required"
  | PublicQueue _ _ => None
  | PublicCancelPinRequest _ id =>
      required (bool_decide (id = "")) "request ID is required"
  end.

(** The [config] field of the service a call goes to. *)
Definition service_config (c : Call) : any :=
  match c with
  | UploadFile s _ _ | UploadFileArray s _ _ | UploadJSON s _ _ | UploadBase64 s _ _
  | UploadURL s _ _ | UploadCreateSignedURL s _ => upload.config s
  | PrivateGet s _ | PrivateList s _ | PrivateUpdate s _ | PrivateDelete s _
  | PrivateAddSwap s _ | PrivateGetSwapHistory s _ | PrivateDeleteSwap s _
  | PrivateCreateAccessLink s _ | PrivateVectorize s _ | PrivateDeleteVectors s _
  | PrivateQueryVectors s _ => files.private_config s
  | PublicGet s _ | PublicList s _ | PublicUpdate s _ | PublicDelete s _
  | PublicAddSwap s _ | PublicGetSwapHistory s _ | PublicDeleteSwap s _
  | PublicPinByHash s _ | PublicQueue s _ | PublicCancelPinRequest s _ => files.public_config s
  end.

(** The calls that hand nil options to a helper that reads them. *)
Definition nil_options (c : Call) : bool :=
  match c with
  | UploadJSON _ _ None | UploadBase64 _ _ None | UploadURL _ _ None => true
  | _ => false
  end.

(** The methods whose first statement after the argument check is the
    type assertion on the configuration: all but [File] and the helpers
    that end in it, which touch the file or the network first. *)
Definition asserts_first (c : Call) : bool :=
  match c with
  | UploadFile _ _ _ | UploadJSON _ _ _ | UploadBase64 _ _ _ | UploadURL _ _ _ => false
  | _ => true
  end.

(** The methods that only build a request and send it: those of the
    files services and [CreateSignedURL]. The other upload methods read
    files or fetch a URL first. *)
Definition builds_and_sends (c : Call) : bool :=
  match c with
  | UploadFile _ _ _ | UploadFileArray _ _ _ | UploadJSON _ _ _ | UploadBase64 _ _ _
  | UploadURL _ _ _ => false
  | _ => true
  end.

(** The panic of [s.config.( *types.Config)] on a value of another type. *)
Definition conversion_panic : string :=
  "interface conversion: interface {} is not *types.Config".

(** The two panics a method can run into on the value [c] its service
    holds: the type assertion fails on a value of another type, and the
    first read of a field fails on a nil [*types.Config]. *)
Definition config_panic (c : any) (msg : string) : Prop :=
  c = OtherValue /\ msg = conversion_panic \/
  c = NilConfigPtr /\ msg = nil_dereference.

(** [p] is the beginning of [s]; [s] ends in [p]. *)
Definition starts_with (p s : string) : Prop :=
  exists rest, s = p +:+ rest.

Definition ends_with (p s : string) : Prop :=
  exists front, s = front +:+ p.

(** The byte [c] occurs in [s]. *)
Fixpoint occurs_in (c : ascii) (s : string) : Prop :=
  match s with
  | EmptyString => False
  | String a s' => a = c \/ occurs_in c s'
  end.

(** [x] occurs in [s], decided from left to right. *)
Fixpoint occursb (x s : string) : bool :=
  gostrings.has_prefix x s ||
  match s with
  | EmptyString => false
  | String _ s' => occursb x s'
  end.

(** A double quote. *)
Definition quote : string := String "034"%char "".

(** The URL of the configuration a call builds its own URLs from. *)
Definition base_url (c : Call) (cfg : types.Config) : string :=
  match c with
  | UploadFile _ _ _ | UploadFileArray _ _ _ | UploadJSON _ _ _ | UploadBase64 _ _ _
  | UploadURL _ _ _ | UploadCreateSignedURL _ _ => types.UploadUrl cfg
  | _ => types.APIUrl cfg
  end.

(** The headers a call sets on the request it has built. *)
Definition with_headers (env : Env) (c : Call) (cfg : types.Config) (req : Request) : Request :=
  match c with
  | UploadCreateSignedURL _ _ => upload.upload_headers env "application/json" cfg req
  | UploadFile _ _ _ | UploadFileArray _ _ _ | UploadJSON _ _ _ | UploadBase64 _ _ _
  | UploadURL _ _ _ => upload.upload_headers env (upload.FormDataContentType env) cfg req
  | _ => files.api_headers env cfg req
  end.

(** ** Forms and queries *)

(** The part [CreateFormFile] and [io.Copy] write for a file in world [w]. *)
Definition file_part (env : Env) (w : World) (f : FileHandle) : Part :=
  FormFile "file" (e_base env (fh_name f)) (default "" (w_fs w !! fh_name f)).

(** A file that can be rewound and read. *)
Definition readable (env : Env) (f : FileHandle) : Prop :=
  e_os_error env (CallSeek (fh_name f)) = None /\
  e_os_error env (CallRead (fh_name f)) = None.

(** The form of an upload that carries a name: the network, the group
    when there is one, the name, the key-values when there are any, and
    the file. *)
Definition named_form (group name : string) (keyvalues : gmap string string)
    (filename content : string) : list Part :=
  [FormField "network" (Text "private")]
  ++ (if decide (group = "") then [] else [FormField "group_id" (Text group)])
  ++ [FormField "name" (Text name)]
  ++ (if decide (size keyvalues = 0) then [] else [FormField "keyvalues" (JSONText keyvalues)])
  ++ [FormFile "file" filename content].

(** [name], or [default_name] when it is empty. *)
Definition name_or (name default_name : string) : string :=
  if decide (name = "") then default_name else name.









(** ** More concrete worlds *)

Module sample.

(** A network that is down. *)
Definition offline : Env :=
  with_net (fun _ _ => NetError "connection refused") (example.env 200 "{}").

(** A server whose envelope carries [link] as its data. *)
Definition linking (link : string) : Env :=
  let env := example.env 200 "{}" in
  {| e_net := e_net env;
     e_url_error := e_url_error env;
     e_os_error := e_os_error env;
     e_temp_name := e_temp_name env;
     e_base := e_base env;
     e_canonical := e_canonical env;
     e_query_escape := e_query_escape env;
     e_encode := e_encode env;
     e_boundary := e_boundary env;
     e_json_marshal := e_json_marshal env;
     e_base64_decode := e_base64_decode env;
     e_read_error := e_read_error env;
     dec_File := dec_File env;
     dec_FileList := dec_FileList env;
     dec_Swap := dec_Swap env;
     dec_Swaps := dec_Swaps env;
     dec_PinByHash := dec_PinByHash env;
     dec_PinQueue := dec_PinQueue env;
     dec_Vectorize := dec_Vectorize env;
     dec_VectorQuery := dec_VectorQuery env;
     dec_Upload := dec_Upload env;
     dec_string := fun _ => Ok link |}.

(** A server whose answers break off while their body is read. *)
Definition cut_off : Env :=
  let env := example.env 200 "{}" in
  {| e_net := e_net env;
     e_url_error := e_url_error env;
     e_os_error := e_os_error env;
     e_temp_name := e_temp_name env;
     e_base := e_base env;
     e_canonical := e_canonical env;
     e_query_escape := e_query_escape env;
     e_encode := e_encode env;
     e_boundary := e_boundary env;
     e_json_marshal := e_json_marshal env;
     e_base64_decode := e_base64_decode env;
     e_read_error := fun _ => Some "unexpected EOF";
     dec_File := dec_File env;
     dec_FileList := dec_FileList env;
     dec_Swap := dec_Swap env;
     dec_Swaps := dec_Swaps env;
     dec_PinByHash := dec_PinByHash env;
     dec_PinQueue := dec_PinQueue env;
     dec_Vectorize := dec_Vectorize env;
     dec_VectorQuery := dec_VectorQuery env;
     dec_Upload := dec_Upload env;
     dec_string := dec_string env |}.

(** A world with two files on disk. *)
Definition disk : World :=
  {| w_config := pinata.NewConfig "jwt" "gw";
     w_now := 1700000000;
     w_trace := [];
     w_fs := {[ "a.txt" := "A"; "b.txt" := "B" ]};
     w_temp := 0 |}.

Definition a_txt : FileHandle := {| fh_name := "a.txt" |}.
Definition b_txt : FileHandle := {| fh_name := "b.txt" |}.

Definition folder_options : upload.FileOptions :=
  {| upload.FileName := "folder";
     upload.GroupID := "";
     upload.KeyValues := ∅;
     upload.Vectorize := false |}.


Definition update_options : files.UpdateOptions :=
  {| files.Update_ID := "id-1";
     files.Update_Name := "new name";
     files.Update_KeyValues := ∅ |}.

Definition pin_options : files.PinByHashOptions :=
  {| files.Pin_CID := "bafy";
     files.Pin_Name := "";
     files.Pin_GroupID := "";
     files.Pin_KeyValues := ∅;
     files.Pin_HostNodes := ["node-1"] |}.

(** A files service that holds a value of another type than
    [*types.Config]. *)
Definition wrong_files : files.PrivateService := files.NewPrivateService OtherValue.

(** A files service that holds a nil [*types.Config]. *)
Definition nil_files : files.PrivateService := files.NewPrivateService NilConfigPtr.

(** A request of the files services as it leaves the SDK in
    [example.world]. *)
Definition api_request (env : Env) (method url : string) (body : Body) : Request :=
  files.api_headers env (w_config example.world)
    {| Method := method; URL := url; Header := ∅; ReqBody := body |}.

(** An upload as it leaves the SDK in [example.world]. *)
Definition upload_request (env : Env) (parts : list Part) : Request :=
  upload.upload_headers env (upload.FormDataContentType env) (w_config example.world)
    {| Method := "POST"; URL := "https://uploads.pinata.cloud/v3/files";
       Header := ∅; ReqBody := FormBody parts |}.

(** A configuration with a custom header. *)
Definition traced : types.Config :=
  {| types.PinataJWT := "jwt";
     types.PinataGateway := "gw";
     types.PinataGatewayKey := "";
     types.CustomHeaders := {[ "X-Trace" := "on" ]};
     types.APIUrl := pinata.DefaultAPIURL;
     types.UploadUrl := pinata.DefaultUploadURL |}.

Definition get_request : Request :=
  {| Method := "GET"; URL := "https://api.pinata.cloud/v3/files/private/id-1";
     Header := ∅; ReqBody := NoBody |}.

End sample.


(** * Proofs *)

(** ** Running a method symbolically *)

(** Unfold the statements of the embedding and split on whatever the
    outcome depends on, innermost first. *)
Ltac unfold_go :=
  cbv beta iota zeta delta
    [fn call bind check try send decode deref defer ret return_ panic
     assert_Config time_Now_Unix client_Get client_Do file_Stat file_Seek
     file_ReadAll file_Write os_CreateTemp http_NewRequest io_ReadAll
     returning returning_error fst snd].

Ltac destruct_scrutinee :=
  match goal with
  | |- context [match ?x with _ => _ end] =>
      lazymatch x with
      | context [match _ with _ => _ end] => fail
      | _ => destruct x eqn:?
      end
  end.

Ltac run := unfold_go; repeat (destruct_scrutinee; unfold_go).

Ltac unfold_methods :=
  unfold exec,
    upload.JSON, upload.Base64, upload.URL, upload.File, upload.FileArray,
    upload.CreateSignedURL,
    files.Private_Get, files.Private_List, files.Private_Update, files.Private_Delete,
    files.Private_AddSwap, files.Private_GetSwapHistory, files.Private_DeleteSwap,
    files.Private_CreateAccessLink, files.Private_Vectorize, files.Private_DeleteVectors,
    files.Private_QueryVectors,
    files.Public_Get, files.Public_List, files.Public_Update, files.Public_Delete,
    files.Public_AddSwap, files.Public_GetSwapHistory, files.Public_DeleteSwap,
    files.Public_PinByHash, files.Public_Queue, files.Public_CancelPinRequest,
    files.Get, files.List, files.Update, files.Delete, files.AddSwap,
    files.GetSwapHistory, files.DeleteSwap.

Ltac solve_good :=
  unfold good, StatusOK in *; cbn [fst snd] in *; first [ lia | tauto | done ].

Ltac all_good :=
  repeat first [ apply Forall_nil_2 | apply Forall_cons_2; [solve_good|] ].

Ltac use_equations :=
  repeat match goal with H : ?t = _ |- context [?t] => rewrite H end.

(** ** Worlds and traces *)

Lemma same_but_trace_refl w : same_but_trace w w.
Proof. by repeat split. Qed.

Lemma issued_app w w' l :
  w_trace w' = w_trace w ++ l -> issued w w' = l.
Proof. unfold issued. intros ->. by rewrite drop_app_length. Qed.


(** ** The loops *)

Section Loops.

Context (env : Env).

Lemma FileArray_turn_cases file writer w :
  upload.FileArray_turn env file writer w =
  match file with
  | None => (Return (None, Some ("failed to reset file position: " +:+ "invalid argument")), w)
  | Some f =>
      match e_os_error env (CallSeek (fh_name f)) with
      | Some e => (Return (None, Some ("failed to reset file position: " +:+ e)), w)
      | None =>
          match e_os_error env (CallRead (fh_name f)) with
          | Some e => (Return (None, Some ("failed to copy file data: " +:+ e)), w)
          | None =>
              (Next (writer ++ [FormFile "file" (e_base env (fh_name f))
                                  (default "" (w_fs w !! fh_name f))]), w)
          end
      end
  end.
Proof. unfold upload.FileArray_turn. run; reflexivity. Qed.

Lemma FileArray_loop handles : forall writer w,
  (for_range handles (upload.FileArray_turn env) writer w).2 = w /\
  match (for_range handles (upload.FileArray_turn env) writer w).1 with
  | Next writer' =>
      exists parts, writer' = writer ++ parts /\
                    Forall (fun p => part_name p = "file") parts
  | Return (v, e) => v = None /\ is_Some e
  | Panic _ => False
  end.
Proof.
  induction handles as [|file handles IH]; intros writer w.
  - cbn. split; [done|]. exists []. by rewrite app_nil_r.
  - cbn [for_range]. unfold bind. rewrite FileArray_turn_cases.
    destruct file as [f|]; [|cbn; by eauto].
    destruct (e_os_error env (CallSeek _)); [cbn; by eauto|].
    destruct (e_os_error env (CallRead _)); [cbn; by eauto|].
    match goal with
    | |- context [for_range handles _ ?s ?w1] =>
        destruct (IH s w1) as [Hw Hl];
        destruct (for_range handles (upload.FileArray_turn env) s w1) as [st w2]
    end.
    cbn in *. split; [done|].
    destruct st as [writer'|[v e]|msg]; [|done|done].
    destruct Hl as (parts & -> & Hparts).
    eexists (_ :: parts). rewrite <- app_assoc. split; [done|].
    by constructor.
Qed.

Context (network : string) (cfg : types.Config).

Lemma Delete_turn_cases id responses w :
  files.Delete_turn env network (Some cfg) id responses w =
  match e_url_error env (types.APIUrl cfg +:+ "/files/" +:+ network +:+ "/" +:+ id) with
  | Some e => (Return ([], Some ("failed to create request: " +:+ e)), w)
  | None =>
      let req := delete_request env network cfg id in
      let res := e_net env (w_trace w) req in
      (match res with
       | NetError e => Return ([], Some ("failed to send request: " +:+ e))
       | NetResponse resp =>
           if decide (StatusCode resp ≠ StatusOK)
           then Return ([], Some (status_error resp))
           else Next (responses ++ [deleted id])
       end, set_trace (w_trace w ++ [(req, res)]) w)
  end.
Proof. unfold files.Delete_turn, delete_request. run; reflexivity. Qed.

Lemma Delete_loop ids : forall responses w,
  exists l,
    let r := for_range ids (files.Delete_turn env network (Some cfg)) responses w in
    w_trace r.2 = w_trace w ++ l /\
    same_but_trace w r.2 /\
    map fst l = map (delete_request env network cfg) (take (length l) ids) /\
    length l <= length ids /\
    match r.1 with
    | Next rs =>
        rs = responses ++ map deleted ids /\ Forall good l /\ length l = length ids
    | Return (rs, e) =>
        rs = [] /\ exists msg, e = Some msg /\
        (Forall good l /\ length l < length ids /\
         (exists url e', e_url_error env url = Some e') \/
         exists l0 x, l = l0 ++ [x] /\ Forall good l0 /\ ~ good x /\
                      msg = delete_failure x)
    | Panic _ => False
    end.
Proof.
  induction ids as [|id ids IH]; intros responses w.
  - exists []. cbn. rewrite !app_nil_r. repeat split; auto using same_but_trace_refl.
  - cbn [for_range]. unfold bind. rewrite Delete_turn_cases.
    destruct (e_url_error env _) as [e|] eqn:Hurl.
    { exists []. cbn. rewrite app_nil_r.
      repeat split; auto using same_but_trace_refl; try lia.
      eexists; split; [reflexivity|]. left. split; [constructor|].
      split; [lia|by eauto]. }
    cbv zeta.
    destruct (e_net env (w_trace w) _) as [e|resp] eqn:Hnet.
    { eexists [_]. cbn. repeat split; try reflexivity; try lia.
      eexists; split; [reflexivity|]. right. exists []; eexists.
      repeat split; [constructor | solve_good]. }
    destruct (decide (StatusCode resp ≠ StatusOK)) as [Hbad|Hok].
    { eexists [_]. cbn. repeat split; try reflexivity; try lia.
      eexists; split; [reflexivity|]. right. exists []; eexists.
      repeat split; [constructor | solve_good]. }
    match goal with
    | |- context [for_range ids _ ?s ?w'] =>
        destruct (IH s w') as (l & Ht & Hs & Hreq & Hlen & Hcase);
        destruct (for_range ids (files.Delete_turn env network (Some cfg)) s w')
          as [st w''] eqn:Hrun
    end.
    cbn [fst snd set_trace w_trace] in *.
    eexists (_ :: l).
    split; [rewrite Ht, <- app_assoc; reflexivity|].
    split. { destruct Hs as (? & ? & ? & ?). by repeat split. }
    split. { cbn. rewrite Hreq. reflexivity. }
    split. { cbn; lia. }
    destruct st as [rs|[rs e]|msg]; [| |done].
    + destruct Hcase as (-> & Hg & Hl). split; [by rewrite <- app_assoc|].
      split; [constructor; [solve_good|done]|cbn; lia].
    + destruct Hcase as (-> & msg & -> & Hcase). split; [done|].
      exists msg; split; [done|].
      destruct Hcase as [(Hg & Hl & Hurl')|(l0 & x & -> & Hg & Hb & ->)].
      * left. split; [constructor; [solve_good|done]|]. split; [cbn; lia|done].
      * right. eexists (_ :: l0), x. repeat split; try done.
        constructor; [solve_good|done].
Qed.

End Loops.

Section DeleteRun.

Context (env : Env) (network : string).

(** [Delete] as a whole. *)
Lemma Delete_run config ids w :
  exists l,
    w_trace (files.Delete env network config ids w).2 = w_trace w ++ l /\
    same_but_trace w (files.Delete env network config ids w).2 /\
    map fst l = map (delete_request env network (w_config w)) (take (length l) ids) /\
    length l <= length ids /\
    (ids = [] ->
     files.Delete env network config ids w =
     (Returned ([], Some "at least one file ID is required"), w)) /\
    match (files.Delete env network config ids w).1 with
    | Returned (rs, None) =>
        rs = map deleted ids /\ Forall good l /\ length l = length ids /\ ids <> []
    | Returned (rs, Some msg) =>
        rs = [] /\
        (Forall good l /\
         (ids <> [] ->
          length l < length ids /\ exists url e, e_url_error env url = Some e) \/
         exists l0 x, l = l0 ++ [x] /\ Forall good l0 /\ ~ good x /\
                      msg = delete_failure x)
    | Panicked msg => l = [] /\ ids <> [] /\ config_panic config msg
    end.
Proof.
  unfold files.Delete. unfold_go.
  destruct (decide (length ids = 0)) as [He|Hne].
  { exists []. cbn. rewrite app_nil_r.
    repeat split; auto using same_but_trace_refl; try lia.
    left. split; [constructor|]. intros Hne. destruct ids; [done|cbn in *; lia]. }
  assert (ids <> []) as Hids by (intros ->; cbn in Hne; lia).
  destruct config.
  2:{ exists []. destruct ids as [|id ids]; [done|]. cbn. rewrite app_nil_r.
      split_and!; auto using same_but_trace_refl; try lia; try done. by right. }
  2:{ exists []. cbn. rewrite app_nil_r.
      split_and!; auto using same_but_trace_refl; try lia; try done. by left. }
  destruct (Delete_loop env network (w_config w) ids [] w) as (l & Ht & Hs & Hreq & Hlen & Hcase).
  destruct (for_range ids (files.Delete_turn env network (Some (w_config w))) [] w)
    as [st w1].
  cbn [fst snd] in *. exists l.
  destruct st as [rs|[rs e]|msg]; [| |done]; cbn [fst snd].
  - destruct Hcase as (-> & Hg & Hll).
    split_and!; try done; try exact Hreq.
  - destruct Hcase as (-> & msg & -> & Hcase).
    split_and!; try done; try exact Hreq.
    destruct Hcase as [(Hg & Hl & Hurl)|Hbad]; [left|right; done].
    split; [done|]. intros _. done.
Qed.

End DeleteRun.

(** ** The course of every call *)

Ltac use_FileArray_loop :=
  try match goal with
      | H : for_range ?l (upload.FileArray_turn ?e) ?s ?w = _ |- _ =>
          let Hl := fresh "Hl" in
          pose proof (FileArray_loop e l s w) as Hl;
          rewrite H in Hl; cbn [fst snd] in Hl;
          destruct Hl as [-> Hl]; try done;
          try (destruct Hl as (-> & ? & ->))
      end.

Ltac finish_course :=
  unfold course;
  cbn [fst snd w_trace w_config w_now set_trace set_fs set_temp os_Remove];
  rewrite <- ?app_assoc; cbn [app];
  eexists; split; [ first [ reflexivity | symmetry; apply app_nil_r ] | ];
  split; [reflexivity|]; split; [reflexivity|];
  split; [cbn; lia|];
  lazymatch goal with
  | |- Forall good _ ∧ _ = _ ∧ _ =>
      split; [all_good|]; split; [reflexivity|];
      (exists [] + eexists [_]); do 2 eexists;
      (split; [reflexivity|]);
      unfold expected, io_ReadAll; cbn; use_equations; reflexivity
  | |- _ = _ ∧ (_ ∨ _) =>
      split; [reflexivity|];
      first [ left; solve [all_good]
            | right; (exists [] + eexists [_]); eexists;
              (split; [reflexivity|]); split; [all_good|];
              split; [solve_good | reflexivity ] ]
  | |- Forall good _ => all_good
  end.

Lemma Delete_course env network config ids w c :
  requests c = length ids ->
  zero c = VDeleted [] ->
  (forall l0 x, failure_message c l0 x = delete_failure x) ->
  (forall resp, expected env c resp = Ok (VDeleted (map deleted ids))) ->
  course env c w (returning VDeleted (files.Delete env network config ids) w).
Proof.
  intros Hreq Hzero Hmsg Hexp.
  destruct (Delete_run env network config ids w)
    as (l & Ht & (Hc & Hn & _ & _) & _ & Hlen & _ & Hcase).
  unfold course, returning.
  destruct (files.Delete env network config ids w) as [[[rs [msg|]]|msg] w1];
    cbn [fst snd] in *; exists l; rewrite Hreq.
  - destruct Hcase as (-> & Hcase). split_and!; try done.
    destruct Hcase as [[Hg _]|(l0 & x & -> & Hg & Hb & ->)]; [by left|right].
    exists l0, x. by rewrite Hmsg.
  - destruct Hcase as (-> & Hg & Hl & Hne). split_and!; try done.
    destruct l as [|y l _] using rev_ind.
    { destruct ids; [done|cbn in Hl; lia]. }
    destruct y as [req [e|resp]].
    { rewrite Forall_app, Forall_singleton in Hg. destruct Hg as [_ []]. }
    by exists l, req, resp.
  - destruct Hcase as (-> & _). split_and!; done.
Qed.

Lemma course_holds env c w : course env c w (exec env c w).
Proof.
  destruct c.
  10: { apply Delete_course; done. }
  20: { apply Delete_course; done. }
  all: unfold_methods; run; use_FileArray_loop.
  all: solve [finish_course].
Qed.

(** ** Go strings at work *)

Example Split_slashes :
  gostrings.Split "/" "https://example.com/cats/" = ["https:"; ""; "example.com"; "cats"; ""].
Proof. reflexivity. Qed.

Example Split_empty : gostrings.Split "/" "" = [""].
Proof. reflexivity. Qed.

Example default_name_of_a_file :
  upload.URL_default_name "https://example.com/cats/tom.png" = "tom.png".
Proof. reflexivity. Qed.

Example default_name_of_a_directory :
  upload.URL_default_name "https://example.com/cats/" = "file".
Proof. reflexivity. Qed.

(** What CreateAccessLink does to the link it decoded: the escaped
    ampersands are written out and the quotes around it dropped. *)
Example link_clean_up :
  let quote := String "034"%char "" in
  gostrings.Trim
    (gostrings.ReplaceAll
       (quote +:+ "https://gw/files/x?a=1" +:+ gostrings.escaped_ampersand +:+ "b=2"
        +:+ gostrings.escaped_ampersand +:+ "c=3" +:+ quote)
       gostrings.escaped_ampersand "&")
    "034"%char
  = "https://gw/files/x?a=1&b=2&c=3".
Proof. reflexivity. Qed.

Example itoa_of_a_status : gostrings.itoa 404 = "404".
Proof. reflexivity. Qed.

(** ** Strings inside error messages *)

Lemma append_assoc (a b c : string) : (a +:+ b) +:+ c = a +:+ b +:+ c.
Proof.
  induction a as [|x a IH]; [done|].
  change (String x ((a +:+ b) +:+ c) = String x (a +:+ b +:+ c)). by rewrite IH.
Qed.

Lemma append_nil_r (a : string) : a +:+ "" = a.
Proof.
  induction a as [|x a IH]; [done|].
  change (String x (a +:+ "") = String x a). by rewrite IH.
Qed.

Lemma contains_middle (pre x post : string) :
  gostrings.contains (pre +:+ x +:+ post) x.
Proof. by exists pre, post. Qed.

Lemma contains_end (pre x : string) : gostrings.contains (pre +:+ x) x.
Proof. exists pre, "". by rewrite append_nil_r. Qed.

Lemma status_error_code resp :
  gostrings.contains (status_error resp) (gostrings.itoa (StatusCode resp)).
Proof. apply contains_middle. Qed.

Lemma status_error_body resp :
  gostrings.contains (status_error resp) (RespBody resp).
Proof.
  unfold status_error.
  exists ("API error (status " +:+ gostrings.itoa (StatusCode resp) +:+ "): "), "".
  by rewrite append_nil_r, !append_assoc.
Qed.

(** The message for a response that was not a 200 carries its status,
    and its body unless the exchange was the fetch of [URL]. *)
Lemma failure_message_response c l req resp :
  let msg := failure_message c l (req, NetResponse resp) in
  gostrings.contains msg (gostrings.itoa (StatusCode resp)) /\
  (is_fetch c l = false -> gostrings.contains msg (RespBody resp)).
Proof.
  destruct c, l; cbn;
    (split; [first [apply status_error_code | apply contains_end]
            |intros; first [done | apply status_error_body]]).
Qed.

(** ** What every call has in common *)

(** C1 as the specification states it fails: one call of Delete with two
    IDs, against a server that answers 200, issues two requests. *)
Lemma C1_two_requests_in_one_call :
  length (issued example.world
            (exec (example.env 200 "{}")
               (PrivateDelete example.private_files ["id-1"; "id-2"])
               example.world).2) = 2.
Proof. vm_compute. reflexivity. Qed.

(** C1, amended: the trace only grows by the requests of the call; a call
    issues at most one request, except Delete (at most one per ID) and
    URL (at most two: the fetch of the target and the upload); and a call
    that returns without error has issued exactly that many. *)
Theorem C1_requests_per_call env c w :
  let r := exec env c w in
  w_trace r.2 = w_trace w ++ issued w r.2 /\
  length (issued w r.2) <= requests c /\
  (forall v, r.1 = Returned (v, None) -> length (issued w r.2) = requests c).
Proof.
  destruct (course_holds env c w) as (l & Ht & _ & _ & Hlen & Hcase).
  cbv zeta. rewrite (issued_app _ _ _ Ht).
  split; [done|]. split; [done|].
  intros v Hv. rewrite Hv in Hcase. by destruct Hcase as (_ & ? & _).
Qed.

(** C3 as the specification states it fails: QueryVectors with ReturnFile
    returns a non-nil result made of the raw body, although that body
    does not decode as an envelope. *)
Lemma C3_result_without_envelope :
  let env := example.env 200 "%PDF-1.7" in
  (exec env (PrivateQueryVectors example.private_files (Some example.query_options))
     example.world).1 =
  Returned (VVectorQuery (Some {| types.Count := 0; types.Matches := [];
                                  types.ContentType := "application/pdf";
                                  types.Data := "%PDF-1.7" |}), None) /\
  dec_VectorQuery env "%PDF-1.7" =
  Failed "invalid character looking for beginning of value".
Proof. vm_compute. split; reflexivity. Qed.

(** C3, amended: when the last response of a call has a status other than
    200, the call returns its zero value and an error whose message holds
    the status code and, unless that response was the fetch of the target
    in URL, the response body; and a call returns a value other than its
    zero value only without an error, after a last response with status
    200, and the value is the expected one for that response: the data
    field of the decoded envelope for the methods that decode one, the
    unescaped and trimmed data field for CreateAccessLink, the raw body
    for QueryVectors with ReturnFile, and the records built from the IDs
    for Delete. *)
Theorem C3_status_and_result env c w :
  let r := exec env c w in
  (forall l req resp,
     issued w r.2 = l ++ [(req, NetResponse resp)] ->
     StatusCode resp <> StatusOK ->
     exists msg,
       r.1 = Returned (zero c, Some msg) /\
       gostrings.contains msg (gostrings.itoa (StatusCode resp)) /\
       (is_fetch c l = false -> gostrings.contains msg (RespBody resp))) /\
  (forall v e,
     r.1 = Returned (v, e) -> v <> zero c ->
     e = None /\
     exists l req resp,
       issued w r.2 = l ++ [(req, NetResponse resp)] /\
       StatusCode resp = StatusOK /\
       expected env c resp = Ok v).
Proof.
  destruct (course_holds env c w) as (l' & Ht & _ & _ & _ & Hcase).
  cbv zeta. rewrite (issued_app _ _ _ Ht). split.
  - intros l req resp -> Hstatus.
    assert (~ good (req, NetResponse resp)) as Hbad by done.
    destruct (exec env c w).1 as [[v [msg|]]|msg].
    + destruct Hcase as (-> & [Hg|(l0 & x & Heq & Hg & Hx & ->)]).
      { exfalso. rewrite Forall_app, Forall_singleton in Hg. tauto. }
      apply app_inj_tail in Heq as [-> <-].
      exists (failure_message c l0 (req, NetResponse resp)).
      split; [done|]. apply failure_message_response.
    + destruct Hcase as (Hg & _). exfalso.
      rewrite Forall_app, Forall_singleton in Hg. tauto.
    + exfalso. rewrite Forall_app, Forall_singleton in Hcase. tauto.
  - intros v e Hr Hv. rewrite Hr in Hcase. destruct e as [msg|].
    { by destruct Hcase as (-> & _). }
    split; [done|]. destruct Hcase as (Hg & _ & l0 & req & resp & -> & Hexp).
    exists l0, req, resp. split; [done|]. split; [|done].
    rewrite Forall_app, Forall_singleton in Hg. by destruct Hg as [_ Hg].
Qed.

(** C5: either every exchange of a call went through, or exactly the last
    one did not (a transport error or a status other than 200), and then
    the call returned its zero value and an error: after a failure nothing
    is sent any more, so no request is ever sent again. *)
Theorem C5_no_retry env c w :
  let r := exec env c w in
  Forall good (issued w r.2) \/
  exists l0 x msg,
    issued w r.2 = l0 ++ [x] /\ Forall good l0 /\ ~ good x /\
    r.1 = Returned (zero c, Some msg).
Proof.
  destruct (course_holds env c w) as (l & Ht & _ & _ & _ & Hcase).
  cbv zeta. rewrite (issued_app _ _ _ Ht).
  destruct (exec env c w).1 as [[v [msg|]]|msg].
  - destruct Hcase as (-> & [Hg|(l0 & x & -> & Hg & Hx & _)]); [by left|right].
    by exists l0, x, msg.
  - left. by destruct Hcase.
  - by left.
Qed.

(** C7: a call leaves the configuration as it found it. *)
Theorem C7_config_unchanged env c w :
  w_config (exec env c w).2 = w_config w.
Proof. by destruct (course_holds env c w) as (l & _ & Hc & _). Qed.

(** ** Requests and their headers *)

Section Headers.

Context (env : Env).

Lemma Header_Set_frame key value req :
  Method (Header_Set env key value req) = Method req /\
  URL (Header_Set env key value req) = URL req /\
  ReqBody (Header_Set env key value req) = ReqBody req.
Proof. done. Qed.

Lemma set_custom_headers_frame headers req :
  Method (set_custom_headers env headers req) = Method req /\
  URL (set_custom_headers env headers req) = URL req /\
  ReqBody (set_custom_headers env headers req) = ReqBody req.
Proof.
  unfold set_custom_headers.
  apply (map_fold_weak_ind
           (fun (r : Request) (_ : gmap string string) =>
              Method r = Method req /\ URL r = URL req /\ ReqBody r = ReqBody req));
    [done|].
  intros key value m r _ (Hm & Hu & Hb). by rewrite <- Hm, <- Hu, <- Hb.
Qed.

Lemma upload_headers_frame content_type cfg req :
  Method (upload.upload_headers env content_type cfg req) = Method req /\
  URL (upload.upload_headers env content_type cfg req) = URL req /\
  ReqBody (upload.upload_headers env content_type cfg req) = ReqBody req.
Proof.
  unfold upload.upload_headers.
  destruct (set_custom_headers_frame (types.CustomHeaders cfg)
              (Header_Set env "Authorization" ("Bearer " +:+ types.PinataJWT cfg)
                 (Header_Set env "Content-Type" content_type req)))
    as (-> & -> & ->).
  done.
Qed.

Lemma api_headers_frame cfg req :
  Method (files.api_headers env cfg req) = Method req /\
  URL (files.api_headers env cfg req) = URL req /\
  ReqBody (files.api_headers env cfg req) = ReqBody req.
Proof.
  unfold files.api_headers.
  destruct (set_custom_headers_frame (types.CustomHeaders cfg)
              (Header_Set env "Content-Type" "application/json"
                 (Header_Set env "Authorization" ("Bearer " +:+ types.PinataJWT cfg) req)))
    as (-> & -> & ->).
  done.
Qed.

End Headers.

(** ** Payloads *)

Lemma lookup_assign_if_ne cond key value payload k :
  key ≠ k -> assign_if cond key value payload !! k = payload !! k.
Proof. intros. unfold assign_if. destruct cond; [by rewrite lookup_insert_ne|done]. Qed.

Lemma lookup_assign_if_eq cond key value payload :
  assign_if cond key value payload !! key =
  if cond then Some value else payload !! key.
Proof. unfold assign_if. destruct cond; [by rewrite lookup_insert_eq|done]. Qed.

Lemma is_Some_assign_if cond key value payload k :
  is_Some (assign_if cond key value payload !! k) ->
  k = key \/ is_Some (payload !! k).
Proof.
  unfold assign_if. destruct cond; [|by right].
  rewrite lookup_insert. case_decide; [by left|by right].
Qed.

Lemma is_Some_insert (payload : JSONObject) key value k :
  is_Some (<[key := value]> payload !! k) -> k = key \/ is_Some (payload !! k).
Proof. rewrite lookup_insert. case_decide; [by left|by right]. Qed.

Lemma nonempty_length {A} (l : list A) : l ≠ [] <-> 0 < length l.
Proof. destruct l; cbn; split; intros; try done; lia. Qed.

Ltac lookup_field :=
  repeat first
    [ rewrite lookup_assign_if_eq
    | rewrite lookup_insert_eq
    | rewrite lookup_assign_if_ne by done
    | rewrite lookup_insert_ne by done
    | rewrite lookup_empty ].

Lemma signed_payload_meets_spec now opts :
  signed_payload_spec now opts
    (upload.signed_payload
       (if decide (upload.Signed_Date opts = 0)%Z then now else upload.Signed_Date opts)
       opts).
Proof.
  unfold signed_payload_spec, upload.signed_payload. cbv zeta.
  split_and!.
  - by lookup_field.
  - by lookup_field.
  - by lookup_field.
  - lookup_field. case_bool_decide; split; intros; try done; by eauto using is_Some_None.
  - lookup_field. rewrite nonempty_length.
    case_bool_decide; split; intros; try done; by eauto using is_Some_None.
  - lookup_field. case_bool_decide; split; intros; try done; by eauto using is_Some_None.
  - lookup_field. case_bool_decide; split; intros; try done; by eauto using is_Some_None.
  - lookup_field. destruct (upload.Signed_Vectorize opts); split; intros; try done;
      by eauto using is_Some_None.
  - intros k Hk. unfold signed_fields. rewrite !elem_of_cons.
    repeat (apply is_Some_assign_if in Hk as [->|Hk]; [tauto|]).
    repeat (apply is_Some_insert in Hk as [->|Hk]; [tauto|]).
    rewrite lookup_empty in Hk. by destruct Hk.
Qed.

Lemma access_payload_meets_spec cfg now opts :
  access_payload_spec cfg now opts
    (files.access_payload
       (if decide (types.Link_Gateway opts = "") then types.PinataGateway cfg
        else types.Link_Gateway opts)
       (if decide (types.Link_Date opts = 0)%Z then now else types.Link_Date opts)
       opts).
Proof.
  unfold access_payload_spec, files.access_payload.
  split_and!; by lookup_field.
Qed.

Lemma issued_same w : issued w w = [].
Proof. unfold issued. apply drop_all. Qed.

Lemma issued_one w x : issued w (set_trace (w_trace w ++ [x]) w) = [x].
Proof. by apply issued_app. Qed.

(** ** Signed upload URLs and access links *)

(** The requests of CreateSignedURL, for options it accepts. *)
Lemma CreateSignedURL_issued env s o w x :
  x ∈ issued w (upload.CreateSignedURL env s (Some o) w).2 ->
  Method x.1 = "POST" /\
  URL x.1 = types.UploadUrl (w_config w) +:+ "/files/sign" /\
  ReqBody x.1 =
    JSONBody (upload.signed_payload
                (if decide (upload.Signed_Date o = 0)%Z then w_now w
                 else upload.Signed_Date o) o).
Proof.
  unfold upload.CreateSignedURL. run.
  all: rewrite ?issued_same, ?issued_one.
  all: intros Hx;
    first [ by apply elem_of_nil in Hx | apply list_elem_of_singleton in Hx; simplify_eq ].
  all: cbn [fst];
    match goal with
    | |- context [upload.upload_headers ?e ?ct ?cfg ?rq] =>
        destruct (upload_headers_frame e ct cfg rq) as (-> & -> & ->)
    end.
  all: done.
Qed.

(** C2: CreateSignedURL without options or with [Expires <= 0] returns an
    error and leaves the world as it is, so that no request is issued;
    otherwise every request it issues is a POST to [UploadUrl/files/sign]
    whose JSON payload is the one of the specification, built from the
    options and the clock alone, and it issues exactly one such request
    when the service holds the configuration and the URL is accepted. *)
Theorem C2_signed_url_payload env s opts w :
  let r := upload.CreateSignedURL env s opts w in
  let url := types.UploadUrl (w_config w) +:+ "/files/sign" in
  match opts with
  | Some o =>
      if decide (0 < upload.Signed_Expires o)%Z then
        (forall x, x ∈ issued w r.2 ->
           Method x.1 = "POST" /\ URL x.1 = url /\
           exists payload,
             ReqBody x.1 = JSONBody payload /\
             signed_payload_spec (w_now w) o payload) /\
        (upload.config s = ConfigPtr -> e_url_error env url = None ->
         length (issued w r.2) = 1)
      else
        r = (Returned ("", Some "expiration time is required"), w) /\
        issued w r.2 = []
  | None =>
      r = (Returned ("", Some "expiration time is required"), w) /\
      issued w r.2 = []
  end.
Proof.
  cbv zeta. destruct opts as [o|].
  2: { unfold upload.CreateSignedURL. run. by rewrite issued_same. }
  destruct (decide (0 < upload.Signed_Expires o)%Z) as [Hpos|Hneg].
  - split.
    + intros x Hx. apply CreateSignedURL_issued in Hx as (Hm & Hu & Hb).
      split; [done|]. split; [done|]. eexists. split; [exact Hb|].
      apply signed_payload_meets_spec.
    + intros Hcfg Hurl. unfold upload.CreateSignedURL. run; try lia; try congruence.
      all: by rewrite issued_one.
  - unfold upload.CreateSignedURL. run; try lia. all: by rewrite issued_same.
Qed.

(** C6: CreateAccessLink without options, with an empty CID or with
    [Expires <= 0] returns an error and leaves the world as it is, so that
    no request is issued; otherwise every request it issues is a POST to
    [APIUrl/files/private/download_link] whose JSON payload is the one of
    the specification, and it issues exactly one such request when the
    service holds the configuration and the URL is accepted. *)
Theorem C6_access_link_payload env s opts w :
  let r := files.Private_CreateAccessLink env s opts w in
  let url := types.APIUrl (w_config w) +:+ "/files/private/download_link" in
  match opts with
  | Some o =>
      if decide (types.Link_CID o <> "" /\ 0 < types.Link_Expires o)%Z then
        (forall x, x ∈ issued w r.2 ->
           Method x.1 = "POST" /\ URL x.1 = url /\
           exists payload,
             ReqBody x.1 = JSONBody payload /\
             access_payload_spec (w_config w) (w_now w) o payload) /\
        (files.private_config s = ConfigPtr -> e_url_error env url = None ->
         length (issued w r.2) = 1)
      else
        r = (Returned ("", Some "CID and expiration time are required"), w) /\
        issued w r.2 = []
  | None =>
      r = (Returned ("", Some "CID and expiration time are required"), w) /\
      issued w r.2 = []
  end.
Proof.
  cbv zeta. destruct opts as [o|].
  2: { unfold files.Private_CreateAccessLink. run. by rewrite issued_same. }
  pose proof (access_payload_meets_spec (w_config w) (w_now w) o) as Hspec.
  revert Hspec.
  unfold files.Private_CreateAccessLink.
  destruct (decide (types.Link_CID o <> "" /\ 0 < types.Link_Expires o)%Z) as [[Hcid Hpos]|Hneg].
  - run; intros Hspec.
    all: try match goal with
             | H : _ \/ _ |- _ => exfalso; destruct H; [congruence | lia]
             | H : left _ = right _ |- _ => discriminate H
             | H : right _ = left _ |- _ => discriminate H
             end.
    all: rewrite ?issued_same, ?issued_one.
    all: split; [|intros; try done; congruence].
    all: intros x Hx;
      first [ by apply elem_of_nil in Hx | apply list_elem_of_singleton in Hx; simplify_eq ].
    all: cbn [fst];
      match goal with
      | |- context [files.api_headers ?e ?cfg ?rq] =>
          destruct (api_headers_frame e cfg rq) as (-> & -> & ->)
      end.
    all: split; [done|]; split; [done|]; eexists; split; [reflexivity|exact Hspec].
  - run; try (by rewrite issued_same).
    all: exfalso;
      match goal with
      | n : ~ (_ \/ _) |- _ =>
          apply Hneg; split;
          [ intros ?; apply n; by left
          | destruct (decide (0 < types.Link_Expires o)%Z);
            [done | exfalso; apply n; right; lia] ]
      end.
Qed.

(** A signed URL for options with a name, a size limit, a MIME type and
    vectorization, no date, no group and no key-values. *)
Example CreateSignedURL_run :
  let r := upload.CreateSignedURL (example.env 200 "{}") example.private_upload
             (Some example.signed_options) example.world in
  map (fun x => (Method x.1, URL x.1, ReqBody x.1)) (issued example.world r.2) =
    [("POST", "https://uploads.pinata.cloud/v3/files/sign",
      JSONBody (list_to_map
                  [("date", GoInt 1700000000);
                   ("expires", GoInt 60);
                   ("network", GoString "private");
                   ("filename", GoString "report.pdf");
                   ("vectorize", GoBool true);
                   ("max_file_size", GoInt 1024);
                   ("allow_mime_types", GoStrings ["application/pdf"])]))] /\
  (upload.CreateSignedURL (example.env 200 "{}") example.private_upload None
     example.world) =
    (Returned ("", Some "expiration time is required"), example.world).
Proof. vm_compute. done. Qed.

(** An access link for a CID through the configured gateway. *)
Example CreateAccessLink_run :
  let r := files.Private_CreateAccessLink (example.env 200 "{}") example.private_files
             (Some example.link_options) example.world in
  map (fun x => (Method x.1, URL x.1, ReqBody x.1)) (issued example.world r.2) =
    [("POST", "https://api.pinata.cloud/v3/files/private/download_link",
      JSONBody (list_to_map
                  [("url", GoString "https://gw.mypinata.cloud/files/bafy");
                   ("date", GoInt 1700000000);
                   ("expires", GoInt 30);
                   ("method", GoString "GET")]))].
Proof. vm_compute. done. Qed.

(** ** Delete *)



(** ** The form of an upload *)

Lemma File_fields_names info opts writer p :
  p ∈ upload.File_fields info opts writer ->
  p ∈ writer \/ part_name p ∈ ["group_id"; "name"; "keyvalues"].
Proof.
  unfold upload.File_fields, upload.WriteField. destruct opts as [o|]; [|by left].
  repeat case_decide; rewrite ?elem_of_app, ?list_elem_of_singleton;
    intros Hin; rewrite !elem_of_cons;
    repeat (destruct Hin as [Hin| ->]); cbn; tauto.
Qed.

Lemma FileArray_fields_names opts writer p :
  p ∈ upload.FileArray_fields opts writer ->
  p ∈ writer \/ part_name p ∈ ["group_id"; "name"; "keyvalues"].
Proof.
  unfold upload.FileArray_fields, upload.WriteField. destruct opts as [o|]; [|by left].
  repeat case_decide; rewrite ?elem_of_app, ?list_elem_of_singleton;
    intros Hin; rewrite !elem_of_cons;
    repeat (destruct Hin as [Hin| ->]); cbn; tauto.
Qed.

Lemma File_issued env s file opts w x :
  x ∈ issued w (upload.File env s file opts w).2 ->
  exists parts, ReqBody x.1 = FormBody parts /\
                forall p, p ∈ parts -> part_name p ∈ form_names.
Proof.
  unfold upload.File. run.
  all: rewrite ?issued_same, ?issued_one.
  all: intros Hx;
    first [ by apply elem_of_nil in Hx | apply list_elem_of_singleton in Hx; simplify_eq ].
  all: cbn [fst];
    match goal with
    | |- context [upload.upload_headers ?e ?ct ?cfg ?rq] =>
        destruct (upload_headers_frame e ct cfg rq) as (_ & _ & ->)
    end.
  all: eexists; split; [reflexivity|].
  all: intros p Hp; unfold form_names; rewrite !elem_of_cons.
  all: apply elem_of_app in Hp as [Hp|Hp];
    [ apply File_fields_names in Hp as [Hp|Hp];
      [ apply list_elem_of_singleton in Hp as ->; cbn; tauto
      | rewrite !elem_of_cons in Hp; tauto ]
    | apply list_elem_of_singleton in Hp as ->; cbn; tauto ].
Qed.

Lemma FileArray_issued env s handles opts w x :
  x ∈ issued w (upload.FileArray env s handles opts w).2 ->
  exists parts, ReqBody x.1 = FormBody parts /\
                forall p, p ∈ parts -> part_name p ∈ form_names.
Proof.
  unfold upload.FileArray. run; use_FileArray_loop.
  all: rewrite ?issued_same, ?issued_one.
  all: intros Hx;
    first [ by apply elem_of_nil in Hx | apply list_elem_of_singleton in Hx; simplify_eq ].
  all: cbn [fst];
    match goal with
    | |- context [upload.upload_headers ?e ?ct ?cfg ?rq] =>
        destruct (upload_headers_frame e ct cfg rq) as (_ & _ & ->)
    end.
  all: eexists; split; [reflexivity|].
  all: intros p Hp; unfold form_names; rewrite !elem_of_cons.
  all: destruct Hl as (parts & -> & Hparts).
  all: apply elem_of_app in Hp as [Hp|Hp];
    [ apply FileArray_fields_names in Hp as [Hp|Hp];
      [ apply list_elem_of_singleton in Hp as ->; cbn; tauto
      | rewrite !elem_of_cons in Hp; tauto ]
    | rewrite Forall_forall in Hparts; rewrite (Hparts p Hp); tauto ].
Qed.

(** An upload that asks for vectorization sends a form of three parts,
    none of them about vectorization. *)
Example File_with_Vectorize :
  map (fun x => match ReqBody x.1 with
                | FormBody parts => map part_name parts
                | _ => []
                end)
    (issued example.world
       (upload.File (example.env 200 "{}") example.private_upload
          (Some {| fh_name := "pinnie.png" |})
          (Some {| upload.FileName := "Pinnie"; upload.GroupID := "";
                   upload.KeyValues := ∅; upload.Vectorize := true |})
          example.world).2)
  = [["network"; "name"; "file"]].
Proof. vm_compute. reflexivity. Qed.

(** [File] and [FileArray] do send their form: on a service that holds
    the configuration, with files that can be looked up, rewound and
    read and a URL [http.NewRequest] accepts, each sends one request. *)
Lemma File_sends env s f opts w :
  upload.config s = ConfigPtr ->
  e_os_error env (CallStat (fh_name f)) = None ->
  readable env f ->
  e_url_error env (types.UploadUrl (w_config w) +:+ "/files") = None ->
  length (issued w (upload.File env s (Some f) opts w).2) = 1.
Proof.
  intros Hcfg Hstat [Hseek Hread] Hurl. unfold upload.File. run; try congruence.
  all: by rewrite issued_one.
Qed.

Lemma FileArray_loop_runs env fs : forall writer w,
  Forall (readable env) fs ->
  for_range (map Some fs) (upload.FileArray_turn env) writer w =
  (Next (writer ++ map (file_part env w) fs), w).
Proof.
  induction fs as [|f fs IH]; intros writer w Hfs.
  - cbn. by rewrite app_nil_r.
  - apply Forall_cons in Hfs as [[Hseek Hread] Hfs].
    cbn [map for_range]. unfold bind. rewrite FileArray_turn_cases, Hseek, Hread.
    rewrite (IH _ _ Hfs), <- app_assoc. reflexivity.
Qed.

Lemma FileArray_sends env s fs opts w :
  upload.config s = ConfigPtr ->
  fs <> [] ->
  Forall (readable env) fs ->
  e_url_error env (types.UploadUrl (w_config w) +:+ "/files") = None ->
  length (issued w (upload.FileArray env s (map Some fs) opts w).2) = 1.
Proof.
  intros Hcfg Hne Hfs Hurl. unfold upload.FileArray. unfold_go.
  rewrite decide_False by (destruct fs; [done|cbn; lia]).
  rewrite Hcfg. unfold_go. rewrite (FileArray_loop_runs _ _ _ _ Hfs). unfold_go.
  rewrite Hurl. run; by rewrite issued_one.
Qed.

(** C10: no request of File or FileArray has a form part named
    [vectorize], whatever the options say, while every request of
    CreateSignedURL for options with [Vectorize] set carries
    [vectorize: true] in its payload. And these requests are sent: on a
    service that holds the configuration, for a URL [http.NewRequest]
    accepts, CreateSignedURL with a positive [Expires] sends exactly one
    request, whose payload has [vectorize: true] exactly when
    [Vectorize] is set, and File and FileArray on files that can be
    looked up, rewound and read send exactly one. *)
Theorem C10_vectorize_only_when_signing env s file handles opts signed w :
  (forall x, x ∈ issued w (upload.File env s file opts w).2 ->
     exists parts, ReqBody x.1 = FormBody parts /\
                   forall p, p ∈ parts -> part_name p <> "vectorize") /\
  (forall x, x ∈ issued w (upload.FileArray env s handles opts w).2 ->
     exists parts, ReqBody x.1 = FormBody parts /\
                   forall p, p ∈ parts -> part_name p <> "vectorize") /\
  (forall x, x ∈ issued w (upload.CreateSignedURL env s (Some signed) w).2 ->
     exists payload, ReqBody x.1 = JSONBody payload /\
                     payload !! "vectorize" =
                     if upload.Signed_Vectorize signed then Some (GoBool true) else None) /\
  (upload.config s = ConfigPtr ->
   (0 < upload.Signed_Expires signed)%Z ->
   e_url_error env (types.UploadUrl (w_config w) +:+ "/files/sign") = None ->
   exists x payload,
     issued w (upload.CreateSignedURL env s (Some signed) w).2 = [x] /\
     ReqBody x.1 = JSONBody payload /\
     payload !! "vectorize" =
     if upload.Signed_Vectorize signed then Some (GoBool true) else None) /\
  (upload.config s = ConfigPtr ->
   e_url_error env (types.UploadUrl (w_config w) +:+ "/files") = None ->
   (forall f, file = Some f ->
      e_os_error env (CallStat (fh_name f)) = None -> readable env f ->
      length (issued w (upload.File env s file opts w).2) = 1) /\
   (forall fs, handles = map Some fs -> fs <> [] -> Forall (readable env) fs ->
      length (issued w (upload.FileArray env s handles opts w).2) = 1)).
Proof.
  assert (forall name, name ∈ form_names -> name <> "vectorize") as Hnames.
  { intros name. unfold form_names. rewrite !elem_of_cons.
    intros [->|[->|[->|[->|[->|Hn]]]]]; try done. by apply elem_of_nil in Hn. }
  assert (forall x, x ∈ issued w (upload.CreateSignedURL env s (Some signed) w).2 ->
            exists payload, ReqBody x.1 = JSONBody payload /\
                            payload !! "vectorize" =
                            if upload.Signed_Vectorize signed then Some (GoBool true)
                            else None) as Hsigned.
  { intros x Hx. apply CreateSignedURL_issued in Hx as (_ & _ & Hb).
    eexists. split; [exact Hb|].
    unfold upload.signed_payload. cbv zeta. by lookup_field. }
  split_and!.
  - intros x Hx. apply File_issued in Hx as (parts & Hb & Hparts).
    exists parts. split; [done|]. intros p Hp. by apply Hnames, Hparts.
  - intros x Hx. apply FileArray_issued in Hx as (parts & Hb & Hparts).
    exists parts. split; [done|]. intros p Hp. by apply Hnames, Hparts.
  - exact Hsigned.
  - intros Hcfg Hpos Hurl.
    assert (length (issued w (upload.CreateSignedURL env s (Some signed) w).2) = 1) as Hlen.
    { unfold upload.CreateSignedURL. run; try lia; try congruence.
      all: by rewrite issued_one. }
    destruct (issued w (upload.CreateSignedURL env s (Some signed) w).2)
      as [|x [|y l]] eqn:Hl; try discriminate Hlen.
    destruct (Hsigned x) as (payload & Hb & Hv); [by left|].
    by exists x, payload.
  - intros Hcfg Hurl. split.
    + intros f -> Hstat Hread. by apply File_sends.
    + intros fs -> Hne Hfs. by apply FileArray_sends.
Qed.

(** A signed URL for options that ask for vectorization: one request,
    and [vectorize: true] is in it. *)
Lemma C10_vectorize_only_when_signing_witness :
  let env := example.env 200 "{}" in
  let r := upload.CreateSignedURL env example.private_upload (Some example.signed_options)
             example.world in
  exists x payload,
    issued example.world r.2 = [x] /\
    ReqBody x.1 = JSONBody payload /\
    payload !! "vectorize" = Some (GoBool true).
Proof.
  cbv zeta.
  destruct (C10_vectorize_only_when_signing (example.env 200 "{}") example.private_upload
              None [] None example.signed_options example.world)
    as (_ & _ & _ & Hsends & _).
  destruct (Hsends eq_refl ltac:(done) eq_refl) as (x & payload & Hl & Hb & Hv).
  by exists x, payload.
Defined.

(** ** Staging *)

Lemma Split_nonempty sep s : gostrings.Split sep s <> [].
Proof.
  destruct s as [|a s]; cbn; [done|].
  case_decide; [done|]. by destruct (gostrings.Split sep s).
Qed.

Lemma after_last_slash_Split s : forall seg,
  after_last_slash seg s =
  match gostrings.Split "/" s with
  | [h] => seg +:+ h
  | l => default "" (last l)
  end.
Proof.
  induction s as [|a s IH]; intros seg.
  - cbn. by rewrite append_nil_r.
  - cbn [after_last_slash gostrings.Split]. case_decide.
    + rewrite IH. pose proof (Split_nonempty "/" s).
      by destruct (gostrings.Split "/" s) as [|h [|h' t]].
    + rewrite IH. pose proof (Split_nonempty "/" s).
      destruct (gostrings.Split "/" s) as [|h [|h' t]]; [done| |done].
      by rewrite append_assoc.
Qed.

Lemma last_Split s : last (gostrings.Split "/" s) = Some (last_segment s).
Proof.
  unfold last_segment. rewrite after_last_slash_Split.
  pose proof (Split_nonempty "/" s).
  destruct (gostrings.Split "/" s) as [|h [|h' t]] eqn:Hs; [done|done|].
  destruct (proj2 (last_is_Some (h :: h' :: t))) as [x Hx]; [done|].
  by rewrite Hx.
Qed.

(** The default name of [URL] is the last segment of the target, or
    [file] when that is empty. *)
Lemma URL_default_name_spec targetURL :
  upload.URL_default_name targetURL =
  if decide (last_segment targetURL = "") then "file" else last_segment targetURL.
Proof.
  unfold upload.URL_default_name. rewrite last_Split.
  pose proof (Split_nonempty "/" targetURL).
  assert (0 < length (gostrings.Split "/" targetURL))
    by (destruct (gostrings.Split "/" targetURL); [done|cbn; lia]).
  repeat case_decide; try done; tauto.
Qed.

Section StagingProofs.

Context (env : Env) (s : upload.PrivateService).

(** Creating the temporary file and writing to it gives the staged
    world. *)
Lemma staged_world pattern content w :
  let name := e_temp_name env pattern (w_temp w) in
  let w1 := set_temp (S (w_temp w)) (set_fs (<[name := ""]> (w_fs w)) w) in
  set_fs (<[name := default "" (w_fs w1 !! name) +:+ content]> (w_fs w1)) w1 =
  staged env pattern content w.
Proof.
  cbv zeta. unfold staged, temp_file, set_fs, set_temp. cbn.
  by rewrite lookup_insert_eq, insert_insert_eq.
Qed.

(** [File] leaves the file system alone. *)
Lemma File_fs file opts w :
  w_fs (upload.File env s file opts w).2 = w_fs w.
Proof. unfold upload.File. run; reflexivity. Qed.

(** Staging and removing leaves the file system as it was. *)
Lemma remove_staged pattern content w w' :
  w_fs w !! e_temp_name env pattern (w_temp w) = None ->
  w_fs w' = w_fs (staged env pattern content w) ->
  w_fs (os_Remove (e_temp_name env pattern (w_temp w)) w') = w_fs w.
Proof.
  intros Hfree Hfs. unfold os_Remove. cbn. rewrite Hfs. cbn.
  by apply delete_insert_id.
Qed.

Ltac stage Hc Hf Hw Hs :=
  unfold_go;
  rewrite ?Hc; unfold_go; rewrite ?Hf; unfold_go;
  cbn [fh_name] in *; rewrite ?Hw; unfold_go;
  cbn [fh_name] in *; rewrite ?Hs; unfold_go.

Lemma JSON_staged data opts jsonData w :
  e_json_marshal env data = Ok jsonData ->
  can_stage env "pinata-json-*.json" w ->
  upload.JSON env s (Some data) (Some opts) w =
  staged_upload env s "pinata-json-*.json" jsonData
    (staged_options (upload.JSON_Name opts) "data.json"
       (upload.JSON_GroupID opts) (upload.JSON_KeyValues opts)) w.
Proof.
  intros Hm (Hc & Hf & Hw & Hs). unfold temp_file in *. cbn [fh_name] in *.
  unfold upload.JSON, staged_upload, staged_options, temp_file.
  unfold_go. rewrite Hm. stage Hc Hf Hw Hs.
  rewrite (staged_world "pinata-json-*.json" jsonData w).
  repeat case_decide; try done.
  all: by destruct (upload.File env s _ _ _) as [[[v e]|msg] w1].
Qed.

Lemma Base64_staged data opts decoded w :
  data <> "" ->
  e_base64_decode env data = Ok decoded ->
  can_stage env "pinata-base64-*" w ->
  upload.Base64 env s data (Some opts) w =
  staged_upload env s "pinata-base64-*" decoded
    (staged_options (upload.Base64_Name opts) "file"
       (upload.Base64_GroupID opts) (upload.Base64_KeyValues opts)) w.
Proof.
  intros Hd Hm (Hc & Hf & Hw & Hs). unfold temp_file in *. cbn [fh_name] in *.
  unfold upload.Base64, staged_upload, staged_options, temp_file.
  unfold_go. rewrite decide_False by done. rewrite Hm. stage Hc Hf Hw Hs.
  rewrite (staged_world "pinata-base64-*" decoded w).
  repeat case_decide; try done.
  all: by destruct (upload.File env s _ _ _) as [[[v e]|msg] w1].
Qed.

Lemma URL_staged targetURL opts resp w :
  targetURL <> "" ->
  e_url_error env targetURL = None ->
  e_net env (w_trace w) (fetch_request targetURL) = NetResponse resp ->
  StatusCode resp = StatusOK ->
  can_stage env "pinata-url-*" (fetched targetURL resp w) ->
  upload.URL env s targetURL (Some opts) w =
  staged_upload env s "pinata-url-*" (RespBody resp)
    (staged_options (upload.URL_Name opts)
       (if decide (last_segment targetURL = "") then "file"
        else last_segment targetURL)
       (upload.URL_GroupID opts) (upload.URL_KeyValues opts))
    (fetched targetURL resp w).
Proof.
  intros Hd Hu Hn Hok (Hc & Hf & Hw & Hs). unfold temp_file in *. cbn [fh_name] in *.
  rewrite <- URL_default_name_spec.
  unfold upload.URL, staged_upload, staged_options, temp_file.
  unfold fetched, fetch_request in *.
  unfold_go. rewrite decide_False by done. rewrite Hu. unfold_go. rewrite Hn.
  unfold_go. rewrite decide_False by (by intros []). stage Hc Hf Hw Hs.
  match goal with
  | |- context [set_trace ?t w] =>
      rewrite (staged_world "pinata-url-*" (RespBody resp) (set_trace t w))
  end.
  repeat case_decide; try done.
  all: by destruct (upload.File env s _ _ _) as [[[v e]|msg] w1].
Qed.


(** Every path through a helper leaves the file system as it found it:
    the temporary file, once created, is removed on return and on
    panic. *)
Ltac clean_up :=
  run;
  cbn [w_fs os_Remove set_fs set_temp set_trace fh_name] in *;
  try match goal with
      | H : upload.File env s ?f ?o ?w1 = _ |- _ =>
          let Hfs := fresh "Hfs" in
          pose proof (File_fs f o w1) as Hfs; rewrite H in Hfs;
          cbn [fst snd w_fs set_fs set_temp set_trace] in Hfs; rewrite Hfs
      end;
  rewrite ?delete_insert_eq;
  first [ reflexivity | by apply delete_insert_id | by apply delete_id ].

Lemma JSON_fs data opts w : w_fs (upload.JSON env s data opts w).2 = w_fs w.
Proof. unfold upload.JSON. clean_up. Qed.

Lemma Base64_fs data opts w : w_fs (upload.Base64 env s data opts w).2 = w_fs w.
Proof. unfold upload.Base64. clean_up. Qed.

Lemma URL_fs targetURL opts w : w_fs (upload.URL env s targetURL opts w).2 = w_fs w.
Proof. unfold upload.URL. clean_up. Qed.

(** With nil options a helper that has staged its content panics. *)
Lemma JSON_nil data jsonData w :
  e_json_marshal env data = Ok jsonData ->
  can_stage env "pinata-json-*.json" w ->
  (upload.JSON env s (Some data) None w).1 = Panicked nil_dereference.
Proof.
  intros Hm (Hc & Hf & Hw & Hs). unfold temp_file in *. cbn [fh_name] in *.
  unfold upload.JSON. unfold_go. rewrite Hm. by stage Hc Hf Hw Hs.
Qed.

Lemma Base64_nil data decoded w :
  data <> "" ->
  e_base64_decode env data = Ok decoded ->
  can_stage env "pinata-base64-*" w ->
  (upload.Base64 env s data None w).1 = Panicked nil_dereference.
Proof.
  intros Hd Hm (Hc & Hf & Hw & Hs). unfold temp_file in *. cbn [fh_name] in *.
  unfold upload.Base64. unfold_go. rewrite decide_False by done. rewrite Hm.
  by stage Hc Hf Hw Hs.
Qed.

Lemma URL_nil targetURL resp w :
  targetURL <> "" ->
  e_url_error env targetURL = None ->
  e_net env (w_trace w) (fetch_request targetURL) = NetResponse resp ->
  StatusCode resp = StatusOK ->
  can_stage env "pinata-url-*" (fetched targetURL resp w) ->
  (upload.URL env s targetURL None w).1 = Panicked nil_dereference.
Proof.
  intros Hd Hu Hn Hok (Hc & Hf & Hw & Hs). unfold temp_file in *. cbn [fh_name] in *.
  unfold upload.URL. unfold fetched, fetch_request in *.
  unfold_go. rewrite decide_False by done. rewrite Hu. unfold_go. rewrite Hn.
  unfold_go. rewrite decide_False by (by intros []). by stage Hc Hf Hw Hs.
Qed.

(** With nil options a helper never comes back with an upload. *)
Lemma JSON_nil_outcome data w :
  match (upload.JSON env s data None w).1 with
  | Returned (v, e) => v = None /\ is_Some e
  | Panicked msg => msg = nil_dereference
  end.
Proof. unfold upload.JSON. run; cbn; by eauto. Qed.

Lemma Base64_nil_outcome data w :
  match (upload.Base64 env s data None w).1 with
  | Returned (v, e) => v = None /\ is_Some e
  | Panicked msg => msg = nil_dereference
  end.
Proof. unfold upload.Base64. run; cbn; by eauto. Qed.

Lemma URL_nil_outcome targetURL w :
  match (upload.URL env s targetURL None w).1 with
  | Returned (v, e) => v = None /\ is_Some e
  | Panicked msg => msg = nil_dereference
  end.
Proof. unfold upload.URL. run; cbn; by eauto. Qed.

(** [File] and [FileArray] panic only on what the service holds as its
    configuration, never on their options. *)
Lemma File_no_panic file opts w msg :
  (upload.File env s file opts w).1 = Panicked msg ->
  config_panic (upload.config s) msg.
Proof.
  unfold upload.File, config_panic. run; try done.
  all: intros [= <-]; first [by left | by right].
Qed.

Lemma FileArray_no_panic handles opts w msg :
  (upload.FileArray env s handles opts w).1 = Panicked msg ->
  config_panic (upload.config s) msg.
Proof.
  unfold upload.FileArray, config_panic. run; use_FileArray_loop; try done.
  all: intros [= <-]; first [by left | by right].
Qed.

End StagingProofs.

(** ** The staging helpers *)

(** JSON on the number 7 with options that name a group but no file name
    sends one form with the default name and the marshalled number as the
    file, and leaves no file behind. *)
Example JSON_run :
  let r := upload.JSON (example.env 200 "{}") example.private_upload
             (Some (GoInt 7)) (Some example.json_options) example.world in
  map (fun x => ReqBody x.1) (issued example.world r.2) =
    [FormBody [FormField "network" (Text "private");
               FormField "group_id" (Text "g1");
               FormField "name" (Text "data.json");
               FormFile "file" "/tmp/pinata-json-*.json0" "7"]] /\
  r.1 = Returned (None, None) /\
  w_fs r.2 = ∅.
Proof. vm_compute. done. Qed.

(** C4 as the specification states it fails: the empty string decodes
    to no bytes, and staging no bytes uploads an empty file, but Base64
    rejects the empty string before it stages anything. *)
Lemma C4_empty_input_is_rejected :
  let env := example.env 200 "{}" in
  e_base64_decode env "" = Ok "" /\
  (staged_upload env example.private_upload "pinata-base64-*" ""
     (staged_options (upload.Base64_Name example.base64_options) "file"
        (upload.Base64_GroupID example.base64_options)
        (upload.Base64_KeyValues example.base64_options))
     example.world).1 = Returned (None, None) /\
  upload.Base64 env example.private_upload "" (Some example.base64_options)
    example.world =
  (Returned (None, Some "base64 data is required"), example.world).
Proof. vm_compute. done. Qed.

(** C4, amended: with options that are not nil, each helper whose input
    passes its check (data that is not nil for JSON, a string that is not
    empty for Base64, a target that is not empty and answers the fetch
    with status 200 for URL) and whose marshalling or decoding and
    temporary file succeed equals the staged upload of the specification:
    JSON stages the marshalled data under the default name [data.json],
    Base64 the decoded bytes under [file], URL the body it fetched under
    the last segment of the target or [file] when that is empty; the
    options handed to [File] carry the group, the key-values and the name
    of the helper's options. And on every path the file system is
    afterwards as it was before: the temporary file is gone. *)
Theorem C4_staging_helpers env s :
  (forall data opts jsonData w,
     e_json_marshal env data = Ok jsonData ->
     can_stage env "pinata-json-*.json" w ->
     upload.JSON env s (Some data) (Some opts) w =
     staged_upload env s "pinata-json-*.json" jsonData
       (staged_options (upload.JSON_Name opts) "data.json"
          (upload.JSON_GroupID opts) (upload.JSON_KeyValues opts)) w) /\
  (forall data opts decoded w,
     data <> "" ->
     e_base64_decode env data = Ok decoded ->
     can_stage env "pinata-base64-*" w ->
     upload.Base64 env s data (Some opts) w =
     staged_upload env s "pinata-base64-*" decoded
       (staged_options (upload.Base64_Name opts) "file"
          (upload.Base64_GroupID opts) (upload.Base64_KeyValues opts)) w) /\
  (forall targetURL opts resp w,
     targetURL <> "" ->
     e_url_error env targetURL = None ->
     e_net env (w_trace w) (fetch_request targetURL) = NetResponse resp ->
     StatusCode resp = StatusOK ->
     can_stage env "pinata-url-*" (fetched targetURL resp w) ->
     upload.URL env s targetURL (Some opts) w =
     staged_upload env s "pinata-url-*" (RespBody resp)
       (staged_options (upload.URL_Name opts)
          (if decide (last_segment targetURL = "") then "file"
           else last_segment targetURL)
          (upload.URL_GroupID opts) (upload.URL_KeyValues opts))
       (fetched targetURL resp w)) /\
  (forall data opts w, w_fs (upload.JSON env s data opts w).2 = w_fs w) /\
  (forall data opts w, w_fs (upload.Base64 env s data opts w).2 = w_fs w) /\
  (forall targetURL opts w, w_fs (upload.URL env s targetURL opts w).2 = w_fs w).
Proof.
  split_and!.
  - apply JSON_staged.
  - apply Base64_staged.
  - apply URL_staged.
  - apply JSON_fs.
  - apply Base64_fs.
  - apply URL_fs.
Qed.

Lemma C4_staging_helpers_witness :
  let env := example.env 200 "{}" in
  let s := example.private_upload in
  let w := example.world in
  (e_json_marshal env (GoInt 7) = Ok "7" /\
   can_stage env "pinata-json-*.json" w /\
   upload.JSON env s (Some (GoInt 7)) (Some example.json_options) w =
   staged_upload env s "pinata-json-*.json" "7"
     (staged_options (upload.JSON_Name example.json_options) "data.json"
        (upload.JSON_GroupID example.json_options)
        (upload.JSON_KeyValues example.json_options)) w) /\
  ("aGk=" <> "" /\
   e_base64_decode env "aGk=" = Ok "hi" /\
   can_stage env "pinata-base64-*" w /\
   upload.Base64 env s "aGk=" (Some example.base64_options) w =
   staged_upload env s "pinata-base64-*" "hi"
     (staged_options (upload.Base64_Name example.base64_options) "file"
        (upload.Base64_GroupID example.base64_options)
        (upload.Base64_KeyValues example.base64_options)) w) /\
  (example.target <> "" /\
   e_url_error env example.target = None /\
   e_net env (w_trace w) (fetch_request example.target) = NetResponse example.answer /\
   StatusCode example.answer = StatusOK /\
   can_stage env "pinata-url-*" (fetched example.target example.answer w) /\
   upload.URL env s example.target (Some example.url_options) w =
   staged_upload env s "pinata-url-*" (RespBody example.answer)
     (staged_options (upload.URL_Name example.url_options)
        (if decide (last_segment example.target = "") then "file"
         else last_segment example.target)
        (upload.URL_GroupID example.url_options)
        (upload.URL_KeyValues example.url_options))
     (fetched example.target example.answer w)).
Proof.
  cbv zeta.
  destruct (C4_staging_helpers (example.env 200 "{}") example.private_upload)
    as (HJ & HB & HU & _).
  split; [|split].
  - split; [reflexivity|]. split; [vm_compute; done|].
    apply HJ; [reflexivity | vm_compute; done].
  - split; [done|]. split; [reflexivity|]. split; [vm_compute; done|].
    apply HB; [done | reflexivity | vm_compute; done].
  - split; [done|]. split; [reflexivity|]. split; [reflexivity|].
    split; [reflexivity|]. split; [vm_compute; done|].
    apply HU; [done | reflexivity | reflexivity | reflexivity | vm_compute; done].
Defined.

(** C8 as the specification states it fails: JSON with nil options and
    nil data returns an error, it does not panic. *)
Lemma C8_nil_data_returns_error :
  upload.JSON (example.env 200 "{}") example.private_upload None None example.world =
  (Returned (None, Some "JSON data is required"), example.world).
Proof. vm_compute. reflexivity. Qed.

(** C8, amended: with nil options, each of JSON, Base64 and URL whose
    input passes its check and whose marshalling or decoding (for URL the
    fetch, with status 200) and temporary file succeed panics on the nil
    pointer; on every input it either returns nil with the error of an
    earlier step or panics so, and never comes back with an upload. File
    and FileArray take nil options: with them they panic only on what
    the service holds as its configuration, a value of another type (on
    the type assertion) or a nil [*types.Config] (on the first read of a
    field), and so never on a service that holds the configuration. *)
Theorem C8_nil_options env s :
  (forall data jsonData w,
     e_json_marshal env data = Ok jsonData ->
     can_stage env "pinata-json-*.json" w ->
     (upload.JSON env s (Some data) None w).1 = Panicked nil_dereference) /\
  (forall data decoded w,
     data <> "" ->
     e_base64_decode env data = Ok decoded ->
     can_stage env "pinata-base64-*" w ->
     (upload.Base64 env s data None w).1 = Panicked nil_dereference) /\
  (forall targetURL resp w,
     targetURL <> "" ->
     e_url_error env targetURL = None ->
     e_net env (w_trace w) (fetch_request targetURL) = NetResponse resp ->
     StatusCode resp = StatusOK ->
     can_stage env "pinata-url-*" (fetched targetURL resp w) ->
     (upload.URL env s targetURL None w).1 = Panicked nil_dereference) /\
  (forall data w,
     match (upload.JSON env s data None w).1 with
     | Returned (v, e) => v = None /\ is_Some e
     | Panicked msg => msg = nil_dereference
     end) /\
  (forall data w,
     match (upload.Base64 env s data None w).1 with
     | Returned (v, e) => v = None /\ is_Some e
     | Panicked msg => msg = nil_dereference
     end) /\
  (forall targetURL w,
     match (upload.URL env s targetURL None w).1 with
     | Returned (v, e) => v = None /\ is_Some e
     | Panicked msg => msg = nil_dereference
     end) /\
  (forall file w msg,
     (upload.File env s file None w).1 = Panicked msg ->
     config_panic (upload.config s) msg) /\
  (forall handles w msg,
     (upload.FileArray env s handles None w).1 = Panicked msg ->
     config_panic (upload.config s) msg).
Proof.
  split_and!.
  - apply JSON_nil.
  - apply Base64_nil.
  - apply URL_nil.
  - apply JSON_nil_outcome.
  - apply Base64_nil_outcome.
  - apply URL_nil_outcome.
  - intros file. apply File_no_panic.
  - intros handles. apply FileArray_no_panic.
Qed.

Lemma C8_nil_options_witness :
  let env := example.env 200 "{}" in
  let s := example.private_upload in
  let w := example.world in
  (e_json_marshal env (GoInt 7) = Ok "7" /\
   can_stage env "pinata-json-*.json" w /\
   (upload.JSON env s (Some (GoInt 7)) None w).1 = Panicked nil_dereference) /\
  ("aGk=" <> "" /\
   e_base64_decode env "aGk=" = Ok "hi" /\
   can_stage env "pinata-base64-*" w /\
   (upload.Base64 env s "aGk=" None w).1 = Panicked nil_dereference) /\
  (example.target <> "" /\
   e_url_error env example.target = None /\
   e_net env (w_trace w) (fetch_request example.target) = NetResponse example.answer /\
   StatusCode example.answer = StatusOK /\
   can_stage env "pinata-url-*" (fetched example.target example.answer w) /\
   (upload.URL env s example.target None w).1 = Panicked nil_dereference).
Proof.
  cbv zeta.
  destruct (C8_nil_options (example.env 200 "{}") example.private_upload)
    as (HJ & HB & HU & _).
  split; [|split].
  - split; [reflexivity|]. split; [vm_compute; done|].
    apply HJ with (jsonData := "7"); [reflexivity | vm_compute; done].
  - split; [done|]. split; [reflexivity|]. split; [vm_compute; done|].
    apply HB with (decoded := "hi"); [done | reflexivity | vm_compute; done].
  - split; [done|]. split; [reflexivity|]. split; [reflexivity|].
    split; [reflexivity|]. split; [vm_compute; done|].
    apply HU with (resp := example.answer);
      [done | reflexivity | reflexivity | reflexivity | vm_compute; done].
Defined.

(** File without options against the same server. *)
Example File_nil_options :
  (upload.File (example.env 200 "{}") example.private_upload
     (Some {| fh_name := "pinnie.png" |}) None example.world).1 =
  Returned (None, None).
Proof. vm_compute. reflexivity. Qed.

(** Three IDs against a server that fails from the second request on:
    two requests are sent, the third ID is never tried, and the result is
    the nil slice with the error of the second request. *)
Example Delete_stops_at_first_failure :
  let r := files.Private_Delete (failing_after 1) example.private_files
             ["id-1"; "id-2"; "id-3"] example.world in
  r.1 = Returned ([], Some "API error (status 500): boom") /\
  map (fun x => (Method x.1, URL x.1)) (issued example.world r.2) =
    [("DELETE", "https://api.pinata.cloud/v3/files/private/id-1");
     ("DELETE", "https://api.pinata.cloud/v3/files/private/id-2")].
Proof. vm_compute. done. Qed.

(** * Further properties *)

(** ** Tactics for traces *)

(** The exchanges of a run, as a list. *)
Ltac issued_list :=
  unfold issued;
  cbn [fst snd w_trace w_config w_now set_trace set_fs set_temp os_Remove];
  rewrite <- ?app_assoc; cbn [app];
  rewrite ?drop_app_length, ?drop_all.

(** The last exchange of a run that has sent all its requests. *)
Ltac last_exchange :=
  let Ht := fresh "Ht" in
  let Hlen := fresh "Hlen" in
  let Hok := fresh "Hok" in
  intros Ht Hlen Hok;
  match type of Ht with
  | _ = ?l ++ _ => destruct l as [|? [|? [|? ?]]]
  end;
  cbn [app length requests] in Ht, Hlen; simplify_eq; try lia.

Ltac lookup_list H :=
  repeat first
    [ progress change ((?a :: ?l) !! 0) with (Some a) in H
    | progress change ((?a :: ?l) !! S ?i) with (l !! i) in H
    | progress change (@nil ?A !! ?i) with (@None A) in H ].

(** An element of a list of one or two exchanges. *)
Ltac one_request Hx :=
  first [ by apply elem_of_nil in Hx
        | apply list_elem_of_singleton in Hx; subst
        | apply elem_of_cons in Hx as [->|Hx];
          [subst|apply list_elem_of_singleton in Hx; subst] ].

Ltac api_request :=
  cbn [fst];
  match goal with
  | |- context [files.api_headers ?e ?cfg ?rq] =>
      destruct (api_headers_frame e cfg rq) as (-> & -> & ->)
  end;
  cbn [Method URL ReqBody].

Ltac request_body :=
  cbn [fst];
  match goal with
  | |- context [upload.upload_headers ?e ?ct ?cfg ?rq] =>
      destruct (upload_headers_frame e ct cfg rq) as (_ & _ & ->)
  end;
  cbn [ReqBody fh_name w_fs set_fs set_temp set_trace w_temp] in *.

Lemma returning_world {A} (inj : A -> Value) f w :
  (returning inj f w).2 = (f w).2.
Proof. unfold returning. by destruct (f w) as [[[a e]|msg] w1]. Qed.

(** ** Arguments that are missing *)

(** X1: a call whose required argument is missing (nil options, an empty
    ID, CID, list or string, a nil file or nil data) returns its zero
    value and the error of its check, and nothing has happened: the world
    is the same, no request was sent and no file created, whatever the
    configuration of the service is. *)
Theorem X1_missing_argument_is_rejected env c w msg :
  rejected c = Some msg ->
  exec env c w = (Returned (zero c, Some msg), w).
Proof.
  destruct c; cbn [rejected required nil_or is_nil zero]; try discriminate.
  all: unfold required, nil_or, is_nil.
  all: unfold_methods.
  all: repeat match goal with
           | |- context [match ?o with Some _ => _ | None => _ end] => is_var o; destruct o
           end.
  all: try case_bool_decide; try discriminate.
  all: intros [= <-].
  all: run; try reflexivity; try (exfalso; tauto); try (cbn in *; lia); try done.
Qed.

Lemma X1_missing_argument_is_rejected_witness :
  let c := PrivateUpdate sample.wrong_files None in
  rejected c = Some "file ID is required" /\
  exec (example.env 200 "{}") c example.world =
  (Returned (VFile None, Some "file ID is required"), example.world).
Proof. cbv zeta. split; [reflexivity|]. by apply X1_missing_argument_is_rejected. Defined.

Lemma Delete_sends env network ids w :
  ids <> [] ->
  (forall url, e_url_error env url = None) ->
  1 <= length (issued w (files.Delete env network ConfigPtr ids w).2).
Proof.
  intros Hids Hurl. unfold files.Delete. unfold_go.
  destruct ids as [|id ids]; [done|].
  rewrite decide_False by done.
  cbn [for_range]. unfold bind. rewrite Delete_turn_cases, Hurl. cbv zeta.
  destruct (e_net env (w_trace w) _) as [e|resp]; [by rewrite issued_one|].
  destruct (decide (StatusCode resp ≠ StatusOK)); [by rewrite issued_one|].
  match goal with
  | |- context [for_range ids ?f ?s ?w1] =>
      pose proof (Delete_loop env network (w_config w) ids s w1) as (l & Ht & _);
      cbv zeta in Ht;
      destruct (for_range ids f s w1) as [[rs|[rs e]|msg] w2]
  end.
  all: cbn [fst snd w_trace set_trace] in *.
  all: unfold issued; rewrite Ht, <- app_assoc, drop_app_length; cbn; lia.
Qed.

(** X2: a call of a files method or of CreateSignedURL that has its
    required arguments, on a service that holds the configuration, sends
    a request as soon as [http.NewRequest] accepts its URL. *)
Theorem X2_accepted_call_is_sent env c w :
  builds_and_sends c = true ->
  rejected c = None ->
  service_config c = ConfigPtr ->
  (forall url, e_url_error env url = None) ->
  1 <= length (issued w (exec env c w).2).
Proof.
  destruct c; try discriminate; intros _.
  all: cbn [rejected service_config]; unfold required, nil_or, is_nil.
  5: { case_bool_decide; [done|]. intros _ Hcfg Hurl.
       cbn [exec]. rewrite returning_world. unfold files.Private_Delete. rewrite Hcfg.
       apply Delete_sends; [|done]. by destruct ids. }
  15: { case_bool_decide; [done|]. intros _ Hcfg Hurl.
        cbn [exec]. rewrite returning_world. unfold files.Public_Delete. rewrite Hcfg.
        apply Delete_sends; [|done]. by destruct ids. }
  all: unfold_methods.
  all: repeat match goal with
           | |- context [match ?o with Some _ => _ | None => _ end] => is_var o; destruct o
           end.
  all: try case_bool_decide; try discriminate.
  all: intros _ Hcfg Hurl; try rewrite Hcfg.
  all: run; issued_list; cbn [length]; try lia; try done; try (exfalso; tauto).
  all: match goal with H : e_url_error _ _ = Some _ |- _ => by rewrite Hurl in H end.
Qed.

Lemma X2_accepted_call_is_sent_witness :
  let env := example.env 200 "{}" in
  let c := PrivateGet example.private_files "id-1" in
  builds_and_sends c = true /\ rejected c = None /\ service_config c = ConfigPtr /\
  (forall url, e_url_error env url = None) /\
  1 <= length (issued example.world (exec env c example.world).2).
Proof.
  cbv zeta. split_and!; [reflexivity..|].
  by apply X2_accepted_call_is_sent.
Defined.

(** ** Panics *)

Lemma Delete_panic env network config ids w :
  match (files.Delete env network config ids w).1 with
  | Panicked msg => config_panic config msg
  | Returned _ => True
  end.
Proof.
  destruct (Delete_run env network config ids w) as (l & _ & _ & _ & _ & _ & Hcase).
  destruct (files.Delete env network config ids w).1 as [r|msg]; [done|].
  by destruct Hcase as (_ & _ & Hpanic).
Qed.

(** X3: a call panics for three reasons only, all of them a value the
    caller handed over: the service holds a value that is not a
    [*types.Config], and the type assertion fails; the service holds a
    nil [*types.Config], and the first read of a field dereferences it;
    or JSON, Base64 or URL was given nil options and dereferences them.
    So no files method, and neither File, FileArray nor CreateSignedURL,
    panics on a service that holds the configuration, whatever its
    arguments and whatever the network and the file system answer. *)
Theorem X3_reasons_to_panic env c w :
  match (exec env c w).1 with
  | Panicked msg =>
      config_panic (service_config c) msg \/
      nil_options c = true /\ msg = nil_dereference
  | Returned _ => True
  end.
Proof.
  destruct c.
  10: { pose proof (Delete_panic env "private" (files.private_config s) ids w) as H.
        cbn. unfold returning, files.Private_Delete.
        destruct (files.Delete _ _ _ _ _) as [[[rs e]|msg] w1]; [done|by left]. }
  20: { pose proof (Delete_panic env "public" (files.public_config s) ids w) as H.
        cbn. unfold returning, files.Public_Delete.
        destruct (files.Delete _ _ _ _ _) as [[[rs e]|msg] w1]; [done|by left]. }
  all: unfold_methods; run; use_FileArray_loop.
  all: cbn [fst service_config nil_options]; unfold config_panic.
  all: first [ done | left; left; done | left; right; done | right; done ].
Qed.

(** Get on a service that holds a nil [*types.Config] gets through the
    type assertion and panics on [cfg.APIUrl], before anything is sent. *)
Example Get_on_a_nil_configuration :
  exec (example.env 200 "{}") (PrivateGet sample.nil_files "id-1") example.world =
  (Panicked nil_dereference, example.world).
Proof. vm_compute. reflexivity. Qed.

(** X4: on a service that holds a value of another type than
    [*types.Config], every files method, FileArray and CreateSignedURL
    panic on the type assertion as soon as the required arguments are
    there, before anything is sent: the check of the arguments comes
    first, the assertion second. *)
Theorem X4_wrong_configuration_panics env c w :
  asserts_first c = true ->
  rejected c = None ->
  service_config c = OtherValue ->
  exec env c w = (Panicked conversion_panic, w).
Proof.
  destruct c; try discriminate; intros _.
  all: cbn [rejected service_config]; unfold required, nil_or, is_nil.
  all: unfold_methods.
  all: repeat match goal with
           | |- context [match ?o with Some _ => _ | None => _ end] => is_var o; destruct o
           end.
  all: try case_bool_decide; try discriminate.
  all: intros _ Hcfg; try rewrite Hcfg.
  all: run; try reflexivity; try (exfalso; tauto); try (cbn in *; lia); try done.
Qed.

Lemma X4_wrong_configuration_panics_witness :
  let c := PrivateGet sample.wrong_files "id-1" in
  asserts_first c = true /\ rejected c = None /\ service_config c = OtherValue /\
  exec (example.env 200 "{}") c example.world = (Panicked conversion_panic, example.world).
Proof. cbv zeta. split_and!; [reflexivity..|]. by apply X4_wrong_configuration_panics. Defined.

(** ** The outcome of a call, from its last exchange *)

(** X5: when the last request of a call meets a transport error, the
    call returns its zero value and that error, wrapped as
    [failed to send request: ...], or as [failed to fetch URL content:
    ...] when the request was the fetch of the target in URL. *)
Theorem X5_transport_error_outcome env c w l req e :
  issued w (exec env c w).2 = l ++ [(req, NetError e)] ->
  (exec env c w).1 =
  Returned (zero c,
            Some ((if is_fetch c l then "failed to fetch URL content: "
                   else "failed to send request: ") +:+ e)).
Proof.
  destruct (course_holds env c w) as (l' & Ht & _ & _ & _ & Hcase).
  rewrite (issued_app _ _ _ Ht). intros ->.
  assert (~ good (req, NetError e)) as Hbad by (by intros []).
  destruct (exec env c w).1 as [[v [msg|]]|msg].
  - destruct Hcase as (-> & [Hg|(l0 & x & Heq & Hg & Hx & ->)]).
    { exfalso. rewrite Forall_app, Forall_singleton in Hg. tauto. }
    apply app_inj_tail in Heq as [-> <-].
    do 3 f_equal. by destruct c, l0.
  - destruct Hcase as (Hg & _). exfalso.
    rewrite Forall_app, Forall_singleton in Hg. tauto.
  - exfalso. rewrite Forall_app, Forall_singleton in Hcase. tauto.
Qed.

Lemma X5_transport_error_outcome_witness :
  let c := PrivateGet example.private_files "id-1" in
  let req := sample.api_request sample.offline "GET"
               "https://api.pinata.cloud/v3/files/private/id-1" NoBody in
  issued example.world (exec sample.offline c example.world).2 =
    [] ++ [(req, NetError "connection refused")] /\
  (exec sample.offline c example.world).1 =
    Returned (VFile None, Some "failed to send request: connection refused").
Proof.
  cbv zeta.
  assert (issued example.world
            (exec sample.offline (PrivateGet example.private_files "id-1") example.world).2 =
          [] ++ [(sample.api_request sample.offline "GET"
                    "https://api.pinata.cloud/v3/files/private/id-1" NoBody,
                  NetError "connection refused")]) as H
    by (vm_compute; reflexivity).
  split; [exact H|]. exact (X5_transport_error_outcome _ _ _ _ _ _ H).
Defined.

Lemma Delete_answered env network config ids w c l req resp :
  requests c = length ids ->
  (forall resp, expected env c resp = Ok (VDeleted (map deleted ids))) ->
  issued w (returning VDeleted (files.Delete env network config ids) w).2 =
    l ++ [(req, NetResponse resp)] ->
  length l + 1 = requests c ->
  StatusCode resp = StatusOK ->
  (returning VDeleted (files.Delete env network config ids) w).1 =
  match expected env c resp with
  | Ok v => Returned (v, None)
  | Failed e => Returned (zero c, Some (answer_failure c +:+ e))
  end.
Proof.
  intros Hreq Hexp.
  destruct (Delete_run env network config ids w)
    as (l' & Ht & _ & _ & _ & _ & Hcase).
  rewrite returning_world, (issued_app _ _ _ Ht). intros -> Hlen Hok. rewrite Hexp.
  unfold returning.
  destruct (files.Delete env network config ids w) as [[[rs [msg|]]|msg] w1];
    cbn [fst snd] in *.
  - exfalso. destruct Hcase as (_ & [[_ Hl]|(l0 & x & Heq & _ & Hx & _)]).
    + rewrite length_app in Hl. cbn in Hl.
      assert (ids <> []) as Hids by (intros ->; cbn in *; lia).
      destruct (Hl Hids) as [Hlt _]. lia.
    + apply app_inj_tail in Heq as [_ <-]. by apply Hx.
  - by destruct Hcase as (-> & _).
  - destruct Hcase as (Hnil & _). by destruct l.
Qed.

(** X6: once a call has sent all its requests and the last one is
    answered with status 200, its outcome is fixed by that answer: it
    returns the expected value without an error, or, when the answer
    does not decode, its zero value and the decoder's error wrapped as
    [failed to decode response: ...]; QueryVectors with [ReturnFile]
    does not decode but reads the body, and when reading fails returns
    its zero value and that error wrapped as [failed to read response
    body: ...]. The call neither panics nor returns any other error. *)
Theorem X6_answered_outcome env c w l req resp :
  issued w (exec env c w).2 = l ++ [(req, NetResponse resp)] ->
  length l + 1 = requests c ->
  StatusCode resp = StatusOK ->
  (exec env c w).1 =
  match expected env c resp with
  | Ok v => Returned (v, None)
  | Failed e => Returned (zero c, Some (answer_failure c +:+ e))
  end.
Proof.
  destruct c.
  10: { apply Delete_answered; done. }
  20: { apply Delete_answered; done. }
  all: remember (match expected env _ resp with Ok v => _ | Failed e => _ end) as R eqn:HR.
  all: unfold_methods; run; use_FileArray_loop.
  all: issued_list; last_exchange.
  all: unfold expected, io_ReadAll; cbn; use_equations; reflexivity.
Qed.

Lemma X6_answered_outcome_witness :
  let env := example.env 200 "{}" in
  let c := PrivateGet example.private_files "id-1" in
  let req := sample.api_request env "GET"
               "https://api.pinata.cloud/v3/files/private/id-1" NoBody in
  issued example.world (exec env c example.world).2 =
    [] ++ [(req, NetResponse example.answer)] /\
  length (@nil Exchange) + 1 = requests c /\
  StatusCode example.answer = StatusOK /\
  (exec env c example.world).1 = Returned (VFile None, None).
Proof.
  cbv zeta.
  assert (issued example.world
            (exec (example.env 200 "{}") (PrivateGet example.private_files "id-1")
               example.world).2 =
          [] ++ [(sample.api_request (example.env 200 "{}") "GET"
                    "https://api.pinata.cloud/v3/files/private/id-1" NoBody,
                  NetResponse example.answer)]) as H
    by (vm_compute; reflexivity).
  split; [exact H|]. split; [reflexivity|]. split; [reflexivity|].
  exact (X6_answered_outcome _ _ _ _ _ _ H eq_refl eq_refl).
Defined.

(** QueryVectors with [ReturnFile] against a server that answers 200
    and whose body breaks off: one request, no result, and the error of
    reading the body. *)
Example QueryVectors_body_cut_off :
  let r := exec sample.cut_off
             (PrivateQueryVectors example.private_files (Some example.query_options))
             example.world in
  r.1 = Returned (VVectorQuery None, Some "failed to read response body: unexpected EOF") /\
  length (issued example.world r.2) = 1.
Proof. vm_compute. done. Qed.

(** ** Where requests go, and with which headers *)

Lemma starts_with_path (base rest : string) :
  starts_with (base +:+ "/") (base +:+ String "/" rest).
Proof. exists rest. by rewrite append_assoc. Qed.

Ltac solve_starts_with :=
  unfold files.with_query; repeat case_decide;
  rewrite ?append_assoc; cbn [append];
  apply starts_with_path.

Lemma Delete_requests env network config ids w c i x :
  base_url c (w_config w) = types.APIUrl (w_config w) ->
  (forall req, with_headers env c (w_config w) req = files.api_headers env (w_config w) req) ->
  issued w (returning VDeleted (files.Delete env network config ids) w).2 !! i = Some x ->
  exists req,
    x.1 = with_headers env c (w_config w) req /\ Header req = ∅ /\
    starts_with (base_url c (w_config w) +:+ "/") (URL req).
Proof.
  intros -> Hh.
  destruct (Delete_run env network config ids w) as (l & Ht & _ & Hreq & _).
  rewrite returning_world, (issued_app _ _ _ Ht). intros Hx.
  assert (map fst l !! i = Some x.1) as Hi
    by (change (map fst l) with (fst <$> l); rewrite list_lookup_fmap;
        unfold Exchange in *; by rewrite Hx).
  rewrite Hreq in Hi.
  change (map ?f ?k) with (f <$> k) in Hi. rewrite list_lookup_fmap in Hi.
  destruct (take (length l) ids !! i) as [id|]; [|done].
  cbn in Hi. injection Hi as <-.
  eexists. rewrite Hh. unfold delete_request. split; [reflexivity|]. split; [done|].
  cbn [URL]. solve_starts_with.
Qed.

(** X7: the only request that leaves the SDK without its headers is the
    first one of URL, the fetch of the target: a plain GET of the target
    with no header at all, so that the JWT is not sent there. Every
    other request of every call is a fresh request to a URL under
    [APIUrl/] (files methods) or [UploadUrl/] (upload methods) of the
    configuration, on which the call then sets its headers. *)
Theorem X7_requests_go_to_the_service env c w i x :
  issued w (exec env c w).2 !! i = Some x ->
  match c, i with
  | UploadURL _ targetURL _, 0 => x.1 = fetch_request targetURL
  | _, _ =>
      exists req,
        x.1 = with_headers env c (w_config w) req /\ Header req = ∅ /\
        starts_with (base_url c (w_config w) +:+ "/") (URL req)
  end.
Proof.
  destruct c.
  10: { intros Hx. apply (Delete_requests _ _ _ _ _ (PrivateDelete s ids)) in Hx; [|done..].
        by destruct i. }
  20: { intros Hx. apply (Delete_requests _ _ _ _ _ (PublicDelete s ids)) in Hx; [|done..].
        by destruct i. }
  all: match goal with
       | |- _ -> ?G => remember G as goal eqn:Hgoal
       end.
  all: unfold_methods; run; use_FileArray_loop.
  all: issued_list; intros Hx.
  all: destruct i as [|[|[|i]]]; lookup_list Hx; simplify_eq.
  all: cbn [fst with_headers base_url].
  all: try reflexivity.
  all: eexists; (split; [reflexivity|]); (split; [reflexivity|]).
  all: cbn [URL]; solve_starts_with.
Qed.

Lemma X7_requests_go_to_the_service_witness :
  let env := example.env 200 "{}" in
  let c := UploadURL example.private_upload example.target (Some example.url_options) in
  let x := (fetch_request example.target, NetResponse example.answer) in
  issued example.world (exec env c example.world).2 !! 0 = Some x /\
  x.1 = fetch_request example.target.
Proof.
  cbv zeta.
  assert (issued example.world
            (exec (example.env 200 "{}")
               (UploadURL example.private_upload example.target (Some example.url_options))
               example.world).2 !! 0 =
          Some (fetch_request example.target, NetResponse example.answer)) as H
    by (vm_compute; reflexivity).
  split; [exact H|]. exact (X7_requests_go_to_the_service _ _ _ _ _ H).
Defined.

Section CustomHeaders.

Context (env : Env).

(** A header that no custom header is written to keeps its value. *)
Lemma set_custom_headers_other headers req c :
  (forall k, is_Some (headers !! k) -> e_canonical env k <> c) ->
  Header (set_custom_headers env headers req) !! c = Header req !! c.
Proof.
  unfold set_custom_headers.
  apply (map_fold_weak_ind
           (fun (r : Request) (m : gmap string string) =>
              (forall k, is_Some (m !! k) -> e_canonical env k <> c) ->
              Header r !! c = Header req !! c)); [done|].
  intros key value m r Hfresh IH Hc. cbn.
  rewrite lookup_insert_ne.
  - apply IH. intros k Hk. apply Hc. rewrite lookup_insert_ne; [done|].
    intros ->. rewrite Hfresh in Hk. by destruct Hk.
  - apply Hc. by rewrite lookup_insert_eq.
Qed.

(** A header that a custom header is written to ends with the value of
    one of the custom headers written to it. *)
Lemma set_custom_headers_custom headers req k v :
  headers !! k = Some v ->
  exists k' v',
    headers !! k' = Some v' /\ e_canonical env k' = e_canonical env k /\
    Header (set_custom_headers env headers req) !! e_canonical env k = Some v'.
Proof.
  unfold set_custom_headers. revert k v.
  apply (map_fold_weak_ind
           (fun (r : Request) (m : gmap string string) =>
              forall k v, m !! k = Some v ->
              exists k' v',
                m !! k' = Some v' /\ e_canonical env k' = e_canonical env k /\
                Header r !! e_canonical env k = Some v')).
  { intros k v Hk. by rewrite lookup_empty in Hk. }
  intros key value m r Hfresh IH k v Hk. cbn.
  destruct (decide (e_canonical env key = e_canonical env k)) as [Heq|Hne].
  - exists key, value. rewrite lookup_insert_eq, <- Heq, lookup_insert_eq. done.
  - assert (key <> k) as Hkey by (by intros ->).
    rewrite lookup_insert_ne in Hk by done.
    destruct (IH k v Hk) as (k' & v' & Hk' & Hc & Hh).
    assert (key <> k') as Hkey' by (intros ->; rewrite Hfresh in Hk'; discriminate).
    exists k', v'. by rewrite !lookup_insert_ne by done.
Qed.

End CustomHeaders.

(** X8: the headers of a request of the files services ([api]) and of
    the upload service ([up]). The custom headers of the configuration
    are set last and win: a header a custom header is written to, under
    its canonical name, carries the value of a custom header of that
    canonical name, also when the name is Authorization or Content-Type.
    Where no custom header interferes, Authorization is [Bearer] and the
    JWT, Content-Type is [application/json] for the files services and
    the content type of the body for uploads, and every other header is
    as the request had it. *)
Theorem X8_custom_headers_override env cfg req content_type :
  let api := Header (files.api_headers env cfg req) in
  let up := Header (upload.upload_headers env content_type cfg req) in
  let custom := types.CustomHeaders cfg in
  let canonical := e_canonical env in
  (forall k v, custom !! k = Some v ->
     (exists k' v', custom !! k' = Some v' /\ canonical k' = canonical k /\
                    api !! canonical k = Some v') /\
     (exists k' v', custom !! k' = Some v' /\ canonical k' = canonical k /\
                    up !! canonical k = Some v')) /\
  (canonical "Authorization" <> canonical "Content-Type" ->
   (forall k, is_Some (custom !! k) -> canonical k <> canonical "Authorization") ->
   api !! canonical "Authorization" = Some ("Bearer " +:+ types.PinataJWT cfg) /\
   up !! canonical "Authorization" = Some ("Bearer " +:+ types.PinataJWT cfg)) /\
  ((forall k, is_Some (custom !! k) -> canonical k <> canonical "Content-Type") ->
   api !! canonical "Content-Type" = Some "application/json") /\
  (canonical "Authorization" <> canonical "Content-Type" ->
   (forall k, is_Some (custom !! k) -> canonical k <> canonical "Content-Type") ->
   up !! canonical "Content-Type" = Some content_type) /\
  (forall c, c <> canonical "Authorization" -> c <> canonical "Content-Type" ->
     (forall k, is_Some (custom !! k) -> canonical k <> c) ->
     api !! c = Header req !! c /\ up !! c = Header req !! c).
Proof.
  cbv zeta. unfold files.api_headers, upload.upload_headers. split_and!.
  - intros k v Hk. split; by apply set_custom_headers_custom with (v := v).
  - intros Hne Hc. rewrite !set_custom_headers_other by done. cbn.
    rewrite lookup_insert_ne by done. rewrite !lookup_insert_eq. done.
  - intros Hc. rewrite !set_custom_headers_other by done. cbn.
    by rewrite lookup_insert_eq.
  - intros Hne Hc. rewrite !set_custom_headers_other by done. cbn.
    rewrite lookup_insert_ne by done. by rewrite lookup_insert_eq.
  - intros c Ha Hc Hcustom. rewrite !set_custom_headers_other by done. cbn.
    by rewrite !lookup_insert_ne by done.
Qed.

Lemma X8_custom_headers_override_witness :
  let env := example.env 200 "{}" in
  let api := Header (files.api_headers env sample.traced sample.get_request) in
  api !! "X-Trace" = Some "on" /\
  api !! "Authorization" = Some "Bearer jwt" /\
  api !! "Content-Type" = Some "application/json".
Proof.
  cbv zeta.
  destruct (X8_custom_headers_override (example.env 200 "{}") sample.traced
              sample.get_request "application/json") as (Hcustom & Hauth & Htype & _).
  assert (forall k, is_Some (types.CustomHeaders sample.traced !! k) -> k = "X-Trace") as Hk.
  { intros k [v Hv]. cbn in Hv. by apply lookup_singleton_Some in Hv as [<- _]. }
  split_and!.
  - destruct (Hcustom "X-Trace" "on") as [(k & v & Hv & Hc & Hh) _]; [done|].
    cbn in Hv. apply lookup_singleton_Some in Hv as [_ <-]. exact Hh.
  - apply Hauth; [done|]. intros k Hin. by rewrite (Hk k Hin).
  - apply Htype. intros k Hin. by rewrite (Hk k Hin).
Defined.

(** ** The query of List *)




















(** ** The bodies of Update and PinByHash *)

Lemma marshal_UpdateOptions_fields opts :
  let payload := files.marshal_UpdateOptions opts in
  payload !! "name" =
    (if decide (files.Update_Name opts = "") then None
     else Some (GoString (files.Update_Name opts))) /\
  payload !! "keyvalues" =
    (if decide (size (files.Update_KeyValues opts) = 0) then None
     else Some (GoStringMap (files.Update_KeyValues opts))) /\
  forall k, is_Some (payload !! k) -> k = "name" \/ k = "keyvalues".
Proof.
  unfold files.marshal_UpdateOptions. cbv zeta. split_and!.
  - lookup_field. case_bool_decide; case_decide; done.
  - lookup_field. case_bool_decide; case_decide; try done; lia.
  - intros k Hk.
    repeat (apply is_Some_assign_if in Hk as [->|Hk]; [tauto|]).
    rewrite lookup_empty in Hk. by destruct Hk.
Qed.

(** X10: every request of Update is a PUT to
    [APIUrl/files/<network>/<ID>] whose JSON body has the field [name]
    exactly when the name is not empty, the field [keyvalues] exactly
    when there are key-values, and no other field: the ID goes into the
    URL and never into the body, and an update that changes nothing
    still sends an empty object. *)
Theorem X10_Update_request env network config opts w x :
  x ∈ issued w (files.Update env network config (Some opts) w).2 ->
  Method x.1 = "PUT" /\
  URL x.1 = types.APIUrl (w_config w) +:+ "/files/" +:+ network +:+ "/"
            +:+ files.Update_ID opts /\
  exists payload,
    ReqBody x.1 = JSONBody payload /\
    payload !! "name" =
      (if decide (files.Update_Name opts = "") then None
       else Some (GoString (files.Update_Name opts))) /\
    payload !! "keyvalues" =
      (if decide (size (files.Update_KeyValues opts) = 0) then None
       else Some (GoStringMap (files.Update_KeyValues opts))) /\
    forall k, is_Some (payload !! k) -> k = "name" \/ k = "keyvalues".
Proof.
  match goal with |- _ -> ?G => remember G as goal eqn:Hgoal end.
  unfold files.Update. run.
  all: issued_list; intros Hx; one_request Hx.
  all: api_request.
  all: split; [done|]; split; [done|]; eexists; split; [reflexivity|].
  all: apply marshal_UpdateOptions_fields.
Qed.

Lemma X10_Update_request_witness :
  let env := example.env 200 "{}" in
  let x := (sample.api_request env "PUT" "https://api.pinata.cloud/v3/files/private/id-1"
              (JSONBody {[ "name" := GoString "new name" ]}),
            NetResponse example.answer) in
  x ∈ issued example.world
        (files.Update env "private" ConfigPtr (Some sample.update_options) example.world).2 /\
  Method x.1 = "PUT" /\
  URL x.1 = "https://api.pinata.cloud/v3/files/private/id-1" /\
  exists payload,
    ReqBody x.1 = JSONBody payload /\
    payload !! "name" = Some (GoString "new name") /\
    payload !! "keyvalues" = None /\
    forall k, is_Some (payload !! k) -> k = "name" \/ k = "keyvalues".
Proof.
  cbv zeta.
  assert ((sample.api_request (example.env 200 "{}") "PUT"
             "https://api.pinata.cloud/v3/files/private/id-1"
             (JSONBody {[ "name" := GoString "new name" ]}),
           NetResponse example.answer)
          ∈ issued example.world
              (files.Update (example.env 200 "{}") "private" ConfigPtr
                 (Some sample.update_options) example.world).2) as H
    by (vm_compute; apply list_elem_of_here).
  split; [exact H|]. exact (X10_Update_request _ _ _ _ _ _ H).
Defined.

Lemma marshal_PinByHashOptions_fields opts :
  let payload := files.marshal_PinByHashOptions opts in
  payload !! "cid" = Some (GoString (files.Pin_CID opts)) /\
  payload !! "name" =
    (if decide (files.Pin_Name opts = "") then None
     else Some (GoString (files.Pin_Name opts))) /\
  payload !! "group_id" =
    (if decide (files.Pin_GroupID opts = "") then None
     else Some (GoString (files.Pin_GroupID opts))) /\
  payload !! "keyvalues" =
    (if decide (size (files.Pin_KeyValues opts) = 0) then None
     else Some (GoStringMap (files.Pin_KeyValues opts))) /\
  payload !! "host_nodes" =
    (if decide (files.Pin_HostNodes opts = []) then None
     else Some (GoStrings (files.Pin_HostNodes opts))) /\
  forall k, is_Some (payload !! k) ->
    k ∈ ["cid"; "name"; "group_id"; "keyvalues"; "host_nodes"].
Proof.
  unfold files.marshal_PinByHashOptions. cbv zeta. split_and!.
  - by lookup_field.
  - lookup_field. case_bool_decide; case_decide; done.
  - lookup_field. case_bool_decide; case_decide; done.
  - lookup_field. case_bool_decide; case_decide; try done; lia.
  - lookup_field. case_bool_decide as Hl; case_decide as He; try done.
    + rewrite He in Hl. cbn in Hl. lia.
    + destruct (files.Pin_HostNodes opts); [done|]. cbn in Hl. lia.
  - intros k Hk. rewrite !elem_of_cons.
    repeat (apply is_Some_assign_if in Hk as [->|Hk]; [tauto|]).
    apply is_Some_insert in Hk as [->|Hk]; [tauto|].
    rewrite lookup_empty in Hk. by destruct Hk.
Qed.

(** X11: every request of PinByHash is a POST to
    [APIUrl/files/public/pin_by_cid] whose JSON body always has the
    field [cid] and has [name], [group_id], [keyvalues] and [host_nodes]
    exactly when the option is not empty, and no other field. *)
Theorem X11_PinByHash_request env s opts w x :
  x ∈ issued w (files.Public_PinByHash env s (Some opts) w).2 ->
  Method x.1 = "POST" /\
  URL x.1 = types.APIUrl (w_config w) +:+ "/files/public/pin_by_cid" /\
  exists payload,
    ReqBody x.1 = JSONBody payload /\
    payload !! "cid" = Some (GoString (files.Pin_CID opts)) /\
    payload !! "name" =
      (if decide (files.Pin_Name opts = "") then None
       else Some (GoString (files.Pin_Name opts))) /\
    payload !! "group_id" =
      (if decide (files.Pin_GroupID opts = "") then None
       else Some (GoString (files.Pin_GroupID opts))) /\
    payload !! "keyvalues" =
      (if decide (size (files.Pin_KeyValues opts) = 0) then None
       else Some (GoStringMap (files.Pin_KeyValues opts))) /\
    payload !! "host_nodes" =
      (if decide (files.Pin_HostNodes opts = []) then None
       else Some (GoStrings (files.Pin_HostNodes opts))) /\
    forall k, is_Some (payload !! k) ->
      k ∈ ["cid"; "name"; "group_id"; "keyvalues"; "host_nodes"].
Proof.
  match goal with |- _ -> ?G => remember G as goal eqn:Hgoal end.
  unfold files.Public_PinByHash. run.
  all: issued_list; intros Hx; one_request Hx.
  all: api_request.
  all: split; [done|]; split; [done|]; eexists; split; [reflexivity|].
  all: apply marshal_PinByHashOptions_fields.
Qed.

Lemma X11_PinByHash_request_witness :
  let env := example.env 200 "{}" in
  let s := files.NewPublicService ConfigPtr in
  let x := (sample.api_request env "POST" "https://api.pinata.cloud/v3/files/public/pin_by_cid"
              (JSONBody {[ "cid" := GoString "bafy"; "host_nodes" := GoStrings ["node-1"] ]}),
            NetResponse example.answer) in
  x ∈ issued example.world
        (files.Public_PinByHash env s (Some sample.pin_options) example.world).2 /\
  Method x.1 = "POST" /\
  URL x.1 = "https://api.pinata.cloud/v3/files/public/pin_by_cid" /\
  exists payload,
    ReqBody x.1 = JSONBody payload /\
    payload !! "cid" = Some (GoString "bafy") /\
    payload !! "name" = None /\
    payload !! "group_id" = None /\
    payload !! "keyvalues" = None /\
    payload !! "host_nodes" = Some (GoStrings ["node-1"]) /\
    forall k, is_Some (payload !! k) ->
      k ∈ ["cid"; "name"; "group_id"; "keyvalues"; "host_nodes"].
Proof.
  cbv zeta.
  assert ((sample.api_request (example.env 200 "{}") "POST"
             "https://api.pinata.cloud/v3/files/public/pin_by_cid"
             (JSONBody {[ "cid" := GoString "bafy"; "host_nodes" := GoStrings ["node-1"] ]}),
           NetResponse example.answer)
          ∈ issued example.world
              (files.Public_PinByHash (example.env 200 "{}") (files.NewPublicService ConfigPtr)
                 (Some sample.pin_options) example.world).2) as H
    by (vm_compute; apply list_elem_of_here).
  split; [exact H|]. exact (X11_PinByHash_request _ _ _ _ _ H).
Defined.

(** ** The forms of the uploads *)

Lemma File_fields_named info o writer :
  upload.File_fields info (Some o) writer =
  writer
  ++ (if decide (upload.GroupID o = "") then [] else [FormField "group_id" (Text (upload.GroupID o))])
  ++ [FormField "name" (Text (name_or (upload.FileName o) (info_Name info)))]
  ++ (if decide (size (upload.KeyValues o) = 0) then []
      else [FormField "keyvalues" (JSONText (upload.KeyValues o))]).
Proof.
  unfold upload.File_fields, upload.WriteField, name_or.
  repeat case_decide; try done; try lia; by rewrite <- ?app_assoc, ?app_nil_r.
Qed.

(** X12: the form File sends for a file. With options it is the network,
    the group when there is one, the name (the one of the options, or
    the base name of the file when that is empty), the key-values when
    there are any, and then the file under its base name with the
    contents it has on disk. Without options it is the network and the
    file, and no name. *)
Theorem X12_File_form env s f opts w x :
  x ∈ issued w (upload.File env s (Some f) opts w).2 ->
  ReqBody x.1 =
  FormBody
    match opts with
    | Some o =>
        named_form (upload.GroupID o)
          (name_or (upload.FileName o) (e_base env (fh_name f)))
          (upload.KeyValues o) (e_base env (fh_name f)) (default "" (w_fs w !! fh_name f))
    | None =>
        [FormField "network" (Text "private"); file_part env w f]
    end.
Proof.
  match goal with |- _ -> ?G => remember G as goal eqn:Hgoal end.
  unfold upload.File. run.
  all: issued_list; intros Hx; one_request Hx.
  all: request_body.
  all: destruct opts as [o|]; [|done].
  all: rewrite File_fields_named; unfold named_form, upload.WriteField; cbn [app];
    by rewrite <- !app_assoc.
Qed.

Lemma X12_File_form_witness :
  let env := example.env 200 "{}" in
  let x := (sample.upload_request env
              [FormField "network" (Text "private");
               FormField "name" (Text "folder");
               FormFile "file" "a.txt" "A"],
            NetResponse example.answer) in
  x ∈ issued sample.disk
        (upload.File env example.private_upload (Some sample.a_txt)
           (Some sample.folder_options) sample.disk).2 /\
  ReqBody x.1 = FormBody (named_form "" "folder" ∅ "a.txt" "A").
Proof.
  cbv zeta.
  assert ((sample.upload_request (example.env 200 "{}")
             [FormField "network" (Text "private");
              FormField "name" (Text "folder");
              FormFile "file" "a.txt" "A"],
           NetResponse example.answer)
          ∈ issued sample.disk
              (upload.File (example.env 200 "{}") example.private_upload
                 (Some sample.a_txt) (Some sample.folder_options) sample.disk).2) as H
    by (vm_compute; apply list_elem_of_here).
  split; [exact H|]. exact (X12_File_form _ _ _ _ _ _ H).
Defined.

(** The loop of [FileArray] comes through when every file is there and
    can be rewound and read, and then it has written one part per file,
    in the order of the files. *)
Lemma FileArray_loop_parts env handles : forall writer w writer',
  (for_range handles (upload.FileArray_turn env) writer w).1 = Next writer' ->
  exists fs,
    handles = map Some fs /\ Forall (readable env) fs /\
    writer' = writer ++ map (file_part env w) fs.
Proof.
  induction handles as [|file handles IH]; intros writer w writer'.
  - cbn. intros [= <-]. exists []. by rewrite app_nil_r.
  - cbn [for_range]. unfold bind. rewrite FileArray_turn_cases.
    destruct file as [f|]; [|done].
    destruct (e_os_error env (CallSeek _)) eqn:Hseek; [done|].
    destruct (e_os_error env (CallRead _)) eqn:Hread; [done|].
    intros Hrun. apply IH in Hrun as (fs & -> & Hfs & ->).
    exists (f :: fs). rewrite <- app_assoc. split; [done|]. split; [|done].
    by constructor.
Qed.

(** X13: FileArray sends its request only when none of the files is nil
    and each could be rewound and read, and the request is a POST to
    [UploadUrl/files] whose form is the network, the optional fields of
    the options, and then one part per file, in the order the files were
    given, each named [file] and carrying the base name and the contents
    of its file. *)
Theorem X13_FileArray_form env s handles opts w x :
  x ∈ issued w (upload.FileArray env s handles opts w).2 ->
  exists fs,
    handles = map Some fs /\
    Forall (readable env) fs /\
    Method x.1 = "POST" /\
    URL x.1 = types.UploadUrl (w_config w) +:+ "/files" /\
    ReqBody x.1 =
      FormBody (upload.FileArray_fields opts [FormField "network" (Text "private")]
                ++ map (file_part env w) fs).
Proof.
  match goal with |- _ -> ?G => remember G as goal eqn:Hgoal end.
  unfold upload.FileArray. run.
  all: match goal with
       | H : for_range ?l (upload.FileArray_turn ?e) ?wr ?w0 = (?st, ?w1) |- _ =>
           pose proof (FileArray_loop e l wr w0) as [Hw _];
           pose proof (FileArray_loop_parts e l wr w0) as Hparts;
           rewrite H in Hw, Hparts; cbn [fst snd] in Hw, Hparts; subst w1
       | _ => idtac
       end.
  all: issued_list; intros Hx.
  all: first [ by apply elem_of_nil in Hx | apply list_elem_of_singleton in Hx; subst x ].
  all: destruct (Hparts _ eq_refl) as (fs & -> & Hfs & ->).
  all: subst goal; exists fs; cbn [fst].
  all: match goal with
       | |- context [upload.upload_headers ?e ?ct ?cfg ?rq] =>
           destruct (upload_headers_frame e ct cfg rq) as (-> & -> & ->)
       end.
  all: done.
Qed.

Lemma X13_FileArray_form_witness :
  let env := example.env 200 "{}" in
  let handles := [Some sample.a_txt; Some sample.b_txt] in
  let x := (sample.upload_request env
              [FormField "network" (Text "private");
               FormField "name" (Text "folder");
               FormFile "file" "a.txt" "A";
               FormFile "file" "b.txt" "B"],
            NetResponse example.answer) in
  x ∈ issued sample.disk
        (upload.FileArray env example.private_upload handles (Some sample.folder_options)
           sample.disk).2 /\
  exists fs,
    handles = map Some fs /\
    Forall (readable env) fs /\
    Method x.1 = "POST" /\
    URL x.1 = types.UploadUrl (w_config sample.disk) +:+ "/files" /\
    ReqBody x.1 =
      FormBody (upload.FileArray_fields (Some sample.folder_options)
                  [FormField "network" (Text "private")]
                ++ map (file_part env sample.disk) fs).
Proof.
  cbv zeta.
  assert ((sample.upload_request (example.env 200 "{}")
             [FormField "network" (Text "private");
              FormField "name" (Text "folder");
              FormFile "file" "a.txt" "A";
              FormFile "file" "b.txt" "B"],
           NetResponse example.answer)
          ∈ issued sample.disk
              (upload.FileArray (example.env 200 "{}") example.private_upload
                 [Some sample.a_txt; Some sample.b_txt] (Some sample.folder_options)
                 sample.disk).2) as H
    by (vm_compute; apply list_elem_of_here).
  split; [exact H|]. exact (X13_FileArray_form _ _ _ _ _ _ H).
Defined.

(** X14: on a service that holds the configuration, FileArray on a
    single file whose [Stat] succeeds does exactly what File does on
    that file (same request, same result, same world) when there are no
    options or the options carry a name. (With options that carry no
    name File names the upload after the file and FileArray sends no
    name.) *)
Theorem X14_FileArray_of_one_file env s f opts w :
  upload.config s = ConfigPtr ->
  e_os_error env (CallStat (fh_name f)) = None ->
  match opts with
  | Some o => upload.FileName o <> ""
  | None => True
  end ->
  upload.FileArray env s [Some f] opts w = upload.File env s (Some f) opts w.
Proof.
  intros Hcfg Hstat Hname.
  unfold upload.FileArray, upload.File. cbn [for_range].
  unfold upload.FileArray_turn, upload.File_fields, upload.FileArray_fields.
  rewrite Hcfg. unfold_go. rewrite Hstat. unfold_go.
  destruct opts as [o|].
  - rewrite !(decide_True (P := upload.FileName o <> "")) by done.
    run; first [reflexivity | done].
  - run; first [reflexivity | done].
Qed.

Lemma X14_FileArray_of_one_file_witness :
  let env := example.env 200 "{}" in
  upload.config example.private_upload = ConfigPtr /\
  e_os_error env (CallStat (fh_name sample.a_txt)) = None /\
  upload.FileName sample.folder_options <> "" /\
  upload.FileArray env example.private_upload [Some sample.a_txt]
    (Some sample.folder_options) sample.disk =
  upload.File env example.private_upload (Some sample.a_txt)
    (Some sample.folder_options) sample.disk.
Proof.
  cbv zeta. split_and!; [reflexivity|reflexivity|done|].
  by apply X14_FileArray_of_one_file.
Defined.

Lemma URL_default_name_nonempty targetURL : upload.URL_default_name targetURL <> "".
Proof. rewrite URL_default_name_spec. by case_decide. Qed.

Ltac staged_form :=
  rewrite ?lookup_insert_eq; cbn [default append];
  match goal with
  | |- FormBody (upload.File_fields ?info (Some ?o) ?wr ++ ?file) = _ =>
      rewrite (File_fields_named info o wr);
      cbn [upload.FileName upload.GroupID upload.KeyValues info_Name]
  end;
  unfold upload.WriteField, named_form; rewrite <- ?app_assoc; cbn [app];
  do 4 f_equal;
  unfold name_or; repeat case_decide; try done; try congruence;
  exfalso; eapply URL_default_name_nonempty; eassumption.

(** X15: what JSON, Base64 and URL upload is what they were given. Every
    request of JSON and of Base64, and every request of URL but the
    fetch of the target, carries a form whose file part holds the
    marshalled data, the decoded bytes, or the body the target answered
    with status 200; its name field is the name of the options, or the
    default name of the helper when that is empty, and never the name of
    the temporary file, which only serves as the file name of the part. *)
Theorem X15_helpers_upload_what_they_are_given env s :
  (forall data o w x,
     x ∈ issued w (upload.JSON env s (Some data) (Some o) w).2 ->
     exists jsonData,
       e_json_marshal env data = Ok jsonData /\
       ReqBody x.1 =
       FormBody (named_form (upload.JSON_GroupID o)
                   (name_or (upload.JSON_Name o) "data.json")
                   (upload.JSON_KeyValues o)
                   (e_base env (e_temp_name env "pinata-json-*.json" (w_temp w)))
                   jsonData)) /\
  (forall data o w x,
     x ∈ issued w (upload.Base64 env s data (Some o) w).2 ->
     exists decoded,
       e_base64_decode env data = Ok decoded /\
       ReqBody x.1 =
       FormBody (named_form (upload.Base64_GroupID o)
                   (name_or (upload.Base64_Name o) "file")
                   (upload.Base64_KeyValues o)
                   (e_base env (e_temp_name env "pinata-base64-*" (w_temp w)))
                   decoded)) /\
  (forall targetURL o w x,
     x ∈ issued w (upload.URL env s targetURL (Some o) w).2 ->
     x.1 = fetch_request targetURL \/
     exists resp,
       e_net env (w_trace w) (fetch_request targetURL) = NetResponse resp /\
       StatusCode resp = StatusOK /\
       ReqBody x.1 =
       FormBody (named_form (upload.URL_GroupID o)
                   (name_or (upload.URL_Name o) (upload.URL_default_name targetURL))
                   (upload.URL_KeyValues o)
                   (e_base env (e_temp_name env "pinata-url-*" (w_temp w)))
                   (RespBody resp))).
Proof.
  split_and!.
  - intros data o w x.
    match goal with |- _ -> ?G => remember G as goal eqn:Hgoal end.
    unfold upload.JSON, upload.File. run.
    all: issued_list; intros Hx; one_request Hx.
    all: eexists; split; [first [eassumption | reflexivity]|].
    all: request_body.
    all: staged_form.
  - intros data o w x.
    match goal with |- _ -> ?G => remember G as goal eqn:Hgoal end.
    unfold upload.Base64, upload.File. run.
    all: issued_list; intros Hx; one_request Hx.
    all: eexists; split; [first [eassumption | reflexivity]|].
    all: request_body.
    all: staged_form.
  - intros targetURL o w x.
    match goal with |- _ -> ?G => remember G as goal eqn:Hgoal end.
    unfold fetch_request in Hgoal.
    unfold upload.URL, upload.File. run.
    all: issued_list; intros Hx; one_request Hx.
    all: try (by left).
    all: right; eexists; split; [first [eassumption | reflexivity]|].
    all: split; [unfold StatusOK in *; lia|].
    all: request_body.
    all: staged_form.
Qed.

Lemma X15_helpers_upload_what_they_are_given_witness :
  let env := example.env 200 "{}" in
  let x := (sample.upload_request env
              [FormField "network" (Text "private");
               FormField "group_id" (Text "g1");
               FormField "name" (Text "data.json");
               FormFile "file" "/tmp/pinata-json-*.json0" "7"],
            NetResponse example.answer) in
  x ∈ issued example.world
        (upload.JSON env example.private_upload (Some (GoInt 7)) (Some example.json_options)
           example.world).2 /\
  exists jsonData,
    e_json_marshal env (GoInt 7) = Ok jsonData /\
    ReqBody x.1 =
    FormBody (named_form "g1" "data.json" ∅ "/tmp/pinata-json-*.json0" jsonData).
Proof.
  cbv zeta.
  assert ((sample.upload_request (example.env 200 "{}")
             [FormField "network" (Text "private");
              FormField "group_id" (Text "g1");
              FormField "name" (Text "data.json");
              FormFile "file" "/tmp/pinata-json-*.json0" "7"],
           NetResponse example.answer)
          ∈ issued example.world
              (upload.JSON (example.env 200 "{}") example.private_upload (Some (GoInt 7))
                 (Some example.json_options) example.world).2) as H
    by (vm_compute; apply list_elem_of_here).
  split; [exact H|].
  destruct (X15_helpers_upload_what_they_are_given (example.env 200 "{}")
              example.private_upload) as (HJ & _).
  exact (HJ _ _ _ _ H).
Defined.

(** ** Names and links *)

Lemma occurs_in_app c a b : occurs_in c (a +:+ b) <-> occurs_in c a \/ occurs_in c b.
Proof.
  induction a as [|x a IH]; cbn; [tauto|].
  change (x = c \/ occurs_in c (a +:+ b) <-> (x = c \/ occurs_in c a) \/ occurs_in c b).
  tauto.
Qed.

Lemma contains_occurs_in s c : gostrings.contains s (String c "") -> occurs_in c s.
Proof.
  intros (pre & post & ->). apply occurs_in_app. right. by left.
Qed.

Lemma after_last_slash_no_slash s : forall seg,
  ~ occurs_in "/" seg -> ~ occurs_in "/" (after_last_slash seg s).
Proof.
  induction s as [|a s IH]; intros seg Hseg; cbn [after_last_slash]; [done|].
  case_decide.
  - apply IH. cbn. tauto.
  - apply IH. rewrite occurs_in_app. cbn. intros [?|[?|[]]]; done.
Qed.

(** X16: the name URL gives an upload when the options carry none is
    never empty and has no slash in it, whatever the target is. *)
Theorem X16_URL_default_name_is_a_name targetURL :
  upload.URL_default_name targetURL <> "" /\
  ~ gostrings.contains (upload.URL_default_name targetURL) "/".
Proof.
  rewrite URL_default_name_spec. case_decide.
  - split; [done|]. intros Hc. apply contains_occurs_in in Hc. cbn in Hc.
    repeat (destruct Hc as [Hc|Hc]; [discriminate Hc|]). done.
  - split; [done|]. intros Hc. apply contains_occurs_in in Hc. revert Hc.
    apply after_last_slash_no_slash. cbn. tauto.
Qed.

Lemma has_prefix_app p s : gostrings.has_prefix p (p +:+ s) = true.
Proof.
  induction p as [|a p IH]; [done|].
  change (bool_decide (a = a) && gostrings.has_prefix p (p +:+ s) = true).
  by rewrite bool_decide_eq_true_2, IH.
Qed.

Lemma contains_occursb s x : gostrings.contains s x -> occursb x s = true.
Proof.
  intros (pre & post & ->). induction pre as [|a pre IH].
  - change ("" +:+ x +:+ post) with (x +:+ post).
    destruct (x +:+ post) eqn:Heq; cbn; rewrite <- Heq, has_prefix_app; done.
  - change (occursb x (String a (pre +:+ x +:+ post)) = true). cbn.
    rewrite IH. apply orb_true_r.
Qed.

(** [ReplaceAll] of a string that begins with [first], by one byte that
    does not occur in it. *)
Section Replace.

Context (first : ascii) (old' : string) (new : ascii).

Let old := String first old'.

Hypothesis new_fresh : ~ occurs_in new old.

(** What the output begins with, if it has no [new] in it, the input
    begins with. *)
Lemma replace_has_prefix p : ~ occurs_in new p -> forall s,
  gostrings.has_prefix p (gostrings.replace_from old (String new "") 0 s) = true ->
  gostrings.has_prefix p s = true.
Proof.
  induction p as [|c p IH]; intros Hp s; [done|].
  destruct s as [|b s]; [done|].
  cbn [gostrings.replace_from].
  destruct (gostrings.has_prefix old (String b s)) eqn:Hold.
  - cbn. intros [Hc _]%andb_prop. apply bool_decide_eq_true in Hc.
    exfalso. apply Hp. by left.
  - cbn. intros [Hc Hrest]%andb_prop. rewrite Hc. cbn.
    apply IH; [|done]. intros Hin. apply Hp. by right.
Qed.

Lemma replace_from_clean s : forall skip,
  occursb old (gostrings.replace_from old (String new "") skip s) = false.
Proof.
  induction s as [|a s IH]; intros skip; [done|].
  cbn [gostrings.replace_from]. destruct skip as [|k]; [|apply IH].
  destruct (gostrings.has_prefix old (String a s)) eqn:Hold.
  - change (occursb old (String new (gostrings.replace_from old (String new "")
                                       (String.length old - 1) s)) = false).
    cbn [occursb]. rewrite IH, orb_false_r. unfold old. cbn.
    apply andb_false_intro1, bool_decide_eq_false_2.
    intros ->. apply new_fresh. by left.
  - cbn [occursb]. rewrite IH, orb_false_r.
    destruct (gostrings.has_prefix old (String a (gostrings.replace_from old (String new "") 0 s)))
      eqn:Hout; [|done].
    exfalso. unfold old in Hout, Hold. cbn in Hout, Hold.
    apply andb_prop in Hout as [Ha Hrest].
    apply replace_has_prefix in Hrest.
    + by rewrite Ha, Hrest in Hold.
    + intros Hin. apply new_fresh. by right.
Qed.

(** No occurrence of [old] is left. *)
Lemma ReplaceAll_clean s :
  ~ gostrings.contains (gostrings.ReplaceAll s old (String new "")) old.
Proof.
  intros Hc%contains_occursb. unfold gostrings.ReplaceAll in Hc.
  by rewrite replace_from_clean in Hc.
Qed.

End Replace.

Lemma trim_left_suffix c s : exists front, s = front +:+ gostrings.trim_left c s.
Proof.
  induction s as [|a s [front IH]]; [by exists ""|].
  cbn. case_decide; [|by exists ""].
  exists (String a front).
  change (String a s = String a (front +:+ gostrings.trim_left c s)). by rewrite <- IH.
Qed.

Lemma trim_right_prefix c s : exists rest, s = gostrings.trim_right c s +:+ rest.
Proof.
  induction s as [|a s [rest IH]]; [by exists ""|].
  cbn. destruct (gostrings.trim_right c s) as [|b r].
  - case_decide; [by exists (String a s)|]. exists rest.
    change (String a s = String a ("" +:+ rest)). by rewrite <- IH.
  - exists rest.
    change (String a s = String a (String b r +:+ rest)). by rewrite <- IH.
Qed.

Lemma trim_left_head c s : ~ starts_with (String c "") (gostrings.trim_left c s).
Proof.
  induction s as [|a s IH]; cbn.
  - by intros [rest Hr].
  - case_decide; [done|]. intros [rest [= ->]]. done.
Qed.

Lemma trim_right_last c s : ~ ends_with (String c "") (gostrings.trim_right c s).
Proof.
  induction s as [|a s IH]; cbn.
  - intros [[|x front] Hf]; discriminate Hf.
  - destruct (gostrings.trim_right c s) as [|b r].
    + case_decide.
      * intros [[|x front] Hf]; discriminate Hf.
      * intros [[|x front] Hf]; cbn in Hf; [by injection Hf|].
        injection Hf as _ Hf. destruct front; discriminate Hf.
    + intros [[|x front] Hf]; [discriminate Hf|].
      cbn in Hf. injection Hf as _ Hf. apply IH. by exists front.
Qed.

(** [Trim] cuts a piece out of its argument, and the piece neither
    begins nor ends with the byte trimmed. *)
Lemma Trim_contains s c x :
  gostrings.contains (gostrings.Trim s c) x -> gostrings.contains s x.
Proof.
  unfold gostrings.Trim. intros (pre & post & Hx).
  destruct (trim_left_suffix c s) as [front Hs].
  destruct (trim_right_prefix c (gostrings.trim_left c s)) as [rest Hr].
  exists (front +:+ pre), (post +:+ rest).
  rewrite Hs at 1. rewrite Hr at 1. rewrite Hx. by rewrite !append_assoc.
Qed.

Lemma Trim_ends s c :
  ~ starts_with (String c "") (gostrings.Trim s c) /\
  ~ ends_with (String c "") (gostrings.Trim s c).
Proof.
  unfold gostrings.Trim. split; [|apply trim_right_last].
  intros [rest Hrest].
  destruct (trim_right_prefix c (gostrings.trim_left c s)) as [rest' Hr].
  apply (trim_left_head c s). exists (rest +:+ rest').
  rewrite Hr at 1. rewrite Hrest. by rewrite append_assoc.
Qed.

(** X17: the link CreateAccessLink returns without an error holds no
    escaped ampersand (a backslash followed by u0026) any more, and it
    neither begins nor ends with a double quote, whatever the server
    sent as the data of its answer. *)
Theorem X17_access_link_is_clean env s opts w link :
  (files.Private_CreateAccessLink env s opts w).1 = Returned (link, None) ->
  ~ gostrings.contains link gostrings.escaped_ampersand /\
  ~ starts_with quote link /\
  ~ ends_with quote link.
Proof.
  unfold files.Private_CreateAccessLink. run; try discriminate.
  all: intros [= <-].
  all: split; [|apply Trim_ends].
  all: intros Hc%Trim_contains; revert Hc.
  all: apply (ReplaceAll_clean "092"%char "u0026" "&"%char).
  all: cbn; intros Hin; repeat (destruct Hin as [Hin|Hin]; [discriminate Hin|]); done.
Qed.

Lemma X17_access_link_is_clean_witness :
  let link := quote +:+ "https://gw/files/x?a=1" +:+ gostrings.escaped_ampersand +:+ "b=2"
              +:+ quote in
  (files.Private_CreateAccessLink (sample.linking link) example.private_files
     (Some example.link_options) example.world).1 =
  Returned ("https://gw/files/x?a=1&b=2", None) /\
  ~ gostrings.contains "https://gw/files/x?a=1&b=2" gostrings.escaped_ampersand /\
  ~ starts_with quote "https://gw/files/x?a=1&b=2" /\
  ~ ends_with quote "https://gw/files/x?a=1&b=2".
Proof.
  cbv zeta.
  assert ((files.Private_CreateAccessLink
             (sample.linking (quote +:+ "https://gw/files/x?a=1" +:+ gostrings.escaped_ampersand
                              +:+ "b=2" +:+ quote))
             example.private_files (Some example.link_options) example.world).1 =
          Returned ("https://gw/files/x?a=1&b=2", None)) as H
    by (vm_compute; reflexivity).
  split; [exact H|]. exact (X17_access_link_is_clean _ _ _ _ _ H).
Defined.

(** ** TestAuthentication *)

(** X18: TestAuthentication sends at most one request, and its outcome
    follows from that exchange. It sends none when [http.NewRequest]
    rejects the URL (an error) or when the client has no configuration
    (a nil-pointer panic). Otherwise it sends one GET without a body to
    the fixed URL [https://api.pinata.cloud/data/testAuthentication],
    whatever [APIUrl] the configuration names, and returns [true] without
    an error exactly when the answer has status 200; a transport error
    and any other status give [false] and an error, which for a status
    holds the status code and the body. *)
Theorem X18_TestAuthentication_outcome env c w :
  let r := pinata.TestAuthentication env c w in
  match issued w r.2 with
  | [] =>
      r.1 = Panicked nil_dereference /\ pinata.Config c = pinata.NilConfig \/
      exists e, e_url_error env pinata.authentication_URL = Some e /\
                r.1 = Returned (false, Some ("failed to create request: " +:+ e))
  | [(req, res)] =>
      pinata.Config c = pinata.TheConfig /\
      Method req = "GET" /\ URL req = pinata.authentication_URL /\ ReqBody req = NoBody /\
      r.1 = Returned
              match res with
              | NetError e => (false, Some ("failed to send request: " +:+ e))
              | NetResponse resp =>
                  if decide (StatusCode resp = StatusOK) then (true, None)
                  else (false, Some (pinata.authentication_error resp))
              end
  | _ => False
  end.
Proof.
  cbv zeta. unfold pinata.TestAuthentication, pinata.Client_Config. run.
  all: match goal with H : issued _ _ = _ |- _ => revert H end.
  all: issued_list; intros Hl; simplify_eq.
  all: try (by left).
  all: try (right; eexists; split; [first [eassumption | reflexivity]|reflexivity]).
  all: match goal with
       | |- context [set_custom_headers ?e ?h ?rq] =>
           destruct (set_custom_headers_frame e h rq) as (-> & -> & ->)
       end.
  all: cbn; split_and!; done.
Qed.
